(** * Travelport flight search: request builder, response interpreter, mock responder

    A shallow embedding of
    - [travelport_flight_search/wizard/flight_search_wizard.py] (the wizard:
      validation, request building, response flattening, order-line creation),
    - [travelport_flight_search/mock_server/travelport_mock_server.py] (the
      mock of the remote catalogue service),
    together with the part of the Python runtime those two files lean on:
    JSON documents as dynamically typed values, exceptions, truthiness,
    [dict.get], iteration, string formatting and binary64 arithmetic.

    Conventions.
    - A method that can raise returns a [result]; the exception names are
      Python's.  A method that logs returns the warnings next to its value.
    - Records of the ORM are values: a method that writes returns the new
      record.  The wizard has the fields its modelled methods read.
    - Strings are byte strings.  [upper], [strip] and [int()] act on ASCII
      letters, ASCII white space and ASCII digits, as Python does on ASCII
      text; [len] counts bytes.
    - Floats are the primitive binary64 numbers, so prices compute as they do
      in CPython; [round(x, 2)] and [format(x, '.2f')] are written out from
      the exact value of the float.
    - The random module is a tape of draws handed to the mock. *)

From Stdlib Require Import ZArith List String Ascii Bool Lia.
From Stdlib Require Import Floats.PrimFloat Floats.FloatOps Floats.SpecFloat.
From Stdlib Require Import Numbers.Cyclic.Int63.Uint63.
From Stdlib Require Import DecimalString.
Import ListNotations.

Set Warnings "-register-all,-inexact-float".

Open Scope string_scope.
Open Scope Z_scope.
Open Scope list_scope.

Infix "+++" := String.append (right associativity, at level 60).

(* ===================================================================== *)
(** * 1. The Python values the code handles *)
(* ===================================================================== *)

(** What [json.loads] / [request.get_json()] hands to the code: [None], [bool],
    [int] (unbounded), [float] (binary64), [str], [list] and [dict] with string
    keys.  A [dict] is kept as its items in insertion order. *)
Inductive json : Type :=
| JNull
| JBool (b : bool)
| JInt (z : Z)
| JFloat (f : float)
| JStr (s : string)
| JArr (l : list json)
| JObj (kvs : list (string * json)).

(** Exceptions that the modelled code raises itself ([UserError],
    [ValidationError]) or that the interpreter raises on its behalf. *)
Inductive exn : Type :=
| UserError (msg : string)
| ValidationError (msg : string)
| AttributeError
| TypeError
| ValueError
| KeyError
| IndexError
| OverflowError.

Inductive result (A : Type) : Type :=
| Ok (a : A)
| Raise (e : exn).
Arguments Ok {A} a.
Arguments Raise {A} e.

Definition bind {A B : Type} (c : result A) (k : A -> result B) : result B :=
  match c with
  | Ok a => k a
  | Raise e => Raise e
  end.

Notation "x <- c ;; k" := (bind c (fun x => k))
  (at level 61, c at next level, right associativity).
Notation "' pat <- c ;; k" := (bind c (fun x => match x with pat => k end))
  (at level 61, pat pattern, c at next level, right associativity).

(** A [for] loop whose body may raise and contributes a value: the bodies run
    left to right and the first exception ends the loop. *)
Fixpoint mapM {A B : Type} (f : A -> result B) (l : list A) : result (list B) :=
  match l with
  | [] => Ok []
  | x :: xs => y <- f x ;; ys <- mapM f xs ;; Ok (y :: ys)
  end.

(** A [for] loop that threads an accumulator. *)
Fixpoint foldM {A S : Type} (f : S -> A -> result S) (s : S) (l : list A) : result S :=
  match l with
  | [] => Ok s
  | x :: xs => s' <- f s x ;; foldM f s' xs
  end.

(** ** Strings *)

Definition string_of_Z (z : Z) : string := NilZero.string_of_int (Z.to_int z).

Definition string_of_nat (n : nat) : string := string_of_Z (Z.of_nat n).

Fixpoint join (sep : string) (l : list string) : string :=
  match l with
  | [] => EmptyString
  | [s] => s
  | s :: rest => s +++ sep +++ join sep rest
  end.

(** [str.upper] on ASCII letters; strings are byte strings here, so the bytes
    of a non-ASCII character are left as they are. *)
Definition upper_ascii (c : ascii) : ascii :=
  let n := nat_of_ascii c in
  if (97 <=? n)%nat && (n <=? 122)%nat then ascii_of_nat (n - 32) else c.

Fixpoint upper (s : string) : string :=
  match s with
  | EmptyString => EmptyString
  | String c s' => String (upper_ascii c) (upper s')
  end.

(** [s.split(sep)] for a one-character separator. *)
Fixpoint split (sep : ascii) (s : string) : list string :=
  match s with
  | EmptyString => [EmptyString]
  | String c s' =>
      if Ascii.eqb c sep then EmptyString :: split sep s'
      else match split sep s' with
           | [] => [String c EmptyString]
           | t :: ts => String c t :: ts
           end
  end.

(** The ASCII characters [str.strip()] removes: TAB, LF, VT, FF, CR, the four
    separators 0x1c-0x1f and the space. *)
Definition is_space (c : ascii) : bool :=
  let n := nat_of_ascii c in
  ((9 <=? n)%nat && (n <=? 13)%nat) || ((28 <=? n)%nat && (n <=? 32)%nat).

Fixpoint lstrip (s : string) : string :=
  match s with
  | EmptyString => EmptyString
  | String c s' => if is_space c then lstrip s' else s
  end.

Fixpoint rstrip (s : string) : string :=
  match s with
  | EmptyString => EmptyString
  | String c s' =>
      match rstrip s' with
      | EmptyString => if is_space c then EmptyString else String c EmptyString
      | t => String c t
      end
  end.

Definition strip (s : string) : string := rstrip (lstrip s).

Definition nonempty (s : string) : bool :=
  match s with EmptyString => false | _ => true end.

Definition digit_of (c : ascii) : option Z :=
  let n := nat_of_ascii c in
  if (48 <=? n)%nat && (n <=? 57)%nat then Some (Z.of_nat (n - 48)) else None.

(** The digits of a decimal literal as [int()] reads them: a single underscore
    may sit between two digits. [seen] says that the previous character was a
    digit. *)
Fixpoint parse_digits (acc : Z) (seen : bool) (s : string) : option Z :=
  match s with
  | EmptyString => if seen then Some acc else None
  | String c s' =>
      match digit_of c with
      | Some d => parse_digits (10 * acc + d) true s'
      | None =>
          if Ascii.eqb c "_"%char && seen then parse_digits acc false s' else None
      end
  end.

(** [int(s)] in base 10: [None] stands for [ValueError]. *)
Definition py_int (s : string) : option Z :=
  match strip s with
  | String "+"%char r => parse_digits 0 false r
  | String "-"%char r => option_map Z.opp (parse_digits 0 false r)
  | t => parse_digits 0 false t
  end.

(** [needle in haystack] on two strings. *)
Fixpoint is_prefix (p s : string) : bool :=
  match p, s with
  | EmptyString, _ => true
  | String a p', String b s' => Ascii.eqb a b && is_prefix p' s'
  | String _ _, EmptyString => false
  end.

Fixpoint is_substring (p s : string) : bool :=
  is_prefix p s ||
  match s with
  | EmptyString => false
  | String _ s' => is_substring p s'
  end.

Fixpoint chars (s : string) : list string :=
  match s with
  | EmptyString => []
  | String c s' => String c EmptyString :: chars s'
  end.

(** ** Truthiness, attribute access, subscripting, iteration *)

Definition truthy (v : json) : bool :=
  match v with
  | JNull => false
  | JBool b => b
  | JInt z => negb (z =? 0)
  | JFloat f => negb (PrimFloat.eqb f 0)
  | JStr s => nonempty s
  | JArr l => match l with [] => false | _ => true end
  | JObj kvs => match kvs with [] => false | _ => true end
  end.

Fixpoint assoc (k : string) (kvs : list (string * json)) : option json :=
  match kvs with
  | [] => None
  | (k', v) :: rest => if String.eqb k' k then Some v else assoc k rest
  end.

(** [d.get(k, default)]: only a [dict] has the method. *)
Definition py_get (d : json) (k : string) (default : json) : result json :=
  match d with
  | JObj kvs => Ok (match assoc k kvs with Some v => v | None => default end)
  | _ => Raise AttributeError
  end.

(** [d[k]] for a string [k]. *)
Definition py_getitem (d : json) (k : string) : result json :=
  match d with
  | JObj kvs => match assoc k kvs with Some v => Ok v | None => Raise KeyError end
  | _ => Raise TypeError
  end.

(** [x[i]] for a literal index [i >= 0]. *)
Definition py_index (x : json) (i : nat) : result json :=
  match x with
  | JArr l => match nth_error l i with Some v => Ok v | None => Raise IndexError end
  | JStr s => match nth_error (chars s) i with
              | Some c => Ok (JStr c)
              | None => Raise IndexError
              end
  | JObj _ => Raise KeyError
  | _ => Raise TypeError
  end.

(** [len(x)]. *)
Definition py_len (x : json) : result nat :=
  match x with
  | JArr l => Ok (List.length l)
  | JStr s => Ok (String.length s)
  | JObj kvs => Ok (List.length kvs)
  | _ => Raise TypeError
  end.

(** What [for x in v] visits. *)
Definition py_iter (v : json) : result (list json) :=
  match v with
  | JArr l => Ok l
  | JStr s => Ok (map JStr (chars s))
  | JObj kvs => Ok (map (fun kv => JStr (fst kv)) kvs)
  | _ => Raise TypeError
  end.

(** [v == s] for a string literal [s]. *)
Definition str_eq (v : json) (s : string) : bool :=
  match v with
  | JStr t => String.eqb t s
  | _ => false
  end.

(** [s in v] for a string literal [s]. *)
Definition py_in (s : string) (v : json) : result bool :=
  match v with
  | JObj kvs => Ok (match assoc s kvs with Some _ => true | None => false end)
  | JArr l => Ok (existsb (fun x => str_eq x s) l)
  | JStr t => Ok (is_substring s t)
  | _ => Raise TypeError
  end.

Definition is_dict (v : json) : bool :=
  match v with JObj _ => true | _ => false end.

(** ** Dictionaries built by the code, keyed by values taken from a document *)

Definition hashable (v : json) : bool :=
  match v with
  | JArr _ | JObj _ => false
  | _ => true
  end.

(** [f == z] for a float and an int: the comparison is exact. *)
Definition float_eq_Z (f : float) (z : Z) : bool :=
  match Prim2SF f with
  | S754_zero _ => z =? 0
  | S754_finite s m e =>
      let a := if 0 <=? e then Some (Zpos m * 2 ^ e)
               else if (Zpos m) mod 2 ^ (- e) =? 0 then Some (Zpos m / 2 ^ (- e))
               else None in
      match a with
      | Some a => z =? (if s then - a else a)
      | None => false
      end
  | _ => false
  end.

Definition num_view (v : json) : option (Z + float) :=
  match v with
  | JBool b => Some (inl (if b then 1 else 0))
  | JInt z => Some (inl z)
  | JFloat f => Some (inr f)
  | _ => None
  end.

(** [a == b] on hashable values: numbers compare by value across [bool], [int]
    and [float]. *)
Definition py_eq (a b : json) : bool :=
  match a, b with
  | JNull, JNull => true
  | JStr s, JStr t => String.eqb s t
  | _, _ =>
      match num_view a, num_view b with
      | Some (inl x), Some (inl y) => x =? y
      | Some (inr f), Some (inr g) => PrimFloat.eqb f g
      | Some (inl x), Some (inr f) => float_eq_Z f x
      | Some (inr f), Some (inl x) => float_eq_Z f x
      | _, _ => false
      end
  end.

Definition pydict : Type := list (json * json).

Fixpoint dict_lookup (d : pydict) (k : json) : option json :=
  match d with
  | [] => None
  | (k', v) :: rest => if py_eq k' k then Some v else dict_lookup rest k
  end.

(** [d[k] = v]: an existing key keeps its place. *)
Fixpoint dict_store (d : pydict) (k v : json) : pydict :=
  match d with
  | [] => [(k, v)]
  | (k', v') :: rest =>
      if py_eq k' k then (k', v) :: rest else (k', v') :: dict_store rest k v
  end.

Definition dict_set (d : pydict) (k v : json) : result pydict :=
  if hashable k then Ok (dict_store d k v) else Raise TypeError.

(** [d.get(k)]: [None] when the key is absent, [TypeError] when [k] cannot be
    hashed. *)
Definition dict_get (d : pydict) (k : json) : result json :=
  if hashable k
  then Ok (match dict_lookup d k with Some v => v | None => JNull end)
  else Raise TypeError.

Definition dict_values (d : pydict) : list json := map snd d.

(** ** Binary64 numbers: formatting and rounding to two decimals *)

(** Integer nearest to [n / d] for [d > 0], ties to the even one. *)
Definition round_div_even (n d : Z) : Z :=
  let q := n / d in
  let r := n mod d in
  match 2 * r ?= d with
  | Lt => q
  | Gt => q + 1
  | Eq => if Z.even q then q else q + 1
  end.

(** [m * 2^e * 100] rounded to an integer: the number of hundredths nearest to
    the exact value of the float. *)
Definition hundredths (m : positive) (e : Z) : Z :=
  if 0 <=? e then Zpos m * 2 ^ e * 100
  else round_div_even (Zpos m * 100) (2 ^ (- e)).

Definition two_digits (n : Z) : string :=
  if n <? 10 then "0" +++ string_of_Z n else string_of_Z n.

Definition sign_prefix (s : bool) : string := if s then "-"%string else EmptyString.

(** [format(x, '.2f')] for a float given by its sign, mantissa and exponent. *)
Definition sf_format_2f (x : spec_float) : string :=
  match x with
  | S754_nan => "nan"
  | S754_infinity s => sign_prefix s +++ "inf"
  | S754_zero s => sign_prefix s +++ "0.00"
  | S754_finite s m e =>
      let k := hundredths m e in
      sign_prefix s +++ string_of_Z (k / 100) +++ "." +++ two_digits (k mod 100)
  end.

(** [float(z)] for an [int]: correctly rounded, [OverflowError] beyond the
    binary64 range. *)
Definition sf_of_int (z : Z) : result spec_float :=
  match binary_normalize prec emax z 0 false with
  | S754_infinity _ => Raise OverflowError
  | x => Ok x
  end.

Definition float_of_int (z : Z) : result float :=
  x <- sf_of_int z ;; Ok (SF2Prim x).

(** The format spec [:.2f] of an f-string, by the type of the value. *)
Definition format_2f (v : json) : result string :=
  match v with
  | JFloat f => Ok (sf_format_2f (Prim2SF f))
  | JInt z => x <- sf_of_int z ;; Ok (sf_format_2f x)
  | JBool b => Ok (if b then "1.00" else "0.00")%string
  | JStr _ => Raise ValueError
  | JNull | JArr _ | JObj _ => Raise TypeError
  end.

(** [round(x, 2)]: the double nearest to the nearest number of hundredths. *)
Definition round2 (x : float) : float :=
  match Prim2SF x with
  | S754_finite s m e =>
      if 0 <=? e then x
      else
        let k := hundredths m e in
        if k =? 0 then (if s then neg_zero else zero)
        else
          let '(mz, ez, lz) := SFdiv_core_binary prec emax k 0 100 0 in
          SF2Prim (binary_round_aux prec emax s mz ez lz)
  | _ => x
  end.

(** Numbers as [sum()] adds them up. *)
Inductive pynum : Type :=
| PInt (z : Z)
| PFloat (f : float).

Definition to_float (n : pynum) : result float :=
  match n with
  | PInt z => float_of_int z
  | PFloat f => Ok f
  end.

Definition num_of (v : json) : result pynum :=
  match v with
  | JBool b => Ok (PInt (if b then 1 else 0))
  | JInt z => Ok (PInt z)
  | JFloat f => Ok (PFloat f)
  | _ => Raise TypeError
  end.

Definition py_add (a b : pynum) : result pynum :=
  match a, b with
  | PInt x, PInt y => Ok (PInt (x + y))
  | _, _ => x <- to_float a ;; y <- to_float b ;; Ok (PFloat (x + y)%float)
  end.

Definition py_mul (a b : pynum) : result pynum :=
  match a, b with
  | PInt x, PInt y => Ok (PInt (x * y))
  | _, _ => x <- to_float a ;; y <- to_float b ;; Ok (PFloat (x * y)%float)
  end.

Definition py_sum (l : list json) : result pynum :=
  foldM (fun acc v => n <- num_of v ;; py_add acc n) (PInt 0) l.

(* ===================================================================== *)
(** * 2. The wizard: records, validation, request building *)
(* ===================================================================== *)

(** A [datetime.date]. *)
Record date : Type := mkdate { year : Z; month : Z; day : Z }.

(** [a <= b] on dates. *)
Definition date_leb (a b : date) : bool :=
  (year a <? year b) ||
  ((year a =? year b) &&
   ((month a <? month b) || ((month a =? month b) && (day a <=? day b)))).

Fixpoint zeros (n : nat) : string :=
  match n with
  | O => EmptyString
  | S n' => String "0"%char (zeros n')
  end.

Definition pad_left (width : nat) (s : string) : string :=
  zeros (width - String.length s) +++ s.

(** [d.strftime('%Y-%m-%d')], the year on four digits. *)
Definition strftime_ymd (d : date) : string :=
  pad_left 4 (string_of_Z (year d)) +++ "-" +++
  pad_left 2 (string_of_Z (month d)) +++ "-" +++
  pad_left 2 (string_of_Z (day d)).

(** The [sale.order] a wizard is opened on, as far as the wizard reads it. *)
Record sale_order : Type := {
  so_id : Z;
  currency_name : string
}.

(** [travelport.flight.offer]: the values one record is created from. *)
Record flight_offer : Type := {
  wizard_id : Z;
  offer_id : json;
  selected : bool;
  price : json;
  currency : json;
  flight_details : string;
  raw_data : string
}.

(** [travelport.flight.search.wizard].  An unset [Date], [Char] or [Selection]
    field reads as [False]: [None] here. *)
Record wizard : Type := {
  wiz_id : Z;
  sale_order_id : sale_order;
  origin : string;
  destination : string;
  departure_date : option date;
  is_round_trip : bool;
  return_date : option date;
  passenger_adult_count : Z;
  passenger_child_count : Z;
  passenger_child_ages : option string;
  cabin_class : option string;
  flight_offers : list flight_offer
}.

(** [[age.strip() for age in ages.split(',') if age.strip()]] *)
Definition child_age_tokens (ages : string) : list string :=
  filter nonempty (map strip (split ","%char ages)).

Definition age_count_message (n : nat) (count : Z) : string :=
  "Number of child ages (" +++ string_of_nat n +++
  ") must match number of children (" +++ string_of_Z count +++ ").".

Definition _check_child_ages (w : wizard) : result unit :=
  if 0 <? passenger_child_count w then
    match passenger_child_ages w with
    | None =>
        Raise (ValidationError "Please enter child ages when children are included.")
    | Some s =>
        if negb (nonempty s) then
          Raise (ValidationError "Please enter child ages when children are included.")
        else
          let ages := child_age_tokens s in
          if negb (Z.of_nat (List.length ages) =? passenger_child_count w) then
            Raise (ValidationError
                     (age_count_message (List.length ages) (passenger_child_count w)))
          else Ok tt
    end
  else Ok tt.

Definition _check_return_date (w : wizard) : result unit :=
  match is_round_trip w, return_date w with
  | true, None =>
      Raise (ValidationError "Return date is required for round trip searches.")
  | true, Some r =>
      match departure_date w with
      | Some d =>
          if date_leb r d then
            Raise (ValidationError "Return date must be after departure date.")
          else Ok tt
      | None => Ok tt
      end
  | false, _ => Ok tt
  end.

Definition adult_entry (n : Z) : json :=
  JObj [("value", JStr "ADT"); ("number", JInt n)].

Definition child_entry (age : Z) : json :=
  JObj [("value", JStr "CNN"); ("number", JInt 1); ("age", JInt age)].

(** The loop over the ages: an age that [int()] rejects is logged as a warning
    and the loop goes on. *)
Fixpoint child_loop (ages : list string) (criteria : list json) (log : list string)
  : list json * list string :=
  match ages with
  | [] => (criteria, log)
  | age :: rest =>
      match py_int age with
      | Some age_int => child_loop rest (criteria ++ [child_entry age_int]) log
      | None => child_loop rest criteria (log ++ ["Invalid child age: " +++ age])
      end
  end.

(** Returns the criteria and the warnings written to the log. *)
Definition _prepare_passenger_criteria (w : wizard) : result (list json * list string) :=
  let criteria :=
    if 0 <? passenger_adult_count w then [adult_entry (passenger_adult_count w)] else [] in
  if 0 <? passenger_child_count w then
    match passenger_child_ages w with
    | None => Raise AttributeError
    | Some s => Ok (child_loop (child_age_tokens s) criteria [])
    end
  else Ok (criteria, []).

Definition outbound_leg (d : date) (w : wizard) : json :=
  JObj [("departureDate", JStr (strftime_ymd d));
        ("From", JObj [("value", JStr (upper (origin w)));
                       ("cityOrAirport", JStr "City or Airport")]);
        ("To", JObj [("value", JStr (upper (destination w)));
                     ("cityOrAirport", JStr "City or Airport")])].

Definition return_leg (r : date) (w : wizard) : json :=
  JObj [("departureDate", JStr (strftime_ymd r));
        ("From", JObj [("value", JStr (upper (destination w)))]);
        ("To", JObj [("value", JStr (upper (origin w)))])].

Definition _prepare_search_criteria_flight (w : wizard) : result (list json) :=
  match departure_date w with
  | None => Raise AttributeError
  | Some d =>
      let search_criteria := [outbound_leg d w] in
      match is_round_trip w, return_date w with
      | true, Some r => Ok (search_criteria ++ [return_leg r w])
      | _, _ => Ok search_criteria
      end
  end.

Definition cabin_map : list (string * string) :=
  [("Premium Economy", "PremiumEconomy"); ("Business", "Business"); ("First", "First")].

Fixpoint str_assoc (k : string) (m : list (string * string)) : option string :=
  match m with
  | [] => None
  | (k', v) :: rest => if String.eqb k' k then Some v else str_assoc k rest
  end.

(** The [Cabin] entry of the request: absent for an unset class and for
    'Economy'. *)
Definition cabin_filter (w : wizard) : list (string * json) :=
  match cabin_class w with
  | Some c =>
      if nonempty c && negb (String.eqb c "Economy") then
        [("Cabin", JArr [JStr (match str_assoc c cabin_map with
                               | Some code => code
                               | None => c
                               end)])]
      else []
  | None => []
  end.

(** Returns the payload and the warnings logged on the way. *)
Definition _prepare_api_payload (w : wizard) : result (json * list string) :=
  '(passengers, log) <- _prepare_passenger_criteria w ;;
  legs <- _prepare_search_criteria_flight w ;;
  Ok (JObj
        [("CatalogProductOfferingsQueryRequest",
          JObj [("CustomResponseModifiersAir",
                 JObj [("SearchRepresentation", JStr "Journey");
                       ("includeCo2EmissionsDataInd", JBool true);
                       ("includeFlightAmenitiesInd", JBool true)]);
                ("CatalogProductOfferingsRequest",
                 JObj ([("offersPerPage", JInt 50);
                        ("sortBy", JStr "Price-LowToHigh");
                        ("contentSourceList", JArr [JStr "GDS"; JStr "NDC"]);
                        ("PassengerCriteria", JArr passengers);
                        ("SearchCriteriaFlight", JArr legs)]
                       ++ cabin_filter w))])],
      log).

(** The checks [action_search_flights] makes before it builds the request. *)
Definition check_airport_codes (w : wizard) : result unit :=
  if negb (nonempty (origin w)) || negb (nonempty (destination w)) then
    Raise (UserError "Please provide origin and destination airport codes.")
  else if negb (String.length (origin w) =? 3)%nat
          || negb (String.length (destination w) =? 3)%nat then
    Raise (UserError "Airport codes must be 3 characters (IATA format).")
  else Ok tt.

(** A wizard whose criteria passed validation: both constraints hold, the
    required departure date is set and the airport codes were accepted. *)
Definition validated (w : wizard) : Prop :=
  _check_child_ages w = Ok tt /\
  _check_return_date w = Ok tt /\
  check_airport_codes w = Ok tt /\
  departure_date w <> None.

(** ** Order lines *)

(** [sale.order.line]: the values one line is created from. *)
Record sale_order_line : Type := {
  order_id : Z;
  name : string;
  product_uom_qty : Z;
  price_unit : json;
  product_id : option Z
}.

(* ===================================================================== *)
(** * 3. The response interpreter and the order line *)
(* ===================================================================== *)

Section Travelport.

(** Two functions of the runtime are left as they are: [repr()] on the values
    whose text is not a matter of this code (floats, lists, dicts), and
    [json.dumps(v, indent=2)]. *)
Variable py_repr : json -> string.
Variable json_dumps : json -> string.

(** [str(v)], what an f-string field without a format spec inserts. *)
Definition py_str (v : json) : string :=
  match v with
  | JStr s => s
  | JNull => "None"
  | JBool true => "True"
  | JBool false => "False"
  | JInt z => string_of_Z z
  | JFloat _ | JArr _ | JObj _ => py_repr v
  end.

(** Returns the order lines after the call and the warnings logged. *)
Definition action_add_selected_offers (w : wizard) (lines : list sale_order_line)
  : result (list sale_order_line * list string) :=
  match flight_offers w with
  | [] => Raise (UserError "No flight offers available to add.")
  | first_offer :: _ =>
      let line_vals := {| order_id := so_id (sale_order_id w);
                          name := flight_details first_offer;
                          product_uom_qty := 1;
                          price_unit := price first_offer;
                          product_id := None |} in
      let log :=
        if negb (str_eq (currency first_offer) (currency_name (sale_order_id w)))
        then ["Currency mismatch: " +++ py_str (currency first_offer) +++ " vs "
              +++ currency_name (sale_order_id w)]
        else [] in
      Ok (lines ++ [line_vals], log)
  end.

(** ** Reference maps *)

(** [for record in records: rid = record.get('id'); if rid: m[rid] = record] *)
Definition index_by_id (m : pydict) (records : json) : result pydict :=
  items <- py_iter records ;;
  foldM (fun m record =>
           rid <- py_get record "id" JNull ;;
           if truthy rid then dict_set m rid record else Ok m)
        m items.

(** One turn of the loop over [ReferenceList]. *)
Definition add_reference (maps : pydict * pydict) (ref_item : json)
  : result (pydict * pydict) :=
  let '(flight_map, product_map) := maps in
  ref_type <- py_get ref_item "@type" (JStr "") ;;
  if str_eq ref_type "ReferenceListFlight" then
    flights <- py_get ref_item "Flight" (JArr []) ;;
    flight_map' <- index_by_id flight_map flights ;;
    Ok (flight_map', product_map)
  else if str_eq ref_type "ReferenceListProduct" then
    products <- py_get ref_item "Product" (JArr []) ;;
    product_map' <- index_by_id product_map products ;;
    Ok (flight_map, product_map')
  else Ok maps.

Definition build_reference_maps (reference_list : json) : result (pydict * pydict) :=
  items <- py_iter reference_list ;;
  foldM add_reference ([], []) items.

(** ** One offering *)

(** What one entry of [ProductOptions] adds to [product_refs]. *)
Definition option_refs (option : json) : result (list json) :=
  has_product <- py_in "ProductRef" option ;;
  if has_product then
    r <- py_getitem option "ProductRef" ;; Ok [r]
  else
    has_flights <- py_in "FlightRefs" option ;;
    if has_flights then
      refs <- py_get option "FlightRefs" (JArr []) ;; py_iter refs
    else Ok [].

Definition collect_product_refs (product_options : json) : result (list json) :=
  options <- py_iter product_options ;;
  added <- mapM option_refs options ;;
  Ok (List.concat added).

(** [obj.get('value', '') if isinstance(obj, dict) else obj] *)
Definition code_of (obj : json) : result json :=
  if is_dict obj then py_get obj "value" (JStr "") else Ok obj.

Definition arrow : string := " → ".

(** The text of one flight; [None] when carrier or number is empty. *)
Definition flight_line (flight : json) : result (option string) :=
  carrier <- py_get flight "carrier" (JStr "") ;;
  number <- py_get flight "number" (JStr "") ;;
  departure <- py_get flight "departureTime" (JStr "") ;;
  arrival <- py_get flight "arrivalTime" (JStr "") ;;
  origin_obj <- py_get flight "Origin" (JObj []) ;;
  dest_obj <- py_get flight "Destination" (JObj []) ;;
  origin_code <- code_of origin_obj ;;
  dest_code <- code_of dest_obj ;;
  if truthy carrier && truthy number then
    let flight_info :=
      py_str carrier +++ py_str number +++ ": " +++ py_str origin_code +++ arrow
      +++ py_str dest_code in
    let flight_info :=
      if truthy departure then flight_info +++ " (Dep: " +++ py_str departure +++ ")"
      else flight_info in
    let flight_info :=
      if truthy arrival then flight_info +++ " (Arr: " +++ py_str arrival +++ ")"
      else flight_info in
    Ok (Some flight_info)
  else Ok None.

Definition lines_of (l : option string) : list string :=
  match l with
  | Some s => [s]
  | None => []
  end.

(** [flight = flight_map.get(flight_id); if flight: ...] *)
Definition lookup_flight_lines (flight_map : pydict) (flight_id : json)
  : result (list string) :=
  flight <- dict_get flight_map flight_id ;;
  if truthy flight then l <- flight_line flight ;; Ok (lines_of l) else Ok [].

(** The flight id a segment carries: [segment['Flight']['FlightRef']], or
    [segment['Flight']] itself when that is not a dict. *)
Definition segment_flight_id (segment : json) : result json :=
  flight_ref <- py_get segment "Flight" (JObj []) ;;
  if is_dict flight_ref then py_get flight_ref "FlightRef" JNull else Ok flight_ref.

Definition segment_lines (flight_map : pydict) (segment : json) : result (list string) :=
  flight_id <- segment_flight_id segment ;;
  if truthy flight_id then lookup_flight_lines flight_map flight_id else Ok [].

(** The body of the loop over [product_refs[:5]]. *)
Definition product_lines (flight_map product_map : pydict) (product_ref : json)
  : result (list string) :=
  product <- dict_get product_map product_ref ;;
  if truthy product then
    product_type <- py_get product "@type" JNull ;;
    if str_eq product_type "ProductAir" then
      flight_segments <- py_get product "FlightSegment" (JArr []) ;;
      segments <- py_iter flight_segments ;;
      added <- mapM (segment_lines flight_map) segments ;;
      Ok (List.concat added)
    else Ok []
  else Ok [].

(** The loop over [product_refs[:5]]. *)
Definition product_flight_details (flight_map product_map : pydict)
  (product_refs : list json) : result (list string) :=
  added <- mapM (product_lines flight_map product_map) (firstn 5 product_refs) ;;
  Ok (List.concat added).

(** The loop over all of [product_refs], each read as a flight id. *)
Definition direct_flight_details (flight_map : pydict) (product_refs : list json)
  : result (list string) :=
  added <- mapM (lookup_flight_lines flight_map) product_refs ;;
  Ok (List.concat added).

(** [flight_details] after both loops: the second one runs only when the first
    left the list empty. *)
Definition resolve_flight_details (flight_map product_map : pydict)
  (product_refs : list json) : result (list string) :=
  flight_details <- product_flight_details flight_map product_map product_refs ;;
  match flight_details with
  | [] => direct_flight_details flight_map product_refs
  | _ => Ok flight_details
  end.

Definition newline : string := String (ascii_of_nat 10) EmptyString.

(** The lines shown when no flight text could be built. *)
Definition route_lines (w : wizard) : list string :=
  ["Route: " +++ origin w +++ arrow +++ destination w] ++
  (if is_round_trip w
   then ["Return: " +++ destination w +++ arrow +++ origin w]
   else []).

(** The body of the loop over the offerings. *)
Definition offer_values (w : wizard) (flight_map product_map : pydict)
  (idx : nat) (offering : json) : result flight_offer :=
  offering_id <- py_get offering "id" (JStr "") ;;
  total_price <- py_get offering "TotalPrice" (JObj []) ;;
  price_value <- py_get total_price "value" (JFloat 0) ;;
  price_currency <- py_get total_price "code" (JStr "USD") ;;
  product_options <- py_get offering "ProductOptions" (JArr []) ;;
  product_refs <- collect_product_refs product_options ;;
  flight_details <- resolve_flight_details flight_map product_map product_refs ;;
  let description_parts :=
    ["Flight Offer: " +++ py_str offering_id] ++
    (match flight_details with
     | [] => route_lines w
     | _ => flight_details
     end) in
  price_text <- format_2f price_value ;;
  let description_parts :=
    description_parts ++ ["Price: " +++ py_str price_currency +++ " " +++ price_text] in
  Ok {| wizard_id := wiz_id w;
        offer_id := offering_id;
        selected := (idx =? 0)%nat;
        price := price_value;
        currency := price_currency;
        flight_details := join newline description_parts;
        raw_data := json_dumps offering |}.

(** [x[:n]] as the [for] loop then walks it.  A dict cannot be sliced
    ([TypeError]; [KeyError] from Python 3.12 on). *)
Definition py_slice (n : nat) (x : json) : result (list json) :=
  match x with
  | JArr l => Ok (firstn n l)
  | JStr s => Ok (map JStr (firstn n (chars s)))
  | _ => Raise TypeError
  end.

Definition enumerate {A : Type} (l : list A) : list (nat * A) :=
  combine (seq 0 (List.length l)) l.

Definition with_flight_offers (w : wizard) (offers : list flight_offer) : wizard :=
  {| wiz_id := wiz_id w;
     sale_order_id := sale_order_id w;
     origin := origin w;
     destination := destination w;
     departure_date := departure_date w;
     is_round_trip := is_round_trip w;
     return_date := return_date w;
     passenger_adult_count := passenger_adult_count w;
     passenger_child_count := passenger_child_count w;
     passenger_child_ages := passenger_child_ages w;
     cabin_class := cabin_class w;
     flight_offers := offers |}.

(** The offerings list of a response, after the two guards on it. *)
Definition catalog_offering_list_of (response_data : json) : result json :=
  wrapper <- py_get response_data "CatalogProductOfferingsResponse" JNull ;;
  if negb (truthy wrapper) then
    Raise (UserError "No valid response from Travelport API.")
  else
    catalog_offerings <- py_get wrapper "CatalogProductOfferings" (JObj []) ;;
    catalog_offering_list <- py_get catalog_offerings "CatalogProductOffering" (JArr []) ;;
    if negb (truthy catalog_offering_list) then
      Raise (UserError "No flight offers found for the selected criteria.")
    else Ok catalog_offering_list.

(** The wizard after the call: the previous offers are unlinked and the new
    records created. *)
Definition _process_flight_results (w : wizard) (response_data : json) : result wizard :=
  catalog_offering_list <- catalog_offering_list_of response_data ;;
  response <- py_getitem response_data "CatalogProductOfferingsResponse" ;;
  reference_list <- py_get response "ReferenceList" (JArr []) ;;
  '(flight_map, product_map) <- build_reference_maps reference_list ;;
  offerings <- py_slice 50 catalog_offering_list ;;
  offer_records <-
    mapM (fun '(idx, offering) => offer_values w flight_map product_map idx offering)
         (enumerate offerings) ;;
  Ok (with_flight_offers w offer_records).


(* ===================================================================== *)
(** * 4. The mock responder *)
(* ===================================================================== *)

Record mock_flight : Type := {
  mf_carrier : string;
  mf_number : string;
  mf_origin : string;
  mf_destination : string;
  mf_departure_time : string;
  mf_arrival_time : string;
  mf_aircraft : string
}.

Definition MOCK_FLIGHTS : list mock_flight :=
  [ {| mf_carrier := "BA"; mf_number := "117"; mf_origin := "LHR"; mf_destination := "JFK";
       mf_departure_time := "08:25:00"; mf_arrival_time := "11:05:00"; mf_aircraft := "777" |};
    {| mf_carrier := "AA"; mf_number := "100"; mf_origin := "LHR"; mf_destination := "JFK";
       mf_departure_time := "10:30:00"; mf_arrival_time := "13:15:00"; mf_aircraft := "787" |};
    {| mf_carrier := "VS"; mf_number := "4"; mf_origin := "LHR"; mf_destination := "JFK";
       mf_departure_time := "12:00:00"; mf_arrival_time := "14:45:00"; mf_aircraft := "A350" |};
    {| mf_carrier := "DL"; mf_number := "1"; mf_origin := "JFK"; mf_destination := "LHR";
       mf_departure_time := "22:00:00"; mf_arrival_time := "09:30:00"; mf_aircraft := "A330" |};
    {| mf_carrier := "BA"; mf_number := "178"; mf_origin := "JFK"; mf_destination := "LHR";
       mf_departure_time := "20:15:00"; mf_arrival_time := "07:45:00"; mf_aircraft := "777" |} ].

Definition BASE_PRICES : list (string * float) :=
  [("Economy", 450%float); ("Premium Economy", 850%float);
   ("Business", 2500%float); ("First", 5000%float)].

Fixpoint price_assoc (k : string) (m : list (string * float)) : option float :=
  match m with
  | [] => None
  | (k', v) :: rest => if String.eqb k' k then Some v else price_assoc k rest
  end.

(** [BASE_PRICES.get(cabin_class, BASE_PRICES['Economy'])] *)
Definition base_price_of (cabin_class : json) : result float :=
  if hashable cabin_class then
    Ok (match cabin_class with
        | JStr c => match price_assoc c BASE_PRICES with
                    | Some p => p
                    | None => 450%float
                    end
        | _ => 450%float
        end)
  else Raise TypeError.

(** ** The random module

    The generator is a tape of raw draws; a call takes the next one.  Which
    draws the Mersenne Twister would deliver is not modelled: every value a
    call can return is reached by some tape. *)
Definition rng : Type := nat -> N.

Definition draw (g : rng) : N * rng := (g O, fun n => g (S n)).

(** [random.randint(a, b)] for [a <= b]. *)
Definition randint (a b : Z) (g : rng) : Z * rng :=
  let '(r, g') := draw g in (a + Z.of_N r mod (b - a + 1), g').

(** [random.choice(seq)] for a non-empty [seq]. *)
Definition choice {A : Type} (default : A) (l : list A) (g : rng) : A * rng :=
  let '(r, g') := draw g in
  (nth (N.to_nat (r mod N.of_nat (List.length l))) l default, g').

(** [random.random()]: a multiple of [2^-53] in [[0, 1)]. *)
Definition random (g : rng) : float * rng :=
  let '(r, g') := draw g in
  ((of_uint63 (Uint63.of_Z (Z.of_N r mod 2 ^ 53)) / 9007199254740992)%float, g').

(** [random.uniform(a, b)] is [a + (b - a) * random()]. *)
Definition uniform (a b : float) (g : rng) : float * rng :=
  let '(r, g') := random g in ((a + (b - a) * r)%float, g').

Definition generate_flight_id (index : string) : string := "Flight_" +++ index.
Definition generate_offering_id (index : nat) : string := "Offer_" +++ string_of_nat index.
Definition generate_product_id (index : nat) : string := "Product_" +++ string_of_nat index.

(** [x.upper()]: only a [str] has the method. *)
Definition py_upper (v : json) : result string :=
  match v with
  | JStr s => Ok (upper s)
  | _ => Raise AttributeError
  end.

Fixpoint filterM {A : Type} (f : A -> result bool) (l : list A) : result (list A) :=
  match l with
  | [] => Ok []
  | x :: xs =>
      keep <- f x ;;
      rest <- filterM f xs ;;
      Ok (if keep then x :: rest else rest)
  end.

(** [[f for f in MOCK_FLIGHTS if f['origin'] == a.upper() and f['destination'] == b.upper()]] *)
Definition flights_between (a b : json) : result (list mock_flight) :=
  filterM (fun f =>
             ua <- py_upper a ;;
             if String.eqb (mf_origin f) ua then
               ub <- py_upper b ;; Ok (String.eqb (mf_destination f) ub)
             else Ok false)
          MOCK_FLIGHTS.

Definition get_mock_flights_for_route (origin destination departure_date return_date : json)
  : result (list mock_flight * list mock_flight) :=
  outbound_flights <- flights_between origin destination ;;
  return_flights <-
    (if truthy return_date then flights_between destination origin else Ok []) ;;
  Ok (outbound_flights, return_flights).

Definition build_flight_reference (flight : mock_flight) (flight_id : string)
  (departure_date : json) : json :=
  JObj [("@type", JStr "Flight");
        ("id", JStr flight_id);
        ("carrier", JStr (mf_carrier flight));
        ("number", JStr (mf_number flight));
        ("departureTime", JStr (py_str departure_date +++ "T" +++ mf_departure_time flight));
        ("arrivalTime", JStr (py_str departure_date +++ "T" +++ mf_arrival_time flight));
        ("Origin", JObj [("value", JStr (mf_origin flight))]);
        ("Destination", JObj [("value", JStr (mf_destination flight))]);
        ("Aircraft", JObj [("value", JStr (mf_aircraft flight))])].

Definition flight_segment (product_id : string) (count : nat) (idx : nat) : json :=
  JObj ([("@type", JStr "FlightSegment");
         ("sequence", JInt (Z.of_nat idx + 1));
         ("Flight", JObj [("@type", JStr "FlightID");
                          ("FlightRef",
                           JStr (generate_flight_id (product_id +++ "_" +++ string_of_nat idx)))])]
        ++ (if (idx <? count - 1)%nat then [("connectionDuration", JStr "PT2H30M")] else [])).

Definition build_product_air (flights : list mock_flight) (product_id : string)
  (departure_date : json) : json * list string :=
  (JObj [("@type", JStr "ProductAir");
         ("id", JStr product_id);
         ("Quantity", JInt 1);
         ("FlightSegment",
          JArr (map (fun '(idx, _) => flight_segment product_id (List.length flights) idx)
                    (enumerate flights)))],
   map (fun '(idx, _) => generate_flight_id (product_id +++ "_" +++ string_of_nat idx))
       (enumerate flights)).

Definition calculate_price (base_price : float) (cabin_class : json)
  (num_passengers : pynum) (is_round_trip : bool) (g : rng) : result (float * rng) :=
  price <- base_price_of cabin_class ;;
  n <- to_float num_passengers ;;
  let price := (price * n)%float in
  let price := if is_round_trip then (price * 1.8)%float else price in
  let '(u, g') := uniform (-0.1)%float 0.1%float g in
  let price := (price * (1 + u))%float in
  Ok (round2 price, g').

(** What the endpoint answers: a status with a JSON body, or the handler of
    the [except] clause, status 500 with the text and the type of the
    exception. *)
Inductive http_response : Type :=
| Response (status : Z) (body : json)
| ServerError (e : exn).

(** The variables the loop over the offers updates. *)
Record mock_state : Type := {
  gen : rng;
  offerings : list json;
  product_references : list json;
  flight_references : list json;
  flight_map : pydict
}.

Definition placeholder_flight : mock_flight :=
  {| mf_carrier := ""; mf_number := ""; mf_origin := ""; mf_destination := "";
     mf_departure_time := ""; mf_arrival_time := ""; mf_aircraft := "" |}.

(** One turn of [for offer_idx in range(num_offers)]. *)
Definition make_offer (outbound_flights return_flights : list mock_flight)
  (departure_date return_date cabin_class : json) (total_passengers : pynum)
  (st : mock_state) (offer_idx : nat) : result mock_state :=
  let '(selected_outbound, g1) := choice placeholder_flight outbound_flights (gen st) in
  let '(flight_list, g2) :=
    match return_flights with
    | [] => ([selected_outbound], g1)
    | _ => let '(selected_return, g) := choice placeholder_flight return_flights g1 in
           ([selected_outbound; selected_return], g)
    end in
  let product_id := generate_product_id offer_idx in
  let '(product_air, flight_refs) := build_product_air flight_list product_id departure_date in
  let flight_refs_built :=
    map (fun '(idx, flight) =>
           let flight_id := generate_flight_id (product_id +++ "_" +++ string_of_nat idx) in
           let flight_date := if (idx =? 0)%nat then departure_date else return_date in
           (flight_id, build_flight_reference flight flight_id flight_date))
        (enumerate flight_list) in
  base_price <- base_price_of cabin_class ;;
  '(price, g3) <- calculate_price base_price cabin_class total_passengers
                                  (truthy return_date) g2 ;;
  let offering :=
    JObj [("@type", JStr "CatalogProductOffering");
          ("id", JStr (generate_offering_id offer_idx));
          ("TotalPrice", JObj [("code", JStr "USD"); ("value", JFloat price)]);
          ("ProductOptions", JArr [JObj [("@type", JStr "ProductOption");
                                         ("ProductRef", JStr product_id)]])] in
  Ok {| gen := g3;
        offerings := offerings st ++ [offering];
        product_references := product_references st ++ [product_air];
        flight_references := flight_references st ++ map snd flight_refs_built;
        flight_map := fold_left (fun m '(flight_id, flight_ref) =>
                                   dict_store m (JStr flight_id) flight_ref)
                                flight_refs_built (flight_map st) |}.

Definition empty_result : json :=
  JObj [("CatalogProductOfferingsResponse",
         JObj [("CatalogProductOfferings", JObj [("CatalogProductOffering", JArr [])]);
               ("ReferenceList", JArr [])])].

(** The second half of the [try] block, from [# Build response] on: the
    offers are generated and the document assembled. *)
Definition build_response (g : rng) (outbound_flights return_flights : list mock_flight)
  (departure_date return_date cabin_class : json) (total_passengers : pynum)
  : result http_response :=
  let '(num_offers, g0) := randint 3 5 g in
  st <- foldM (make_offer outbound_flights return_flights
                          departure_date return_date cabin_class total_passengers)
              {| gen := g0; offerings := []; product_references := [];
                 flight_references := []; flight_map := [] |}
              (seq 0 (Z.to_nat num_offers)) ;;
  let reference_list :=
    JArr [JObj [("@type", JStr "ReferenceListFlight");
                ("Flight", JArr (dict_values (flight_map st)))];
          JObj [("@type", JStr "ReferenceListProduct");
                ("Product", JArr (product_references st))]] in
  Ok (Response 200
        (JObj [("CatalogProductOfferingsResponse",
                JObj [("CatalogProductOfferings",
                       JObj [("CatalogProductOffering", JArr (offerings st))]);
                      ("ReferenceList", reference_list)])])).

(** The body of the [try] block of [search_flights]. *)
Definition search_flights_body (g : rng) (data : json) : result http_response :=
  query_request <- py_get data "CatalogProductOfferingsQueryRequest" (JObj []) ;;
  catalog_request <- py_get query_request "CatalogProductOfferingsRequest" (JObj []) ;;
  search_criteria <- py_get catalog_request "SearchCriteriaFlight" (JArr []) ;;
  passenger_criteria <- py_get catalog_request "PassengerCriteria" (JArr []) ;;
  if negb (truthy search_criteria) then
    Ok (Response 400 (JObj [("error", JStr "No search criteria provided")]))
  else
    outbound_criteria <- py_index search_criteria 0 ;;
    from_obj <- py_get outbound_criteria "From" (JObj []) ;;
    origin <- py_get from_obj "value" (JStr "") ;;
    to_obj <- py_get outbound_criteria "To" (JObj []) ;;
    destination <- py_get to_obj "value" (JStr "") ;;
    departure_date <- py_get outbound_criteria "departureDate" (JStr "") ;;
    legs <- py_len search_criteria ;;
    return_date <-
      (if (1 <? legs)%nat then
         return_criteria <- py_index search_criteria 1 ;;
         py_get return_criteria "departureDate" (JStr "")
       else Ok JNull) ;;
    passengers <- py_iter passenger_criteria ;;
    total_passengers <-
      foldM (fun acc p =>
               number <- py_get p "number" (JInt 1) ;;
               n <- num_of number ;;
               py_add acc n)
            (PInt 0) passengers ;;
    cabin_list <- py_get catalog_request "Cabin" (JArr []) ;;
    cabin_class <-
      (if truthy cabin_list then py_index cabin_list 0 else Ok (JStr "Economy")) ;;
    '(outbound_flights, return_flights) <-
      get_mock_flights_for_route origin destination departure_date return_date ;;
    match outbound_flights with
    | [] => Ok (Response 200 empty_result)
    | _ => build_response g outbound_flights return_flights
                          departure_date return_date cabin_class total_passengers
    end.

Definition search_flights (g : rng) (data : json) : http_response :=
  match search_flights_body g data with
  | Ok r => r
  | Raise e => ServerError e
  end.

(* ===================================================================== *)
(** * 5b. The search action, the headers and the computed fields *)
(* ===================================================================== *)

(** The text [str(e)] gives for an exception the interpreter raised. *)
Variable runtime_text : exn -> string.

(** [str(e)]: the message of the two exceptions the code raises itself. *)
Definition exn_str (e : exn) : string :=
  match e with
  | UserError msg | ValidationError msg => msg
  | _ => runtime_text e
  end.

(** [type(e).__name__] *)
Definition exn_name (e : exn) : string :=
  match e with
  | UserError _ => "UserError"
  | ValidationError _ => "ValidationError"
  | AttributeError => "AttributeError"
  | TypeError => "TypeError"
  | ValueError => "ValueError"
  | KeyError => "KeyError"
  | IndexError => "IndexError"
  | OverflowError => "OverflowError"
  end.

(** ** Base64, for the [Authorization] header *)

Definition b64_alphabet : string :=
  "ABCDEFGHIJKLMNOPQRSTUVWXYZabcdefghijklmnopqrstuvwxyz0123456789+/".

Definition b64_char (n : nat) : ascii :=
  match String.get n b64_alphabet with
  | Some c => c
  | None => "="%char
  end.

(** Three bytes give four characters; one or two trailing bytes are padded
    with [=]. *)
Fixpoint b64_encode_bytes (l : list nat) : string :=
  match l with
  | [] => EmptyString
  | [a] =>
      String (b64_char (a / 4))
        (String (b64_char (a mod 4 * 16)) "==")
  | [a; b] =>
      String (b64_char (a / 4))
        (String (b64_char (a mod 4 * 16 + b / 16))
           (String (b64_char (b mod 16 * 4)) "="))
  | a :: b :: c :: rest =>
      String (b64_char (a / 4))
        (String (b64_char (a mod 4 * 16 + b / 16))
           (String (b64_char (b mod 16 * 4 + c / 64))
              (String (b64_char (c mod 64)) (b64_encode_bytes rest))))
  end%nat.

(** [base64.b64encode(s.encode()).decode()] *)
Definition b64encode (s : string) : string :=
  b64_encode_bytes (map nat_of_ascii (list_ascii_of_string s)).

(** The connection settings of the wizard; an unset [Char] reads as [False]. *)
Record api_config : Type := {
  travelport_api_url : option string;
  travelport_branch_id : option string;
  travelport_username : option string;
  travelport_password : option string
}.

Definition char_truthy (field : option string) : bool :=
  match field with
  | Some s => nonempty s
  | None => false
  end.

(** How an f-string shows a [Char] field. *)
Definition char_str (field : option string) : string :=
  match field with
  | Some s => s
  | None => "False"
  end.

Definition _get_basic_auth (cfg : api_config) : string :=
  b64encode (char_str (travelport_username cfg) +++ ":" +++
             char_str (travelport_password cfg)).

Definition _get_api_headers (cfg : api_config) : list (string * string) :=
  [("Content-Type", "application/json"); ("Accept", "application/json")] ++
  (if char_truthy (travelport_branch_id cfg) && char_truthy (travelport_username cfg)
      && char_truthy (travelport_password cfg)
   then [("Authorization", "Basic " +++ _get_basic_auth cfg)]
   else []).

(** ** The call of the remote service *)

(** What [response.json()] does: the document, or a decoding error.  The flag
    says whether the error is the one of the [requests] package, which is a
    [RequestException] as well. *)
Inductive json_outcome : Type :=
| Parsed (v : json)
| DecodeFailed (text : string) (is_request_exception : bool).

(** What [requests.post] does: it raises a [RequestException] (no connection,
    timeout), or returns a response with its status, its text and its body. *)
Inductive http_outcome : Type :=
| PostRaised (text : string)
| Reply (status_code : Z) (text : string) (body : json_outcome).

Definition transport : Type := string -> json -> list (string * string) -> http_outcome.

(** [response.ok]: the status is not in the 4xx and 5xx ranges. *)
Definition response_ok (status_code : Z) : bool :=
  negb ((400 <=? status_code) && (status_code <? 600)).

(** The exceptions the [try] block of [action_search_flights] can end with, by
    the [except] clause that takes them. *)
Inductive try_exn : Type :=
| RequestException (text : string)
| JSONDecodeError (text : string)
| OtherException (e : exn).

Definition default_api_url : string :=
  "http://localhost:5000/11/air/catalog/search/catalogproductofferings".

(** The [try] block: the call, the check of the status, the parsing of the
    body and the processing of the results. *)
Definition search_try_block (cfg : api_config) (post : transport) (w : wizard)
  (payload : json) (headers : list (string * string)) : try_exn + wizard :=
  let api_url := if char_truthy (travelport_api_url cfg)
                 then char_str (travelport_api_url cfg) else default_api_url in
  match post api_url payload headers with
  | PostRaised text => inl (RequestException text)
  | Reply status_code text body =>
      if negb (response_ok status_code) then
        let error_detail :=
          match body with
          | Parsed error_data => json_dumps error_data
          | DecodeFailed _ _ => text
          end in
        inl (OtherException
               (UserError ("Travelport API Error (HTTP " +++ string_of_Z status_code
                           +++ "): " +++ error_detail)))
      else
        match body with
        | DecodeFailed text' true => inl (RequestException text')
        | DecodeFailed text' false => inl (JSONDecodeError text')
        | Parsed response_data =>
            match _process_flight_results w response_data with
            | Ok w' => inr w'
            | Raise e => inl (OtherException e)
            end
        end
  end.

(** Returns the wizard with its new offers and the warnings logged while the
    request was built. *)
Definition action_search_flights (cfg : api_config) (post : transport) (w : wizard)
  : result (wizard * list string) :=
  _ <- check_airport_codes w ;;
  '(payload, log) <- _prepare_api_payload w ;;
  let headers := _get_api_headers cfg in
  match search_try_block cfg post w payload headers with
  | inr w' => Ok (w', log)
  | inl (RequestException text) =>
      Raise (UserError ("Error connecting to Travelport API: " +++ text))
  | inl (JSONDecodeError text) =>
      Raise (UserError ("Invalid JSON response from Travelport API: " +++ text))
  | inl (OtherException e) =>
      Raise (UserError ("Unexpected error: " +++ exn_str e))
  end.

(** The mock server at the other end of the call: the answer of
    [search_flights], as the client reads it back.  The order of the keys of
    an object, which the serialisation may change, is not modelled: the
    interpreter reads objects by key. *)
Definition mock_transport (g : rng) : transport :=
  fun _ payload _ =>
    match search_flights g payload with
    | Response status_code body => Reply status_code (json_dumps body) (Parsed body)
    | ServerError e =>
        let body := JObj [("error", JStr (exn_str e)); ("type", JStr (exn_name e))] in
        Reply 500 (json_dumps body) (Parsed body)
    end.

(** ** Computed fields *)

(** [_compute_has_results] *)
Definition has_results (w : wizard) : bool :=
  match flight_offers w with
  | [] => false
  | _ => true
  end.

(** [_compute_summary]: the first line of the description, the currency and
    the price. *)
Definition flight_summary (offer : flight_offer) : result string :=
  let lines := split (ascii_of_nat 10) (flight_details offer) in
  let first_line := match lines with
                    | first :: _ => first
                    | [] => "Flight Offer"
                    end in
  price_text <- format_2f (price offer) ;;
  Ok (first_line +++ " - " +++ py_str (currency offer) +++ " " +++ price_text).

(* ===================================================================== *)
(** * 5. Notions the statements use *)
(* ===================================================================== *)

(** [leg[k]['value']] of a leg of the request. *)
Definition leg_value (leg : json) (k : string) : result json :=
  endpoint <- py_getitem leg k ;;
  py_getitem endpoint "value".

Definition is_child_entry (entry : json) : bool :=
  match py_get entry "value" JNull with
  | Ok v => str_eq v "CNN"
  | Raise _ => false
  end.

(** The ages [int()] accepts among the tokens, and the warnings for the
    others, both in the order of the tokens. *)
Definition parsed_ages (tokens : list string) : list Z :=
  flat_map (fun t => match py_int t with Some a => [a] | None => [] end) tokens.

Definition rejected_ages (tokens : list string) : list string :=
  flat_map (fun t => match py_int t with Some _ => [] | None => [t] end) tokens.

Definition set_selected (b : bool) (o : flight_offer) : flight_offer :=
  {| wizard_id := wizard_id o;
     offer_id := offer_id o;
     selected := b;
     price := price o;
     currency := currency o;
     flight_details := flight_details o;
     raw_data := raw_data o |}.

(** The same offers with the selection flags set by position. *)
Definition reselect (flag : nat -> bool) (offers : list flight_offer) : list flight_offer :=
  map (fun '(i, o) => set_selected (flag i) o) (enumerate offers).

(** The two messages of the interpreter. *)
Definition no_valid_response : string := "No valid response from Travelport API.".
Definition no_offers_found : string := "No flight offers found for the selected criteria.".

(** The exceptions the interpreter raises on its own, as opposed to the two
    the code raises for the user. *)
Definition runtime_error (e : exn) : Prop :=
  match e with
  | UserError _ | ValidationError _ => False
  | _ => True
  end.

(** ** The shape of a response

    Every field is optional; a field that is present has the type the schema
    gives it.  Ids and references are values a dict can be keyed by. *)

Definition opt_field (k : string) (kvs : list (string * json)) (ok : json -> bool) : bool :=
  match assoc k kvs with
  | None => true
  | Some v => ok v
  end.

Definition is_list_of (ok : json -> bool) (v : json) : bool :=
  match v with
  | JArr l => forallb ok l
  | _ => false
  end.

Definition is_dict_with (ok : list (string * json) -> bool) (v : json) : bool :=
  match v with
  | JObj kvs => ok kvs
  | _ => false
  end.

(** A number [:.2f] can format. *)
Definition is_price (v : json) : bool :=
  match v with
  | JFloat _ | JBool _ => true
  | JInt z => match sf_of_int z with Ok _ => true | Raise _ => false end
  | _ => false
  end.

Definition total_price_shaped : json -> bool :=
  is_dict_with (fun kvs => opt_field "value" kvs is_price).

Definition option_shaped : json -> bool :=
  is_dict_with (fun kvs =>
    match assoc "ProductRef" kvs with
    | Some r => hashable r
    | None => opt_field "FlightRefs" kvs (is_list_of hashable)
    end).

Definition offering_shaped : json -> bool :=
  is_dict_with (fun kvs =>
    opt_field "TotalPrice" kvs total_price_shaped &&
    opt_field "ProductOptions" kvs (is_list_of option_shaped)).

Definition flight_ref_shaped (v : json) : bool :=
  match v with
  | JObj kvs => opt_field "FlightRef" kvs hashable
  | _ => hashable v
  end.

Definition segment_shaped : json -> bool :=
  is_dict_with (fun kvs => opt_field "Flight" kvs flight_ref_shaped).

Definition with_id (kvs : list (string * json)) : bool := opt_field "id" kvs hashable.

Definition flight_shaped : json -> bool := is_dict_with with_id.

Definition product_shaped : json -> bool :=
  is_dict_with (fun kvs =>
    with_id kvs && opt_field "FlightSegment" kvs (is_list_of segment_shaped)).

Definition reference_item_shaped : json -> bool :=
  is_dict_with (fun kvs =>
    opt_field "Flight" kvs (is_list_of flight_shaped) &&
    opt_field "Product" kvs (is_list_of product_shaped)).

Definition response_shaped : json -> bool :=
  is_dict_with (fun kvs =>
    match assoc "CatalogProductOfferingsResponse" kvs with
    | Some (JObj response) =>
        opt_field "CatalogProductOfferings" response
          (is_dict_with (fun c =>
             opt_field "CatalogProductOffering" c (is_list_of offering_shaped))) &&
        opt_field "ReferenceList" response (is_list_of reference_item_shaped)
    | _ => false
    end).

(** Reference maps whose flights are dicts and whose products have the shape
    above. *)
Definition maps_shaped (flight_map product_map : pydict) : Prop :=
  Forall (fun kv => is_dict (snd kv) = true) flight_map /\
  Forall (fun kv => product_shaped (snd kv) = true) product_map.

(** Whether the response has an offerings container: the path
    [CatalogProductOfferingsResponse.CatalogProductOfferings.CatalogProductOffering]
    exists and ends in a list. *)
Definition has_offerings_container (response_data : json) : bool :=
  match response_data with
  | JObj kvs =>
      match assoc "CatalogProductOfferingsResponse" kvs with
      | Some (JObj response) =>
          match assoc "CatalogProductOfferings" response with
          | Some (JObj c) =>
              match assoc "CatalogProductOffering" c with
              | Some (JArr _) => true
              | _ => false
              end
          | _ => false
          end
      | _ => false
      end
  | _ => false
  end.

(** ** The flights the references of an offering lead to *)

(** The flight record stored under an id. *)
Definition flight_at (flight_map : pydict) (flight_id : json) : list json :=
  match dict_lookup flight_map flight_id with
  | Some flight => if truthy flight then [flight] else []
  | None => []
  end.

Definition segment_flights (flight_map : pydict) (segment : json) : list json :=
  match segment_flight_id segment with
  | Ok flight_id => if truthy flight_id then flight_at flight_map flight_id else []
  | Raise _ => []
  end.

(** The segments of the product a reference names, when it names a
    [ProductAir]. *)
Definition product_segments (product_map : pydict) (product_ref : json) : list json :=
  match dict_lookup product_map product_ref with
  | Some (JObj kvs) =>
      if str_eq (match assoc "@type" kvs with Some t => t | None => JNull end) "ProductAir"
      then match assoc "FlightSegment" kvs with
           | Some (JArr segments) => segments
           | _ => []
           end
      else []
  | _ => []
  end.

(** Every flight record reached from the references: through the products of
    the first five, or with a reference used as a flight id. *)
Definition resolved_flights (flight_map product_map : pydict) (product_refs : list json)
  : list json :=
  flat_map (fun r => flat_map (segment_flights flight_map) (product_segments product_map r))
           (firstn 5 product_refs)
  ++ flat_map (flight_at flight_map) product_refs.

(** The line a flight record gives, if it gives one. *)
Definition flight_texts (flight : json) : list string :=
  match flight_line flight with
  | Ok l => lines_of l
  | Raise _ => []
  end.

(** Whether a flight record has a non-empty carrier and a non-empty number. *)
Definition has_carrier_and_number (flight : json) : bool :=
  match py_get flight "carrier" (JStr ""), py_get flight "number" (JStr "") with
  | Ok carrier, Ok number => truthy carrier && truthy number
  | _, _ => false
  end.

(** The references of an offering, empty when they cannot be read. *)
Definition offering_refs (offering : json) : list json :=
  match (product_options <- py_get offering "ProductOptions" (JArr []) ;;
         collect_product_refs product_options) with
  | Ok refs => refs
  | Raise _ => []
  end.

(** ** The shape of a request

    The document the request builder makes, every field optional but the
    first leg: legs with string endpoints, passengers with integer counts, a
    cabin list of scalars. *)

Definition is_str (v : json) : bool :=
  match v with JStr _ => true | _ => false end.

Definition is_int (v : json) : bool :=
  match v with JInt _ => true | _ => false end.

Definition endpoint_shaped : json -> bool :=
  is_dict_with (fun e => opt_field "value" e is_str).

Definition leg_shaped : json -> bool :=
  is_dict_with (fun l => opt_field "From" l endpoint_shaped &&
                         opt_field "To" l endpoint_shaped).

Definition passenger_shaped : json -> bool :=
  is_dict_with (fun p => opt_field "number" p is_int).

Definition catalog_request_shaped (c : list (string * json)) : bool :=
  match assoc "SearchCriteriaFlight" c with
  | Some (JArr (leg :: legs)) => leg_shaped leg && forallb leg_shaped legs
  | _ => false
  end &&
  opt_field "PassengerCriteria" c (is_list_of passenger_shaped) &&
  opt_field "Cabin" c (is_list_of hashable).

Definition request_shaped : json -> bool :=
  is_dict_with (fun d =>
    match assoc "CatalogProductOfferingsQueryRequest" d with
    | Some (JObj q) =>
        match assoc "CatalogProductOfferingsRequest" q with
        | Some (JObj c) => catalog_request_shaped c
        | _ => false
        end
    | _ => false
    end).

(** The legs of a request, and the code at one end of a leg. *)
Definition request_legs (data : json) : list json :=
  match (query_request <- py_get data "CatalogProductOfferingsQueryRequest" (JObj []) ;;
         catalog_request <- py_get query_request "CatalogProductOfferingsRequest" (JObj []) ;;
         py_get catalog_request "SearchCriteriaFlight" (JArr [])) with
  | Ok (JArr legs) => legs
  | _ => []
  end.

Definition endpoint_code (leg : json) (k : string) : string :=
  match (endpoint <- py_get leg k (JObj []) ;; py_get endpoint "value" (JStr "")) with
  | Ok (JStr code) => code
  | _ => ""
  end.

Definition request_origin (data : json) : string :=
  match request_legs data with
  | leg :: _ => endpoint_code leg "From"
  | [] => ""
  end.

Definition request_destination (data : json) : string :=
  match request_legs data with
  | leg :: _ => endpoint_code leg "To"
  | [] => ""
  end.

(** Whether the static table has a flight from [a] to [b]. *)
Definition route_in_table (a b : string) : bool :=
  existsb (fun f => String.eqb (mf_origin f) (upper a) &&
                    String.eqb (mf_destination f) (upper b))
          MOCK_FLIGHTS.

(** The cabin class a request asks for, as the mock reads it. *)
Definition request_cabin (data : json) : json :=
  match (query_request <- py_get data "CatalogProductOfferingsQueryRequest" (JObj []) ;;
         catalog_request <- py_get query_request "CatalogProductOfferingsRequest" (JObj []) ;;
         cabin_list <- py_get catalog_request "Cabin" (JArr []) ;;
         if truthy cabin_list then py_index cabin_list 0 else Ok (JStr "Economy")) with
  | Ok c => c
  | Raise _ => JStr "Economy"
  end.

(** The departure date of a request: the date of its first leg. *)
Definition request_departure_date (data : json) : json :=
  match request_legs data with
  | leg :: _ =>
      match py_get leg "departureDate" (JStr "") with
      | Ok d => d
      | Raise _ => JStr ""
      end
  | [] => JStr ""
  end.

(** The return date of a request: the date of its second leg, if it has one. *)
Definition request_return_date (data : json) : json :=
  match request_legs data with
  | _ :: leg :: _ =>
      match py_get leg "departureDate" (JStr "") with
      | Ok d => d
      | Raise _ => JNull
      end
  | _ => JNull
  end.

(** The passengers a request counts: the sum of the [number] fields, 1 where
    the field is absent. *)
Definition passenger_count (passengers : list json) : Z :=
  fold_right (fun p acc =>
                match py_get p "number" (JInt 1) with
                | Ok (JInt n) => n + acc
                | _ => acc
                end) 0 passengers.

Definition request_passenger_count (data : json) : Z :=
  match (query_request <- py_get data "CatalogProductOfferingsQueryRequest" (JObj []) ;;
         catalog_request <- py_get query_request "CatalogProductOfferingsRequest" (JObj []) ;;
         py_get catalog_request "PassengerCriteria" (JArr [])) with
  | Ok (JArr passengers) => passenger_count passengers
  | _ => 0
  end.

(** The base price the mock uses for a cabin class. *)
Definition base_of (cabin_class : json) : float :=
  match base_price_of cabin_class with
  | Ok p => p
  | Raise _ => 450%float
  end.

(** The price of the formula: base price times passengers, times 1.8 for a
    round trip, times one plus the jitter, rounded to two decimals. *)
Definition jitter_price (base n : float) (round_trip : bool) (u : float) : float :=
  round2 ((if round_trip then base * n * 1.8 else base * n) * (1 + u))%float.

(** The offerings of an answer and their prices. *)
Definition response_offerings (r : http_response) : list json :=
  match r with
  | Response 200 body =>
      match catalog_offering_list_of body with
      | Ok (JArr l) => l
      | _ => []
      end
  | _ => []
  end.

Definition offering_price (offering : json) : json :=
  match (total_price <- py_get offering "TotalPrice" (JObj []) ;;
         py_get total_price "value" JNull) with
  | Ok v => v
  | Raise _ => JNull
  end.

(** ** Closed inputs *)

Definition sample_order : sale_order := {| so_id := 7; currency_name := "USD" |}.

(** LHR to JFK, one way, one adult, Economy. *)
Definition one_way_wizard : wizard :=
  {| wiz_id := 1;
     sale_order_id := sample_order;
     origin := "LHR";
     destination := "JFK";
     departure_date := Some (mkdate 2025 3 1);
     is_round_trip := false;
     return_date := None;
     passenger_adult_count := 1;
     passenger_child_count := 0;
     passenger_child_ages := None;
     cabin_class := Some "Economy";
     flight_offers := [] |}.

(** The same search in Premium Economy. *)
Definition premium_wizard : wizard :=
  {| wiz_id := 1;
     sale_order_id := sample_order;
     origin := "LHR";
     destination := "JFK";
     departure_date := Some (mkdate 2025 3 1);
     is_round_trip := false;
     return_date := None;
     passenger_adult_count := 1;
     passenger_child_count := 0;
     passenger_child_ages := None;
     cabin_class := Some "Premium Economy";
     flight_offers := [] |}.

(** A round trip with two children. *)
Definition round_trip_wizard : wizard :=
  {| wiz_id := 2;
     sale_order_id := sample_order;
     origin := "lhr";
     destination := "jfk";
     departure_date := Some (mkdate 2025 3 1);
     is_round_trip := true;
     return_date := Some (mkdate 2025 3 10);
     passenger_adult_count := 2;
     passenger_child_count := 2;
     passenger_child_ages := Some "5,9";
     cabin_class := Some "Business";
     flight_offers := [] |}.

(** A round trip that returns on the day it leaves. *)
Definition same_day_wizard : wizard :=
  {| wiz_id := 3;
     sale_order_id := sample_order;
     origin := "LHR";
     destination := "JFK";
     departure_date := Some (mkdate 2025 3 1);
     is_round_trip := true;
     return_date := Some (mkdate 2025 3 1);
     passenger_adult_count := 1;
     passenger_child_count := 0;
     passenger_child_ages := None;
     cabin_class := Some "Economy";
     flight_offers := [] |}.

(** A search between two airports the mock has no flight for. *)
Definition paris_wizard : wizard :=
  {| wiz_id := 4;
     sale_order_id := sample_order;
     origin := "CDG";
     destination := "NRT";
     departure_date := Some (mkdate 2025 3 1);
     is_round_trip := false;
     return_date := None;
     passenger_adult_count := 1;
     passenger_child_count := 0;
     passenger_child_ages := None;
     cabin_class := Some "Economy";
     flight_offers := [] |}.

Definition payload_of (w : wizard) : json :=
  match _prepare_api_payload w with
  | Ok (payload, _) => payload
  | Raise _ => JNull
  end.

Definition sample_flight : json :=
  JObj [("@type", JStr "Flight"); ("id", JStr "F1");
        ("carrier", JStr "BA"); ("number", JStr "117");
        ("departureTime", JStr "2025-03-01T08:25:00");
        ("arrivalTime", JStr "2025-03-01T11:05:00");
        ("Origin", JObj [("value", JStr "LHR")]);
        ("Destination", JStr "JFK")].

(** A flight record without a carrier. *)
Definition anonymous_flight : json :=
  JObj [("@type", JStr "Flight"); ("id", JStr "F2"); ("number", JStr "9")].

Definition sample_product : json :=
  JObj [("@type", JStr "ProductAir"); ("id", JStr "P1");
        ("FlightSegment",
         JArr [JObj [("sequence", JInt 1);
                     ("Flight", JObj [("FlightRef", JStr "F1")])];
               JObj [("sequence", JInt 2);
                     ("Flight", JObj [("FlightRef", JStr "F2")])]])].

(** An offering resolved through its product. *)
Definition resolved_offering : json :=
  JObj [("id", JStr "O1");
        ("TotalPrice", JObj [("code", JStr "USD"); ("value", JFloat 472.5)]);
        ("ProductOptions", JArr [JObj [("ProductRef", JStr "P1")]])].

(** An offering whose product reference names nothing. *)
Definition dangling_offering : json :=
  JObj [("id", JStr "O2");
        ("TotalPrice", JObj [("code", JStr "EUR"); ("value", JInt 99)]);
        ("ProductOptions", JArr [JObj [("ProductRef", JStr "P9")]])].

Definition sample_reference_list : json :=
  JArr [JObj [("@type", JStr "ReferenceListFlight");
              ("Flight", JArr [sample_flight; anonymous_flight])];
        JObj [("@type", JStr "ReferenceListProduct");
              ("Product", JArr [sample_product])]].

Definition response_with (offerings : list json) : json :=
  JObj [("CatalogProductOfferingsResponse",
         JObj [("CatalogProductOfferings",
                JObj [("CatalogProductOffering", JArr offerings)]);
               ("ReferenceList", sample_reference_list)])].

Definition sample_response : json := response_with [resolved_offering; dangling_offering].

(** The offerings container is there and holds no offering. *)
Definition empty_response : json := response_with [].

Definition sample_flight_map : pydict :=
  [(JStr "F1", sample_flight); (JStr "F2", anonymous_flight)].

Definition sample_product_map : pydict := [(JStr "P1", sample_product)].

(** Two stored offers, the second one selected. *)
Definition second_selected_wizard : wizard :=
  {| wiz_id := 1;
     sale_order_id := sample_order;
     origin := "LHR";
     destination := "JFK";
     departure_date := Some (mkdate 2025 3 1);
     is_round_trip := false;
     return_date := None;
     passenger_adult_count := 1;
     passenger_child_count := 0;
     passenger_child_ages := None;
     cabin_class := Some "Economy";
     flight_offers :=
       [ {| wizard_id := 1; offer_id := JStr "O1"; selected := false;
            price := JFloat 472.5; currency := JStr "USD";
            flight_details := "first"; raw_data := "" |};
         {| wizard_id := 1; offer_id := JStr "O2"; selected := true;
            price := JInt 99; currency := JStr "EUR";
            flight_details := "second"; raw_data := "" |} ] |}.

(** Five product references, the first of which names the sample product. *)
Definition five_refs : list json :=
  [JStr "P1"; JStr "P9"; JStr "P9"; JStr "P9"; JStr "P9"].

(** Stand-ins for the two functions of the runtime, for closed statements:
    the inputs above put strings and ints only where a text is formatted. *)
Definition plain_repr : json -> string := fun _ => "<repr>".
Definition plain_dumps : json -> string := fun _ => "<json>".

(** A tape whose every draw is [2^52]: [random()] is one half. *)
Definition steady_tape : rng := fun _ => 4503599627370496%N.

(** ** The records of the reference list *)

(** The id of a record, [None] when it has none. *)
Definition record_id (record : json) : json :=
  match py_get record "id" JNull with
  | Ok v => v
  | Raise _ => JNull
  end.

Definition has_id (s : string) (record : json) : bool := str_eq (record_id record) s.

(** The records that the entries of one type list under a key, in the order of
    the response. *)
Definition listed_records (ref_type key : string) (items : list json) : list json :=
  flat_map (fun item =>
              match py_get item "@type" (JStr "") with
              | Ok t =>
                  if str_eq t ref_type then
                    match py_get item key (JArr []) with
                    | Ok v => match py_iter v with Ok l => l | Raise _ => [] end
                    | Raise _ => []
                    end
                  else []
              | Raise _ => []
              end)
           items.

(** The last record of a list that has a given id. *)
Definition last_with_id (s : string) (records : list json) : option json :=
  find (has_id s) (rev records).

(** ** Requests without legs *)

(** Whether a request has no leg to search for: at each level of the nesting
    the entry is absent, and where it is present it is a dict, down to a list
    of legs that is absent or empty. *)
Definition lacks_search_criteria (data : json) : bool :=
  match data with
  | JObj d =>
      match assoc "CatalogProductOfferingsQueryRequest" d with
      | None => true
      | Some (JObj q) =>
          match assoc "CatalogProductOfferingsRequest" q with
          | None => true
          | Some (JObj c) =>
              match assoc "SearchCriteriaFlight" c with
              | None => true
              | Some legs => negb (truthy legs)
              end
          | Some _ => false
          end
      | Some _ => false
      end
  | _ => false
  end.

(** ** What holds of the answers of the mock *)

(** A flight record the interpreter makes a line of: a non-empty dict with a
    carrier and a number. *)
Definition good_flight (f : json) : bool :=
  is_dict f && truthy f && has_carrier_and_number f.

(** The airports a flight record flies between. *)
Definition flight_route (f : json) : string * string :=
  (endpoint_code f "Origin", endpoint_code f "Destination").

(** A flight from [a] to [b], or back when the offers have two flights. *)
Definition on_route (a b : string) (k : nat) (f : json) : Prop :=
  flight_route f = (a, b) \/ (k = 2%nat /\ flight_route f = (b, a)).

(** An entry of the flight map of the mock: the key is the id of the record,
    and the record is a flight of the route. *)
Definition entry_ok (a b : string) (k : nat) (entry : json * json) : Prop :=
  exists fid,
    fst entry = JStr fid /\ fid <> "" /\
    record_id (snd entry) = JStr fid /\
    good_flight (snd entry) = true /\
    flight_shaped (snd entry) = true /\
    on_route a b k (snd entry).

(** A segment whose flight id is a key of the flight map. *)
Definition segment_ok (fm : pydict) (segment : json) : Prop :=
  segment_shaped segment = true /\
  exists fid f,
    fid <> "" /\
    segment_flight_id segment = Ok (JStr fid) /\
    dict_lookup fm (JStr fid) = Some f.

(** A product of [k] segments, each with its flight in the flight map. *)
Definition product_ok (k : nat) (fm : pydict) (p : json) : Prop :=
  product_shaped p = true /\
  truthy p = true /\
  (exists pid, pid <> "" /\ record_id p = JStr pid) /\
  py_get p "@type" JNull = Ok (JStr "ProductAir") /\
  exists segments,
    py_get p "FlightSegment" (JArr []) = Ok (JArr segments) /\
    List.length segments = k /\
    Forall (segment_ok fm) segments.

(** An offering whose one reference is the id of a listed product. *)
Definition offering_ok (products : list json) (offering : json) : Prop :=
  offering_shaped offering = true /\
  exists pid,
    pid <> "" /\
    offering_refs offering = [JStr pid] /\
    exists p, In p products /\ has_id pid p = true.

(** What the loop of the mock keeps true of its variables. *)
Definition mock_state_ok (a b : string) (k : nat) (st : mock_state) : Prop :=
  Forall (offering_ok (product_references st)) (offerings st) /\
  Forall (product_ok k (flight_map st)) (product_references st) /\
  Forall (entry_ok a b k) (flight_map st).

(** The entries of the reference list of a response. *)
Definition response_reference_items (body : json) : list json :=
  match (response <- py_getitem body "CatalogProductOfferingsResponse" ;;
         reference_list <- py_get response "ReferenceList" (JArr []) ;;
         py_iter reference_list) with
  | Ok items => items
  | Raise _ => []
  end.

(** The flight lines of an offer of the mock: one, and a second one when the
    request has a return date and the table a flight back. *)
Definition mock_segments (data : json) : nat :=
  if truthy (request_return_date data) &&
     route_in_table (request_destination data) (request_origin data)
  then 2%nat else 1%nat.

(** The document the mock assembles from the variables of its loop. *)
Definition mock_document (st : mock_state) : json :=
  JObj [("CatalogProductOfferingsResponse",
         JObj [("CatalogProductOfferings",
                JObj [("CatalogProductOffering", JArr (offerings st))]);
               ("ReferenceList",
                JArr [JObj [("@type", JStr "ReferenceListFlight");
                            ("Flight", JArr (dict_values (flight_map st)))];
                      JObj [("@type", JStr "ReferenceListProduct");
                            ("Product", JArr (product_references st))]])])].

(** The offerings of a response document. *)
Definition document_offerings (body : json) : list json :=
  match catalog_offering_list_of body with
  | Ok (JArr l) => l
  | _ => []
  end.

(** ** Closed inputs for the search action *)

(** Two children, of whose ages one is not a number. *)
Definition mixed_ages_wizard : wizard :=
  {| wiz_id := 5;
     sale_order_id := sample_order;
     origin := "LHR";
     destination := "JFK";
     departure_date := Some (mkdate 2025 3 1);
     is_round_trip := false;
     return_date := None;
     passenger_adult_count := 1;
     passenger_child_count := 2;
     passenger_child_ages := Some "5,x";
     cabin_class := Some "Economy";
     flight_offers := [] |}.

(** A stand-in for the text of the exceptions of the interpreter. *)
Definition plain_text : exn -> string := fun _ => "<error>".

(** No connection setting is filled in. *)
Definition plain_config : api_config :=
  {| travelport_api_url := None;
     travelport_branch_id := None;
     travelport_username := None;
     travelport_password := None |}.

(** A remote end that cannot be reached, and one that answers 503 with a text
    that is no JSON. *)
Definition unreachable_transport : transport :=
  fun _ _ _ => PostRaised "Connection refused".

Definition unavailable_transport : transport :=
  fun _ _ _ => Reply 503 "Service Unavailable" (DecodeFailed "Expecting value" true).

(** An offering with an id and nothing else. *)
Definition priceless_fields : list (string * json) := [("id", JStr "O3")].

(* ===================================================================== *)
(** * 6. Properties *)
(* ===================================================================== *)

(** ** Validation *)

Lemma date_leb_refl (d : date) : date_leb d d = true.
Proof.
  unfold date_leb. rewrite !Z.eqb_refl, Z.leb_refl.
  rewrite !orb_true_r. reflexivity.
Qed.

(** C7: a round trip whose return date is on or before the departure date is
    rejected by the constraint on the return date, equal dates included, and so
    is a round trip without a return date; in neither case is the wizard
    validated. *)
Theorem check_return_date_rejects (w : wizard) :
  is_round_trip w = true ->
  (forall r d, return_date w = Some r -> departure_date w = Some d ->
               date_leb r d = true ->
               _check_return_date w
               = Raise (ValidationError "Return date must be after departure date.")) /\
  (forall d, return_date w = Some d -> departure_date w = Some d ->
             _check_return_date w
             = Raise (ValidationError "Return date must be after departure date.")) /\
  (return_date w = None ->
   _check_return_date w
   = Raise (ValidationError "Return date is required for round trip searches.")) /\
  ((return_date w = None \/
    exists r d, return_date w = Some r /\ departure_date w = Some d /\ date_leb r d = true) ->
   ~ validated w).
Proof.
  intros Hrt.
  assert (Hle : forall r d, return_date w = Some r -> departure_date w = Some d ->
                            date_leb r d = true ->
                            _check_return_date w
                            = Raise (ValidationError "Return date must be after departure date.")).
  { intros r d Hr Hd Hrd. unfold _check_return_date. now rewrite Hrt, Hr, Hd, Hrd. }
  assert (Hnone : return_date w = None ->
                  _check_return_date w
                  = Raise (ValidationError "Return date is required for round trip searches.")).
  { intros Hr. unfold _check_return_date. now rewrite Hrt, Hr. }
  repeat split.
  - exact Hle.
  - intros d Hr Hd. apply (Hle d d Hr Hd), date_leb_refl.
  - exact Hnone.
  - intros Hbad (_ & Hok & _).
    destruct Hbad as [Hr | (r & d & Hr & Hd & Hrd)].
    + rewrite (Hnone Hr) in Hok. discriminate.
    + rewrite (Hle r d Hr Hd Hrd) in Hok. discriminate.
Qed.

(** ** Request building *)

(** C3: for validated criteria the list of legs has one entry for a one-way
    search and two for a round trip; the first leg carries the departure date
    and origin to destination, the second the return date with the two
    endpoints swapped. *)
Theorem search_criteria_flight_legs (w : wizard) :
  validated w ->
  exists d legs,
    departure_date w = Some d /\
    _prepare_search_criteria_flight w = Ok legs /\
    List.length legs = (if is_round_trip w then 2 else 1)%nat /\
    (is_round_trip w = false -> legs = [outbound_leg d w]) /\
    (is_round_trip w = true ->
     exists r leg1 leg2,
       return_date w = Some r /\
       legs = [leg1; leg2] /\
       py_getitem leg1 "departureDate" = Ok (JStr (strftime_ymd d)) /\
       py_getitem leg2 "departureDate" = Ok (JStr (strftime_ymd r)) /\
       leg_value leg1 "From" = Ok (JStr (upper (origin w))) /\
       leg_value leg1 "To" = Ok (JStr (upper (destination w))) /\
       leg_value leg2 "From" = leg_value leg1 "To" /\
       leg_value leg2 "To" = leg_value leg1 "From").
Proof.
  intros (_ & Hret & _ & Hdep).
  destruct (departure_date w) as [d|] eqn:Hd; [clear Hdep | congruence].
  unfold _prepare_search_criteria_flight, _check_return_date in *.
  rewrite Hd in *.
  destruct (is_round_trip w) eqn:Hrt.
  - destruct (return_date w) as [r|] eqn:Hr; [| discriminate].
    exists d, [outbound_leg d w; return_leg r w].
    split; [reflexivity |]. split; [reflexivity |]. split; [reflexivity |].
    split; [discriminate |].
    intros _. exists r, (outbound_leg d w), (return_leg r w).
    repeat (split; [reflexivity |]). reflexivity.
  - exists d, [outbound_leg d w].
    split; [reflexivity |].
    split; [destruct (return_date w); reflexivity |].
    split; [reflexivity |].
    split; [reflexivity | discriminate].
Qed.

Lemma child_loop_spec (tokens : list string) :
  forall criteria log,
    child_loop tokens criteria log
    = (criteria ++ map child_entry (parsed_ages tokens),
       log ++ map (fun t => "Invalid child age: " +++ t) (rejected_ages tokens)).
Proof.
  induction tokens as [| t tokens IH]; intros criteria log; simpl.
  - now rewrite !app_nil_r.
  - unfold parsed_ages, rejected_ages in *. simpl.
    destruct (py_int t) as [a|]; rewrite IH; simpl.
    + now rewrite <- app_assoc.
    + now rewrite <- app_assoc.
Qed.

Lemma filter_child_entries (ages : list Z) :
  filter is_child_entry (map child_entry ages) = map child_entry ages.
Proof.
  induction ages as [| a ages IH]; simpl; [reflexivity | now rewrite IH].
Qed.

Lemma prepare_passenger_criteria_children (w : wizard) (s : string) :
  0 < passenger_child_count w ->
  passenger_child_ages w = Some s ->
  exists criteria,
    _prepare_passenger_criteria w
    = Ok (criteria,
          map (fun t => "Invalid child age: " +++ t) (rejected_ages (child_age_tokens s))) /\
    filter is_child_entry criteria = map child_entry (parsed_ages (child_age_tokens s)).
Proof.
  intros Hcount Hages.
  unfold _prepare_passenger_criteria. rewrite Hages.
  apply Z.ltb_lt in Hcount. rewrite Hcount.
  rewrite child_loop_spec. simpl.
  eexists. split; [reflexivity |].
  rewrite filter_app, filter_child_entries.
  destruct (0 <? passenger_adult_count w); reflexivity.
Qed.

(** C6: two children with the ages "5" are rejected by the constraint on the
    ages; with "5,9" the constraint holds and the builder makes exactly the two
    child entries, of ages 5 and 9; whatever the age string, the builder
    returns, with one child entry per age that [int()] reads and one warning
    per age it does not. *)
Theorem child_ages_validation_and_entries :
  (forall w, passenger_child_count w = 2 -> passenger_child_ages w = Some "5" ->
     _check_child_ages w
     = Raise (ValidationError
                "Number of child ages (1) must match number of children (2).")
     /\ ~ validated w) /\
  (forall w, passenger_child_count w = 2 -> passenger_child_ages w = Some "5,9" ->
     _check_child_ages w = Ok tt /\
     exists criteria,
       _prepare_passenger_criteria w = Ok (criteria, []) /\
       filter is_child_entry criteria = [child_entry 5; child_entry 9]) /\
  (forall w s, 0 < passenger_child_count w -> passenger_child_ages w = Some s ->
     exists criteria,
       _prepare_passenger_criteria w
       = Ok (criteria,
             map (fun t => "Invalid child age: " +++ t)
                 (rejected_ages (child_age_tokens s))) /\
       filter is_child_entry criteria
       = map child_entry (parsed_ages (child_age_tokens s))).
Proof.
  split; [| split].
  - intros w Hcount Hages.
    assert (Hraise : _check_child_ages w
                     = Raise (ValidationError
                                "Number of child ages (1) must match number of children (2).")).
    { unfold _check_child_ages. rewrite Hcount, Hages. reflexivity. }
    split; [exact Hraise |].
    intros (Hok & _). rewrite Hraise in Hok. discriminate.
  - intros w Hcount Hages. split.
    + unfold _check_child_ages. rewrite Hcount, Hages. reflexivity.
    + assert (Hpos : 0 < passenger_child_count w) by lia.
      destruct (prepare_passenger_criteria_children w "5,9" Hpos Hages)
        as (criteria & Hprep & Hchildren).
      exists criteria. split; assumption.
  - intros w s. apply prepare_passenger_criteria_children.
Qed.

(** ** Adding an offer to the order *)

Lemma reselect_head (flag : nat -> bool) (offers : list flight_offer) :
  match reselect flag offers, offers with
  | [], [] => True
  | o' :: _, o :: _ => o' = set_selected (flag 0%nat) o
  | _, _ => False
  end.
Proof.
  destruct offers as [| o rest]; simpl; [exact I | reflexivity].
Qed.

(** C5: the order line is made from the first offer of the list, with its
    description and its price, whatever the selection flags are; the call
    raises only on an empty list. *)
Theorem add_selected_offers_takes_first (w : wizard) (lines : list sale_order_line) :
  (flight_offers w = [] <->
   action_add_selected_offers w lines
   = Raise (UserError "No flight offers available to add.")) /\
  (forall e, action_add_selected_offers w lines = Raise e -> flight_offers w = []) /\
  (forall first rest, flight_offers w = first :: rest ->
     exists log,
       action_add_selected_offers w lines
       = Ok (lines ++ [{| order_id := so_id (sale_order_id w);
                          name := flight_details first;
                          product_uom_qty := 1;
                          price_unit := price first;
                          product_id := None |}], log)) /\
  (forall flag,
     action_add_selected_offers
       (with_flight_offers w (reselect flag (flight_offers w))) lines
     = action_add_selected_offers w lines).
Proof.
  unfold action_add_selected_offers.
  repeat split.
  - intros ->. reflexivity.
  - destruct (flight_offers w); [reflexivity | discriminate].
  - intros e. destruct (flight_offers w); [reflexivity | discriminate].
  - intros first rest ->. eexists. reflexivity.
  - intros flag. simpl.
    pose proof (reselect_head flag (flight_offers w)) as Hhead.
    destruct (reselect flag (flight_offers w)) as [| o' rest'];
      destruct (flight_offers w) as [| o rest]; try contradiction; [reflexivity |].
    subst o'. reflexivity.
Qed.

(** ** Loops that may raise *)

Lemma bind_ok {A B : Type} (c : result A) (k : A -> result B) (b : B) :
  bind c k = Ok b -> exists a, c = Ok a /\ k a = Ok b.
Proof. destruct c as [a | e]; simpl; [eauto | discriminate]. Qed.

Lemma bind_raise {A B : Type} (c : result A) (k : A -> result B) (e : exn) :
  bind c k = Raise e -> c = Raise e \/ exists a, c = Ok a /\ k a = Raise e.
Proof. destruct c as [a | e']; simpl; [eauto | intros [= ->]; auto]. Qed.

Lemma mapM_Forall2 {A B : Type} (f : A -> result B) (l : list A) :
  forall ys, mapM f l = Ok ys -> Forall2 (fun y x => f x = Ok y) ys l.
Proof.
  induction l as [| x xs IH]; simpl; intros ys H.
  - injection H as <-. constructor.
  - apply bind_ok in H as (y & Hy & H).
    apply bind_ok in H as (ys' & Hys & H).
    injection H as <-. constructor; auto.
Qed.

Lemma mapM_total {A B : Type} (f : A -> result B) (l : list A) :
  (forall x, In x l -> exists y, f x = Ok y) -> exists ys, mapM f l = Ok ys.
Proof.
  induction l as [| x xs IH]; simpl; intros H.
  - eauto.
  - destruct (H x (or_introl eq_refl)) as (y & ->).
    destruct IH as (ys & ->); [intros; apply H; auto |].
    simpl. eauto.
Qed.

Lemma mapM_raise {A B : Type} (f : A -> result B) (l : list A) (e : exn) :
  mapM f l = Raise e -> exists x, In x l /\ f x = Raise e.
Proof.
  induction l as [| x xs IH]; simpl; intros H; [discriminate |].
  apply bind_raise in H as [H | (y & _ & H)]; [eauto |].
  apply bind_raise in H as [H | (ys & _ & H)]; [| discriminate].
  destruct (IH H) as (x' & Hin & Hx'). eauto.
Qed.

Lemma mapM_ext_in {A B : Type} (f g : A -> result B) (l : list A) :
  (forall x, In x l -> f x = g x) -> mapM f l = mapM g l.
Proof.
  induction l as [| x xs IH]; simpl; intros H; [reflexivity |].
  rewrite H by auto. rewrite IH by auto. reflexivity.
Qed.

Lemma foldM_raise {A S : Type} (f : S -> A -> result S) (l : list A) (e : exn) :
  forall s, foldM f s l = Raise e -> exists s' x, In x l /\ f s' x = Raise e.
Proof.
  induction l as [| x xs IH]; simpl; intros s H; [discriminate |].
  apply bind_raise in H as [H | (s' & _ & H)]; [eauto |].
  destruct (IH _ H) as (s'' & x' & Hin & Hx'). eauto.
Qed.

Lemma foldM_invariant {A S : Type} (P : S -> Prop) (f : S -> A -> result S) (l : list A) :
  (forall s x, In x l -> P s -> exists s', f s x = Ok s' /\ P s') ->
  forall s, P s -> exists s', foldM f s l = Ok s' /\ P s'.
Proof.
  induction l as [| x xs IH]; simpl; intros Hstep s Hs; [eauto |].
  destruct (Hstep s x (or_introl eq_refl) Hs) as (s1 & -> & Hs1). simpl.
  apply IH; auto.
Qed.

Lemma enumerate_Forall2 {A B : Type} (R : B -> nat -> A -> Prop) (l : list A) :
  forall k ys,
    Forall2 (fun y p => R y (fst p) (snd p)) ys (combine (seq k (List.length l)) l) ->
    Forall2 (fun y x => exists i, R y i x) ys l.
Proof.
  induction l as [| x xs IH]; simpl; intros k ys H; inversion H; subst.
  - constructor.
  - constructor; [eauto | eapply IH; eauto].
Qed.

(** ** Which exceptions the interpreter can raise *)

Ltac raise_step :=
  match goal with
  | H : Raise _ = Raise _ |- _ => injection H as <-
  | H : mapM _ _ = Raise _ |- _ =>
      let x := fresh "x" in
      let Hx := fresh "Hx" in
      apply mapM_raise in H as (x & _ & Hx)
  | H : Ok _ = Raise _ |- _ => discriminate H
  | H : bind ?c _ = Raise _ |- _ =>
      let E := fresh "E" in destruct c eqn:E; cbn [bind] in H
  | H : (if ?b then _ else _) = Raise _ |- _ => destruct b
  | H : (let '(_, _) := ?p in _) = Raise _ |- _ => destruct p
  | H : match ?x with _ => _ end = Raise _ |- _ => destruct x
  end.

Create HintDb rt.

Lemma py_get_rt d k v e : py_get d k v = Raise e -> runtime_error e.
Proof. destruct d; simpl; intros [= <-]; exact I. Qed.

Lemma py_getitem_rt d k e : py_getitem d k = Raise e -> runtime_error e.
Proof. destruct d; simpl; try (intros [= <-]; exact I). destruct (assoc k kvs); intros [= <-]; exact I. Qed.

Lemma py_iter_rt v e : py_iter v = Raise e -> runtime_error e.
Proof. destruct v; simpl; intros [= <-]; exact I. Qed.

Lemma py_in_rt s v e : py_in s v = Raise e -> runtime_error e.
Proof. destruct v; simpl; intros [= <-]; exact I. Qed.

Lemma py_slice_rt n v e : py_slice n v = Raise e -> runtime_error e.
Proof. destruct v; simpl; intros [= <-]; exact I. Qed.

Lemma dict_get_rt d k e : dict_get d k = Raise e -> runtime_error e.
Proof. unfold dict_get. destruct (hashable k); intros [= <-]; exact I. Qed.

Lemma dict_set_rt d k v e : dict_set d k v = Raise e -> runtime_error e.
Proof. unfold dict_set. destruct (hashable k); intros [= <-]; exact I. Qed.

Lemma format_2f_rt v e : format_2f v = Raise e -> runtime_error e.
Proof.
  destruct v; simpl; try (intros [= <-]; exact I).
  unfold sf_of_int. destruct (binary_normalize prec emax z 0 false); simpl;
    intros [= <-]; exact I.
Qed.

Hint Resolve py_get_rt py_getitem_rt py_iter_rt py_in_rt py_slice_rt dict_get_rt
  dict_set_rt format_2f_rt : rt.

Ltac solve_rt := repeat raise_step; eauto with rt.

Lemma index_by_id_rt m records e : index_by_id m records = Raise e -> runtime_error e.
Proof.
  unfold index_by_id. intros H. raise_step; [| solve_rt].
  apply foldM_raise in H as (s' & x & _ & H). solve_rt.
Qed.
Hint Resolve index_by_id_rt : rt.

Lemma build_reference_maps_rt l e : build_reference_maps l = Raise e -> runtime_error e.
Proof.
  unfold build_reference_maps. intros H. raise_step; [| solve_rt].
  apply foldM_raise in H as (s' & x & _ & H).
  unfold add_reference in H. destruct s'. solve_rt.
Qed.

Lemma collect_product_refs_rt v e : collect_product_refs v = Raise e -> runtime_error e.
Proof.
  unfold collect_product_refs. intros H.
  repeat (raise_step; try solve [solve_rt]).
  unfold option_refs in Hx. solve_rt.
Qed.

Lemma flight_line_rt f e : flight_line f = Raise e -> runtime_error e.
Proof.
  unfold flight_line, code_of. intros H. solve_rt.
Qed.
Hint Resolve flight_line_rt : rt.

Lemma lookup_flight_lines_rt fm k e : lookup_flight_lines fm k = Raise e -> runtime_error e.
Proof. unfold lookup_flight_lines. intros H. solve_rt. Qed.
Hint Resolve lookup_flight_lines_rt : rt.

Lemma segment_lines_rt fm s e : segment_lines fm s = Raise e -> runtime_error e.
Proof. unfold segment_lines, segment_flight_id. intros H. solve_rt. Qed.
Hint Resolve segment_lines_rt : rt.

Lemma product_lines_rt fm pm r e : product_lines fm pm r = Raise e -> runtime_error e.
Proof.
  unfold product_lines. intros H. solve_rt.
Qed.
Hint Resolve product_lines_rt : rt.

Lemma resolve_flight_details_rt fm pm refs e :
  resolve_flight_details fm pm refs = Raise e -> runtime_error e.
Proof.
  unfold resolve_flight_details, product_flight_details, direct_flight_details.
  intros H. solve_rt.
Qed.

Lemma offer_values_rt w fm pm idx offering e :
  offer_values w fm pm idx offering = Raise e -> runtime_error e.
Proof.
  unfold offer_values. intros H.
  repeat (raise_step; try solve [solve_rt]);
    eauto using collect_product_refs_rt, resolve_flight_details_rt.
Qed.

(** ** The offers come from the offerings, in order, at most fifty *)

Ltac ok_step :=
  match goal with
  | H : Ok _ = Ok _ |- _ => injection H as <-
  | H : Raise _ = Ok _ |- _ => discriminate H
  | H : bind ?c _ = Ok _ |- _ =>
      let E := fresh "E" in destruct c eqn:E; cbn [bind] in H
  end.

Lemma catalog_offering_list_truthy (response_data l : json) :
  catalog_offering_list_of response_data = Ok l -> truthy l = true.
Proof.
  unfold catalog_offering_list_of. intros H.
  ok_step; [| discriminate].
  destruct (truthy a); simpl in H; [| discriminate].
  repeat ok_step.
  destruct (truthy a1) eqn:Ht; simpl in H; [| discriminate].
  now injection H as <-.
Qed.

Lemma offer_values_source w fm pm idx offering record :
  offer_values w fm pm idx offering = Ok record ->
  raw_data record = json_dumps offering /\
  py_get offering "id" (JStr "") = Ok (offer_id record) /\
  selected record = (idx =? 0)%nat.
Proof.
  unfold offer_values. intros H. repeat ok_step. simpl. auto.
Qed.

Lemma firstn_length_min {A : Type} (n : nat) (l : list A) :
  List.length (firstn n l) = Nat.min n (List.length l).
Proof. apply length_firstn. Qed.

(** C1: when the interpreter returns, the offerings of the response are a
    list, the wizard holds at most 50 offers and no more than there are
    offerings, and the i-th offer was made from the i-th offering: it keeps its
    id and its serialised source. *)
Theorem process_flight_results_cap_and_order (w w' : wizard) (response_data : json) :
  _process_flight_results w response_data = Ok w' ->
  exists offerings,
    catalog_offering_list_of response_data = Ok (JArr offerings) /\
    (List.length (flight_offers w') <= 50)%nat /\
    (List.length (flight_offers w') <= List.length offerings)%nat /\
    List.length (flight_offers w') = Nat.min 50 (List.length offerings) /\
    Forall2 (fun record offering =>
               raw_data record = json_dumps offering /\
               py_get offering "id" (JStr "") = Ok (offer_id record))
            (flight_offers w') (firstn 50 offerings).
Proof.
  unfold _process_flight_results. intros H.
  apply bind_ok in H as (col & Hcol & H).
  pose proof (catalog_offering_list_truthy _ _ Hcol) as Htruthy.
  apply bind_ok in H as (response & _ & H).
  apply bind_ok in H as (reference_list & _ & H).
  apply bind_ok in H as ([flight_map product_map] & _ & H).
  apply bind_ok in H as (offerings & Hslice & H).
  apply bind_ok in H as (records & Hrecords & H).
  injection H as <-. cbn [flight_offers with_flight_offers].
  apply mapM_Forall2 in Hrecords.
  assert (Hsrc : Forall2 (fun record offering =>
                            raw_data record = json_dumps offering /\
                            py_get offering "id" (JStr "") = Ok (offer_id record))
                         records offerings).
  { assert (Hpairs : Forall2 (fun y p => offer_values w flight_map product_map
                                                       (fst p) (snd p) = Ok y)
                             records (enumerate offerings)).
    { eapply Forall2_impl; [| exact Hrecords]. intros y [i x] Hy. exact Hy. }
    apply (enumerate_Forall2
             (fun y i x => offer_values w flight_map product_map i x = Ok y)) in Hpairs.
    eapply Forall2_impl; [| exact Hpairs].
    intros record offering (i & Hi). apply offer_values_source in Hi. tauto. }
  destruct col as [| b | z | f | s | l | kvs]; try discriminate Hslice.
  - (* a string: its first character has no [get] *)
    destruct s as [| c s]; [discriminate |].
    assert (Hoff : offerings = map JStr (firstn 50 (chars (String c s))))
      by (unfold py_slice in Hslice; congruence).
    subst offerings. simpl in Hsrc.
    inversion Hsrc as [| record o records' os (_ & Hid) Hrest]; subst.
    discriminate Hid.
  - assert (Hoff : offerings = firstn 50 l)
      by (unfold py_slice in Hslice; congruence).
    subst offerings. exists l.
    pose proof (Forall2_length Hsrc) as Hlen.
    rewrite firstn_length_min in Hlen.
    split; [exact Hcol |]. repeat split; try lia; exact Hsrc.
Qed.

(** ** Flight lines *)

Lemma flight_line_dict (kvs : list (string * json)) :
  exists l, flight_line (JObj kvs) = Ok l.
Proof.
  unfold flight_line, code_of. cbn [py_get bind].
  repeat match goal with
         | |- context [if is_dict ?v then _ else _] =>
             destruct v; cbn [is_dict py_get bind]
         end;
    match goal with
    | |- context [if ?b then Ok (Some _) else Ok None] => destruct b; eauto
    end.
Qed.

Lemma flight_line_carrier_number (flight : json) (l : option string) :
  flight_line flight = Ok l ->
  has_carrier_and_number flight = match l with Some _ => true | None => false end.
Proof.
  unfold flight_line, has_carrier_and_number. intros H.
  apply bind_ok in H as (carrier & -> & H).
  apply bind_ok in H as (number & -> & H).
  apply bind_ok in H as (departure & _ & H).
  apply bind_ok in H as (arrival & _ & H).
  apply bind_ok in H as (origin_obj & _ & H).
  apply bind_ok in H as (dest_obj & _ & H).
  apply bind_ok in H as (origin_code & _ & H).
  apply bind_ok in H as (dest_code & _ & H).
  destruct (truthy carrier && truthy number); injection H as <-; reflexivity.
Qed.

Lemma flight_texts_carrier_number (flight : json) (line : string) :
  In line (flight_texts flight) ->
  flight_line flight = Ok (Some line) /\ has_carrier_and_number flight = true.
Proof.
  unfold flight_texts. destruct (flight_line flight) as [[l |] | e] eqn:E; simpl;
    try contradiction.
  intros [-> | []]. split; [reflexivity |].
  now rewrite (flight_line_carrier_number _ _ E).
Qed.

Lemma mapM_map {A B : Type} (f : A -> result B) (g : A -> B) (l : list A) :
  (forall x, In x l -> f x = Ok (g x)) -> mapM f l = Ok (map g l).
Proof.
  induction l as [| x xs IH]; simpl; intros H; [reflexivity |].
  rewrite H by auto. rewrite IH by auto. reflexivity.
Qed.

Lemma concat_map_flat_map {A B : Type} (g : A -> list B) (l : list A) :
  List.concat (map g l) = flat_map g l.
Proof. symmetry. apply flat_map_concat_map. Qed.

Lemma dict_lookup_in (d : pydict) (k v : json) :
  dict_lookup d k = Some v -> exists k', In (k', v) d.
Proof.
  induction d as [| [k' v'] d IH]; simpl; [discriminate |].
  destruct (py_eq k' k).
  - intros [= ->]. eauto.
  - intros H. destruct (IH H) as (k'' & Hin). eauto.
Qed.

(** On a hashable id, the lookup of a flight gives the line of the flight
    stored under it. *)
Lemma lookup_flight_lines_shaped (fm : pydict) (k : json) :
  Forall (fun kv => is_dict (snd kv) = true) fm ->
  hashable k = true ->
  lookup_flight_lines fm k = Ok (flat_map flight_texts (flight_at fm k)).
Proof.
  intros Hfm Hk. unfold lookup_flight_lines, dict_get, flight_at. rewrite Hk.
  cbn [bind]. destruct (dict_lookup fm k) as [flight |] eqn:E; [| reflexivity].
  destruct (truthy flight); [| reflexivity].
  destruct (dict_lookup_in _ _ _ E) as (k' & Hin).
  rewrite Forall_forall in Hfm. specialize (Hfm _ Hin). simpl in Hfm.
  destruct flight; try discriminate.
  destruct (flight_line_dict kvs) as (l & Hl).
  cbn [flat_map]. unfold flight_texts. rewrite !Hl. cbn [bind]. now rewrite app_nil_r.
Qed.

Lemma segment_flight_id_shaped (segment : json) :
  segment_shaped segment = true ->
  exists flight_id, segment_flight_id segment = Ok flight_id /\ hashable flight_id = true.
Proof.
  unfold segment_shaped, is_dict_with, opt_field, segment_flight_id.
  destruct segment; try discriminate. cbn [py_get bind].
  destruct (assoc "Flight" kvs) as [flight_ref |]; [| simpl; eauto].
  unfold flight_ref_shaped, opt_field.
  destruct flight_ref; cbn [is_dict py_get]; eauto.
  destruct (assoc "FlightRef" kvs0); eauto.
Qed.

Lemma segment_lines_shaped (fm : pydict) (segment : json) :
  Forall (fun kv => is_dict (snd kv) = true) fm ->
  segment_shaped segment = true ->
  segment_lines fm segment = Ok (flat_map flight_texts (segment_flights fm segment)).
Proof.
  intros Hfm Hseg. unfold segment_lines, segment_flights.
  destruct (segment_flight_id_shaped _ Hseg) as (flight_id & -> & Hid).
  cbn [bind]. destruct (truthy flight_id); [| reflexivity].
  now apply lookup_flight_lines_shaped.
Qed.

Lemma flat_map_flat_map {A B C : Type} (f : A -> list B) (g : B -> list C) (l : list A) :
  flat_map g (flat_map f l) = flat_map (fun x => flat_map g (f x)) l.
Proof.
  induction l as [| x xs IH]; simpl; [reflexivity |].
  now rewrite flat_map_app, IH.
Qed.

Lemma product_lines_shaped (fm pm : pydict) (product_ref : json) :
  maps_shaped fm pm ->
  hashable product_ref = true ->
  product_lines fm pm product_ref
  = Ok (flat_map flight_texts
          (flat_map (segment_flights fm) (product_segments pm product_ref))).
Proof.
  intros (Hfm & Hpm) Href. unfold product_lines, dict_get, product_segments.
  rewrite Href. cbn [bind].
  destruct (dict_lookup pm product_ref) as [product |] eqn:E; [| reflexivity].
  destruct (dict_lookup_in _ _ _ E) as (k' & Hin).
  rewrite Forall_forall in Hpm. specialize (Hpm _ Hin). simpl in Hpm.
  unfold product_shaped, is_dict_with in Hpm.
  destruct product; try discriminate.
  apply andb_true_iff in Hpm as (_ & Hsegs).
  destruct kvs as [| kv kvs']; [reflexivity |].
  set (fields := kv :: kvs') in *.
  cbn [truthy py_get bind].
  destruct (str_eq _ "ProductAir"); [| reflexivity].
  unfold opt_field in Hsegs.
  destruct (assoc "FlightSegment" fields) as [segments |]; [| reflexivity].
  unfold is_list_of in Hsegs. destruct segments; try discriminate.
  cbn [py_iter bind].
  rewrite (mapM_map _ (fun s => flat_map flight_texts (segment_flights fm s))).
  - cbn [bind]. now rewrite concat_map_flat_map, flat_map_flat_map.
  - intros s Hs. apply segment_lines_shaped; [exact Hfm |].
    rewrite forallb_forall in Hsegs. auto.
Qed.

Lemma in_firstn {A : Type} (n : nat) (x : A) :
  forall l, In x (firstn n l) -> In x l.
Proof.
  induction n as [| n IH]; intros [| y l]; simpl; try contradiction.
  intros [-> | H]; auto.
Qed.

Lemma product_flight_details_shaped (fm pm : pydict) (refs : list json) :
  maps_shaped fm pm ->
  forallb hashable refs = true ->
  product_flight_details fm pm refs
  = Ok (flat_map flight_texts
          (flat_map (fun r => flat_map (segment_flights fm) (product_segments pm r))
                    (firstn 5 refs))).
Proof.
  intros Hmaps Hrefs. unfold product_flight_details.
  rewrite (mapM_map _ (fun r => flat_map flight_texts
                                  (flat_map (segment_flights fm) (product_segments pm r)))).
  - cbn [bind]. now rewrite concat_map_flat_map, flat_map_flat_map.
  - intros r Hr. apply product_lines_shaped; [exact Hmaps |].
    rewrite forallb_forall in Hrefs. apply Hrefs.
    eapply in_firstn; eauto.
Qed.

Lemma direct_flight_details_shaped (fm : pydict) (refs : list json) :
  Forall (fun kv => is_dict (snd kv) = true) fm ->
  forallb hashable refs = true ->
  direct_flight_details fm refs
  = Ok (flat_map flight_texts (flat_map (flight_at fm) refs)).
Proof.
  intros Hfm Hrefs. unfold direct_flight_details.
  rewrite (mapM_map _ (fun r => flat_map flight_texts (flight_at fm r))).
  - cbn [bind]. now rewrite concat_map_flat_map, flat_map_flat_map.
  - intros r Hr. apply lookup_flight_lines_shaped; [exact Hfm |].
    rewrite forallb_forall in Hrefs. auto.
Qed.

(** With no flight reached from the references, [flight_details] stays
    empty. *)
Lemma resolve_flight_details_unresolved (fm pm : pydict) (refs : list json) :
  maps_shaped fm pm ->
  forallb hashable refs = true ->
  resolved_flights fm pm refs = [] ->
  resolve_flight_details fm pm refs = Ok [].
Proof.
  intros Hmaps Hrefs Hnone. unfold resolved_flights in Hnone.
  apply app_eq_nil in Hnone as (Hproducts & Hdirect).
  unfold resolve_flight_details.
  rewrite product_flight_details_shaped, Hproducts by assumption.
  cbn [bind flat_map].
  rewrite direct_flight_details_shaped, Hdirect by (try apply Hmaps; assumption).
  reflexivity.
Qed.

(** On shaped maps and hashable references the two loops always return. *)
Lemma resolve_flight_details_total (fm pm : pydict) (refs : list json) :
  maps_shaped fm pm ->
  forallb hashable refs = true ->
  exists flight_details, resolve_flight_details fm pm refs = Ok flight_details.
Proof.
  intros Hmaps Hrefs. unfold resolve_flight_details.
  rewrite product_flight_details_shaped by assumption. cbn [bind].
  destruct (flat_map flight_texts _); [| eauto].
  rewrite direct_flight_details_shaped by (try apply Hmaps; assumption). eauto.
Qed.

Lemma option_refs_shaped (option : json) :
  option_shaped option = true ->
  exists refs, option_refs option = Ok refs /\ forallb hashable refs = true.
Proof.
  unfold option_shaped, is_dict_with, option_refs.
  destruct option; try discriminate. cbn [py_in py_getitem py_get bind].
  destruct (assoc "ProductRef" kvs) as [r |].
  - intros Hr. exists [r]. simpl. now rewrite Hr.
  - unfold opt_field. destruct (assoc "FlightRefs" kvs) as [refs |]; [| eauto].
    unfold is_list_of. destruct refs; try discriminate.
    intros Hrefs. cbn [py_iter]. eauto.
Qed.

Lemma forallb_concat {A : Type} (p : A -> bool) (ll : list (list A)) :
  Forall (fun l => forallb p l = true) ll -> forallb p (List.concat ll) = true.
Proof.
  induction 1 as [| l ll Hl _ IH]; simpl; [reflexivity |].
  now rewrite forallb_app, Hl, IH.
Qed.

Lemma collect_product_refs_shaped (product_options : json) :
  is_list_of option_shaped product_options = true ->
  exists refs, collect_product_refs product_options = Ok refs /\
               forallb hashable refs = true.
Proof.
  unfold is_list_of, collect_product_refs.
  destruct product_options; try discriminate. intros Hopts.
  cbn [py_iter bind]. rewrite forallb_forall in Hopts.
  destruct (mapM_total option_refs l) as (added & Hadded).
  { intros x Hx. destruct (option_refs_shaped x (Hopts x Hx)) as (refs & -> & _). eauto. }
  rewrite Hadded. cbn [bind]. eexists. split; [reflexivity |].
  apply forallb_concat. apply mapM_Forall2 in Hadded.
  induction Hadded as [| refs x added' l' Hx _ IH]; constructor.
  - destruct (option_refs_shaped x) as (refs' & Hrefs' & Hh); [apply Hopts; now left |].
    congruence.
  - apply IH. intros y Hy. apply Hopts. now right.
Qed.

Lemma format_2f_price (v : json) :
  is_price v = true -> exists text, format_2f v = Ok text.
Proof.
  destruct v; try discriminate; simpl; eauto.
  destruct (sf_of_int z); [simpl; eauto | discriminate].
Qed.

(** What the loop body makes of a shaped offering: every step returns, and the
    description is the header, the flight lines or else the route lines, and
    the price line. *)
Lemma offer_values_shaped (w : wizard) (fm pm : pydict) (idx : nat) (offering : json) :
  offering_shaped offering = true ->
  maps_shaped fm pm ->
  exists offering_id price_value price_currency flight_details price_text,
    py_get offering "id" (JStr "") = Ok offering_id /\
    resolve_flight_details fm pm (offering_refs offering) = Ok flight_details /\
    format_2f price_value = Ok price_text /\
    offer_values w fm pm idx offering
    = Ok {| wizard_id := wiz_id w;
            offer_id := offering_id;
            selected := (idx =? 0)%nat;
            price := price_value;
            currency := price_currency;
            flight_details :=
              join newline
                   (["Flight Offer: " +++ py_str offering_id] ++
                    match flight_details with
                    | [] => route_lines w
                    | _ => flight_details
                    end ++
                    ["Price: " +++ py_str price_currency +++ " " +++ price_text]);
            raw_data := json_dumps offering |}.
Proof.
  intros Hshape Hmaps.
  unfold offering_shaped, is_dict_with in Hshape.
  destruct offering as [| | | | | | kvs]; try discriminate.
  apply andb_true_iff in Hshape as (Hprice & Hoptions).
  unfold offer_values, offering_refs. cbn [py_get bind].
  (* the price *)
  assert (Htotal : exists fields,
             match assoc "TotalPrice" kvs with Some v => v | None => JObj [] end
             = JObj fields /\ opt_field "value" fields is_price = true).
  { unfold opt_field in Hprice. destruct (assoc "TotalPrice" kvs) as [v |].
    - unfold total_price_shaped, is_dict_with in Hprice.
      destruct v; try discriminate. eauto.
    - exists []. split; reflexivity. }
  destruct Htotal as (fields & -> & Hvalue). cbn [py_get bind].
  assert (Hfmt : exists text,
             format_2f match assoc "value" fields with Some v => v | None => JFloat 0 end
             = Ok text).
  { unfold opt_field in Hvalue. destruct (assoc "value" fields) as [v |].
    - now apply format_2f_price.
    - simpl. eauto. }
  destruct Hfmt as (price_text & Hfmt).
  (* the references *)
  assert (Hrefs : exists refs,
             collect_product_refs
               match assoc "ProductOptions" kvs with Some v => v | None => JArr [] end
             = Ok refs /\ forallb hashable refs = true).
  { apply collect_product_refs_shaped.
    unfold opt_field in Hoptions. destruct (assoc "ProductOptions" kvs); [assumption |].
    reflexivity. }
  destruct Hrefs as (refs & -> & Hhash). cbn [bind].
  destruct (resolve_flight_details_total fm pm refs Hmaps Hhash) as (fd & Hfd).
  rewrite Hfd, Hfmt. cbn [bind].
  do 5 eexists. repeat split; try reflexivity. exact Hfmt.
Qed.

(** ** The first five references *)

Lemma product_flight_details_firstn (fm pm : pydict) (refs : list json) :
  product_flight_details fm pm (firstn 5 refs) = product_flight_details fm pm refs.
Proof.
  unfold product_flight_details. now rewrite firstn_firstn.
Qed.

Lemma segment_lines_at_most_one (fm : pydict) (segment : json) (lines : list string) :
  segment_lines fm segment = Ok lines ->
  lines = [] \/
  exists flight line,
    lines = [line] /\
    In flight (segment_flights fm segment) /\
    flight_line flight = Ok (Some line) /\
    has_carrier_and_number flight = true.
Proof.
  unfold segment_lines, segment_flights. intros H.
  apply bind_ok in H as (flight_id & -> & H).
  destruct (truthy flight_id); [| injection H as <-; auto].
  unfold lookup_flight_lines, dict_get in H.
  destruct (hashable flight_id); [| discriminate]. cbn [bind] in H.
  unfold flight_at.
  destruct (dict_lookup fm flight_id) as [flight |]; [| injection H as <-; auto].
  destruct (truthy flight); [| injection H as <-; auto].
  apply bind_ok in H as (l & Hl & H). injection H as <-.
  destruct l as [line |]; [| auto].
  right. exists flight, line. repeat split; auto.
  - now left.
  - now rewrite (flight_line_carrier_number _ _ Hl).
Qed.

(** C10: the loop over the products reads the first five references only; when
    it produces lines, these are the itinerary, whatever follows the fifth
    reference; a flight record gives a line exactly when its carrier and its
    number are both non-empty, and a segment gives at most one line, that of a
    flight with both. *)
Theorem product_refs_beyond_fifth_ignored (fm pm : pydict) :
  (forall refs,
     product_flight_details fm pm refs = product_flight_details fm pm (firstn 5 refs)) /\
  (forall refs refs' line lines,
     product_flight_details fm pm refs = Ok (line :: lines) ->
     firstn 5 refs' = firstn 5 refs ->
     resolve_flight_details fm pm refs = Ok (line :: lines) /\
     resolve_flight_details fm pm refs' = Ok (line :: lines)) /\
  (forall fields,
     exists l, flight_line (JObj fields) = Ok l /\
               (has_carrier_and_number (JObj fields) = true <-> l <> None)) /\
  (forall segment lines,
     segment_lines fm segment = Ok lines ->
     lines = [] \/
     exists flight line,
       lines = [line] /\
       In flight (segment_flights fm segment) /\
       flight_line flight = Ok (Some line) /\
       has_carrier_and_number flight = true).
Proof.
  split; [| split; [| split]].
  - intros refs. symmetry. apply product_flight_details_firstn.
  - intros refs refs' line lines Hprod Hsame.
    assert (Hprod' : product_flight_details fm pm refs' = Ok (line :: lines)).
    { rewrite <- product_flight_details_firstn, Hsame, product_flight_details_firstn.
      exact Hprod. }
    unfold resolve_flight_details. rewrite Hprod, Hprod'. split; reflexivity.
  - intros fields. destruct (flight_line_dict fields) as (l & Hl).
    exists l. split; [exact Hl |].
    rewrite (flight_line_carrier_number _ _ Hl).
    destruct l; split; congruence.
  - apply segment_lines_at_most_one.
Qed.

(** ** The fallback route line *)

(** C8: for a shaped offering none of whose references leads to a flight
    record, the loop body returns an offer whose description is the header,
    the route line built from the origin and destination of the wizard (and
    the return line of a round trip), and last the price line. *)
Theorem unresolved_offering_falls_back (w : wizard) (fm pm : pydict) (idx : nat)
  (offering : json) :
  offering_shaped offering = true ->
  maps_shaped fm pm ->
  resolved_flights fm pm (offering_refs offering) = [] ->
  exists offering_id price_value price_currency price_text,
    py_get offering "id" (JStr "") = Ok offering_id /\
    format_2f price_value = Ok price_text /\
    route_lines w
    = ["Route: " +++ origin w +++ arrow +++ destination w] ++
      (if is_round_trip w
       then ["Return: " +++ destination w +++ arrow +++ origin w] else []) /\
    offer_values w fm pm idx offering
    = Ok {| wizard_id := wiz_id w;
            offer_id := offering_id;
            selected := (idx =? 0)%nat;
            price := price_value;
            currency := price_currency;
            flight_details :=
              join newline
                   (["Flight Offer: " +++ py_str offering_id] ++ route_lines w ++
                    ["Price: " +++ py_str price_currency +++ " " +++ price_text]);
            raw_data := json_dumps offering |}.
Proof.
  intros Hshape Hmaps Hnone.
  destruct (offer_values_shaped w fm pm idx offering Hshape Hmaps)
    as (oid & value & cur & fd & text & Hid & Hfd & Hfmt & Hvals).
  assert (Hhash : forallb hashable (offering_refs offering) = true).
  { unfold offering_shaped, is_dict_with in Hshape.
    destruct offering as [| | | | | | kvs]; try discriminate.
    apply andb_true_iff in Hshape as (_ & Hoptions).
    unfold offering_refs. cbn [py_get bind].
    destruct (collect_product_refs_shaped
                match assoc "ProductOptions" kvs with Some v => v | None => JArr [] end)
      as (refs & -> & Hrefs); [| exact Hrefs].
    unfold opt_field in Hoptions. destruct (assoc "ProductOptions" kvs); [assumption |].
    reflexivity. }
  rewrite (resolve_flight_details_unresolved _ _ _ Hmaps Hhash Hnone) in Hfd.
  injection Hfd as <-.
  exists oid, value, cur, text. repeat split; assumption.
Qed.

(** ** When the interpreter raises, and when it cannot *)

Lemma dict_store_Forall (P : json -> Prop) (d : pydict) (k v : json) :
  Forall (fun kv => P (snd kv)) d -> P v -> Forall (fun kv => P (snd kv)) (dict_store d k v).
Proof.
  induction 1 as [| [k' v'] d' Hv' Hd' IH]; intros Hv; simpl.
  - constructor; [exact Hv | constructor].
  - destruct (py_eq k' k); constructor; auto.
Qed.

Lemma index_by_id_shaped (P : json -> Prop) (records : list json) :
  Forall (fun v => is_dict_with with_id v = true /\ P v) records ->
  forall m, Forall (fun kv => P (snd kv)) m ->
  exists m', index_by_id m (JArr records) = Ok m' /\ Forall (fun kv => P (snd kv)) m'.
Proof.
  intros Hrecords m Hm. unfold index_by_id. cbn [py_iter bind].
  apply (foldM_invariant (fun m => Forall (fun kv => P (snd kv)) m)); [| exact Hm].
  intros s record Hin Hs.
  rewrite Forall_forall in Hrecords. destruct (Hrecords _ Hin) as (Hid & HP).
  destruct record; try discriminate. cbn [py_get bind].
  unfold is_dict_with, with_id, opt_field in Hid.
  destruct (assoc "id" kvs) as [rid |]; [| simpl; eauto].
  destruct (truthy rid); [| eauto].
  unfold dict_set. rewrite Hid. eexists. split; [reflexivity |].
  now apply dict_store_Forall.
Qed.

Lemma forallb_Forall_and (p q : json -> bool) (l : list json) :
  forallb (fun v => p v && q v) l = true ->
  Forall (fun v => p v = true /\ q v = true) l.
Proof.
  rewrite forallb_forall, Forall_forall. intros H x Hx.
  apply andb_true_iff. auto.
Qed.

Lemma add_reference_shaped (fm pm : pydict) (ref_item : json) :
  reference_item_shaped ref_item = true ->
  maps_shaped fm pm ->
  exists fm' pm', add_reference (fm, pm) ref_item = Ok (fm', pm') /\ maps_shaped fm' pm'.
Proof.
  intros Hitem (Hfm & Hpm).
  unfold reference_item_shaped, is_dict_with in Hitem.
  destruct ref_item; try discriminate.
  apply andb_true_iff in Hitem as (Hflights & Hproducts).
  unfold add_reference. cbn [py_get bind].
  destruct (str_eq _ "ReferenceListFlight").
  - unfold opt_field in Hflights.
    assert (Hlist : exists flights,
               match assoc "Flight" kvs with Some v => v | None => JArr [] end
               = JArr flights /\ forallb flight_shaped flights = true).
    { destruct (assoc "Flight" kvs) as [v |]; [| exists []; split; reflexivity].
      unfold is_list_of in Hflights. destruct v; try discriminate. eauto. }
    destruct Hlist as (flights & -> & Hall).
    destruct (index_by_id_shaped (fun v => is_dict v = true) flights) with (m := fm)
      as (fm' & -> & Hfm'); [| exact Hfm |].
    + rewrite forallb_forall in Hall. apply Forall_forall. intros v Hv.
      specialize (Hall v Hv). unfold flight_shaped in Hall. split; [exact Hall |].
      destruct v; try discriminate. reflexivity.
    + cbn [bind]. exists fm', pm. split; [reflexivity | split; assumption].
  - destruct (str_eq _ "ReferenceListProduct").
    + unfold opt_field in Hproducts.
      assert (Hlist : exists products,
                 match assoc "Product" kvs with Some v => v | None => JArr [] end
                 = JArr products /\ forallb product_shaped products = true).
      { destruct (assoc "Product" kvs) as [v |]; [| exists []; split; reflexivity].
        unfold is_list_of in Hproducts. destruct v; try discriminate. eauto. }
      destruct Hlist as (products & -> & Hall).
      destruct (index_by_id_shaped (fun v => product_shaped v = true) products)
        with (m := pm) as (pm' & -> & Hpm'); [| exact Hpm |].
      * rewrite forallb_forall in Hall. apply Forall_forall. intros v Hv.
        specialize (Hall v Hv). split; [| exact Hall].
        unfold product_shaped, is_dict_with in *. destruct v; try discriminate.
        now apply andb_true_iff in Hall as (Hid & _).
      * cbn [bind]. exists fm, pm'. split; [reflexivity | split; assumption].
    + exists fm, pm. split; [reflexivity | split; assumption].
Qed.

Lemma build_reference_maps_shaped (reference_list : json) :
  is_list_of reference_item_shaped reference_list = true ->
  exists fm pm, build_reference_maps reference_list = Ok (fm, pm) /\ maps_shaped fm pm.
Proof.
  unfold is_list_of. destruct reference_list; try discriminate. intros Hitems.
  unfold build_reference_maps. cbn [py_iter bind].
  destruct (foldM_invariant (fun maps => maps_shaped (fst maps) (snd maps))
                            add_reference l) with (s := ([] : pydict, [] : pydict))
    as ([fm pm] & Hfold & Hshaped).
  - intros [fm pm] item Hin Hmaps. rewrite forallb_forall in Hitems.
    destruct (add_reference_shaped fm pm item (Hitems _ Hin) Hmaps)
      as (fm' & pm' & Hadd & Hmaps').
    exists (fm', pm'). split; assumption.
  - split; constructor.
  - exists fm, pm. split; assumption.
Qed.

Lemma process_raise_user_error (w : wizard) (response_data : json) (msg : string) :
  _process_flight_results w response_data = Raise (UserError msg) <->
  catalog_offering_list_of response_data = Raise (UserError msg).
Proof.
  unfold _process_flight_results. split.
  - intros H.
    apply bind_raise in H as [H | (col & _ & H)]; [exact H | exfalso].
    assert (Hrt : runtime_error (UserError msg)); [| exact Hrt].
    apply bind_raise in H as [H | (response & _ & H)]; [eauto with rt |].
    apply bind_raise in H as [H | (reference_list & _ & H)]; [eauto with rt |].
    apply bind_raise in H as [H | ([fm pm] & _ & H)];
      [eauto using build_reference_maps_rt |].
    apply bind_raise in H as [H | (offerings & _ & H)]; [eauto with rt |].
    apply bind_raise in H as [H | (records & _ & H)]; [| discriminate].
    apply mapM_raise in H as ([idx offering] & _ & H).
    eauto using offer_values_rt.
  - intros ->. reflexivity.
Qed.

Lemma catalog_offering_list_no_valid_response (response_data : json) :
  catalog_offering_list_of response_data = Raise (UserError no_valid_response) <->
  exists kvs,
    response_data = JObj kvs /\
    truthy match assoc "CatalogProductOfferingsResponse" kvs with
           | Some v => v
           | None => JNull
           end = false.
Proof.
  unfold catalog_offering_list_of. split.
  - intros H. destruct response_data as [| | | | | | kvs]; try discriminate.
    exists kvs. split; [reflexivity |]. cbn [py_get bind] in H.
    destruct (truthy _); [| reflexivity]. exfalso. cbn [negb] in H.
    apply bind_raise in H as [H | (c & _ & H)]; [apply py_get_rt in H; exact H |].
    apply bind_raise in H as [H | (l & _ & H)]; [apply py_get_rt in H; exact H |].
    destruct (truthy l); discriminate.
  - intros (kvs & -> & Hfalsy). cbn [py_get bind]. now rewrite Hfalsy.
Qed.

Lemma catalog_offering_list_no_offers (response_data : json) :
  catalog_offering_list_of response_data = Raise (UserError no_offers_found) <->
  exists kvs response c,
    response_data = JObj kvs /\
    assoc "CatalogProductOfferingsResponse" kvs = Some (JObj response) /\
    response <> [] /\
    match assoc "CatalogProductOfferings" response with
    | Some v => v
    | None => JObj []
    end = JObj c /\
    truthy match assoc "CatalogProductOffering" c with
           | Some v => v
           | None => JArr []
           end = false.
Proof.
  unfold catalog_offering_list_of. split.
  - intros H. destruct response_data as [| | | | | | kvs]; try discriminate.
    cbn [py_get bind] in H.
    destruct (assoc "CatalogProductOfferingsResponse" kvs) as [wrapper |] eqn:Ha;
      [| discriminate].
    destruct (truthy wrapper) eqn:Hw; [| discriminate]. cbn [negb] in H.
    destruct wrapper as [| | | | | | response]; try discriminate.
    cbn [py_get bind] in H.
    destruct (match assoc "CatalogProductOfferings" response with
              | Some v => v | None => JObj [] end) as [| | | | | | c] eqn:Hc;
      try discriminate.
    cbn [py_get bind] in H.
    exists kvs, response, c.
    split; [reflexivity |]. split; [exact Ha |].
    split; [intros ->; discriminate |]. split; [exact Hc |].
    match goal with |- ?t = false => destruct t end; [discriminate | reflexivity].
  - intros (kvs & response & c & -> & Hw & Hne & Hc & Hfalsy).
    cbn [py_get bind]. rewrite Hw.
    destruct response as [| kv rest]; [contradiction |].
    cbn [truthy negb py_get bind]. cbn [py_get bind] in Hc. rewrite Hc.
    cbn [py_get bind]. now rewrite Hfalsy.
Qed.

Lemma catalog_offering_list_user_errors (response_data : json) (msg : string) :
  catalog_offering_list_of response_data = Raise (UserError msg) ->
  msg = no_valid_response \/ msg = no_offers_found.
Proof.
  unfold catalog_offering_list_of. intros H.
  apply bind_raise in H as [H | (wrapper & _ & H)]; [apply py_get_rt in H; contradiction |].
  destruct (truthy wrapper); cbn [negb] in H; [| injection H as <-; now left].
  apply bind_raise in H as [H | (c & _ & H)]; [apply py_get_rt in H; contradiction |].
  apply bind_raise in H as [H | (l & _ & H)]; [apply py_get_rt in H; contradiction |].
  destruct (truthy l); cbn [negb] in H; [discriminate | injection H as <-; now right].
Qed.

(** A shaped response with at least one offering is always turned into
    offers. *)
Lemma process_flight_results_shaped (w : wizard) (response_data col : json) :
  response_shaped response_data = true ->
  catalog_offering_list_of response_data = Ok col ->
  exists w', _process_flight_results w response_data = Ok w'.
Proof.
  intros Hshape Hcol. unfold _process_flight_results. rewrite Hcol. cbn [bind].
  unfold response_shaped, is_dict_with in Hshape.
  destruct response_data as [| | | | | | kvs]; try discriminate.
  unfold catalog_offering_list_of in Hcol. cbn [py_get py_getitem bind] in *.
  destruct (assoc "CatalogProductOfferingsResponse" kvs) as [wrapper |]; [| discriminate].
  destruct wrapper as [| | | | | | response]; try discriminate.
  apply andb_true_iff in Hshape as (Hofferings & Hrefs).
  destruct (truthy (JObj response)); [| discriminate]. cbn [negb py_get bind] in *.
  (* the offerings are a list of shaped offerings *)
  assert (Hlist : exists l, col = JArr l /\ forallb offering_shaped l = true).
  { unfold opt_field in Hofferings.
    destruct (assoc "CatalogProductOfferings" response) as [c |].
    - unfold is_dict_with in Hofferings. destruct c as [| | | | | | c]; try discriminate.
      cbn [py_get bind] in Hcol. unfold opt_field in Hofferings.
      destruct (assoc "CatalogProductOffering" c) as [l |]; [| discriminate].
      unfold is_list_of in Hofferings. destruct l; try discriminate.
      destruct (truthy (JArr l)); [| discriminate].
      injection Hcol as <-. eauto.
    - discriminate. }
  destruct Hlist as (l & -> & Hall).
  (* the reference maps *)
  destruct (build_reference_maps_shaped
              match assoc "ReferenceList" response with Some v => v | None => JArr [] end)
    as (fm & pm & -> & Hmaps).
  { unfold opt_field in Hrefs. destruct (assoc "ReferenceList" response); [assumption |].
    reflexivity. }
  cbn [py_slice bind].
  destruct (mapM_total
              (fun '(idx, offering) => offer_values w fm pm idx offering)
              (enumerate (firstn 50 l))) as (records & ->).
  - intros [idx offering] Hin.
    destruct (offer_values_shaped w fm pm idx offering) as (? & ? & ? & ? & ? & _ & _ & _ & ->);
      [| exact Hmaps | eauto].
    rewrite forallb_forall in Hall. apply Hall.
    apply in_combine_r in Hin. eapply in_firstn; eauto.
  - cbn [bind]. eauto.
Qed.

(** C2 (as the code has it): both guards raise a [UserError].  The one with the
    message "No valid response" is raised exactly when the response is a dict
    whose [CatalogProductOfferingsResponse] is absent or empty; the one with
    the message "No flight offers found" exactly when that entry is a
    non-empty dict and the offerings under it are absent or empty; no other
    [UserError] is raised; and a response of the schema, whatever optional
    detail its offerings lack, is turned into offers as soon as it has one
    offering. *)
Theorem process_flight_results_failures (w : wizard) (response_data : json) :
  (_process_flight_results w response_data = Raise (UserError no_valid_response) <->
   exists kvs,
     response_data = JObj kvs /\
     truthy match assoc "CatalogProductOfferingsResponse" kvs with
            | Some v => v
            | None => JNull
            end = false) /\
  (_process_flight_results w response_data = Raise (UserError no_offers_found) <->
   exists kvs response c,
     response_data = JObj kvs /\
     assoc "CatalogProductOfferingsResponse" kvs = Some (JObj response) /\
     response <> [] /\
     match assoc "CatalogProductOfferings" response with
     | Some v => v
     | None => JObj []
     end = JObj c /\
     truthy match assoc "CatalogProductOffering" c with
            | Some v => v
            | None => JArr []
            end = false) /\
  (forall msg,
     _process_flight_results w response_data = Raise (UserError msg) ->
     msg = no_valid_response \/ msg = no_offers_found) /\
  (response_shaped response_data = true ->
   (exists w', _process_flight_results w response_data = Ok w') \/
   _process_flight_results w response_data = Raise (UserError no_valid_response) \/
   _process_flight_results w response_data = Raise (UserError no_offers_found)).
Proof.
  split; [| split; [| split]].
  - rewrite process_raise_user_error. apply catalog_offering_list_no_valid_response.
  - rewrite process_raise_user_error. apply catalog_offering_list_no_offers.
  - intros msg H. apply process_raise_user_error in H.
    eapply catalog_offering_list_user_errors; eauto.
  - intros Hshape.
    destruct (catalog_offering_list_of response_data) as [col | e] eqn:Hcol.
    + left. eapply process_flight_results_shaped; eauto.
    + right.
      assert (Hshape' := Hshape).
      unfold response_shaped, is_dict_with in Hshape'.
      destruct response_data as [| | | | | | kvs]; try discriminate.
      destruct (assoc "CatalogProductOfferingsResponse" kvs) as [wrapper |] eqn:Hw;
        [| discriminate].
      destruct wrapper as [| | | | | | response]; try discriminate.
      apply andb_true_iff in Hshape' as (Hofferings & _).
      destruct response as [| kv rest] eqn:Hresp.
      * left. apply process_raise_user_error.
        apply catalog_offering_list_no_valid_response.
        exists kvs. rewrite Hw. split; reflexivity.
      * right. apply process_raise_user_error.
        unfold catalog_offering_list_of in *. cbn [py_get bind] in *.
        rewrite Hw in *. cbn [truthy negb py_get bind] in *.
        unfold opt_field in Hofferings.
        destruct (assoc "CatalogProductOfferings" (kv :: rest)) as [c |].
        -- unfold is_dict_with in Hofferings. destruct c as [| | | | | | c]; try discriminate.
           cbn [py_get bind] in *.
           destruct (truthy _); cbn [negb] in *; [discriminate | reflexivity].
        -- reflexivity.
Qed.

(** The schema lets a field be absent, not null: an offering whose
    [TotalPrice] is [None] has no [get] to call. *)
Remark null_total_price_raises (w : wizard) :
  _process_flight_results w (response_with [JObj [("id", JStr "O3"); ("TotalPrice", JNull)]])
  = Raise AttributeError.
Proof. reflexivity. Qed.

(** ** The mock responder *)

Lemma filterM_route (a b : string) (l : list mock_flight) :
  filterM (fun f =>
             ua <- py_upper (JStr a) ;;
             if String.eqb (mf_origin f) ua then
               ub <- py_upper (JStr b) ;; Ok (String.eqb (mf_destination f) ub)
             else Ok false) l
  = Ok (filter (fun f => String.eqb (mf_origin f) (upper a) &&
                         String.eqb (mf_destination f) (upper b)) l).
Proof.
  induction l as [| f l IH]; cbn [filterM py_upper bind filter] in *; [reflexivity |].
  rewrite IH. destruct (String.eqb (mf_origin f) (upper a)); reflexivity.
Qed.

Lemma flights_between_strings (a b : string) :
  flights_between (JStr a) (JStr b)
  = Ok (filter (fun f => String.eqb (mf_origin f) (upper a) &&
                         String.eqb (mf_destination f) (upper b)) MOCK_FLIGHTS).
Proof. apply filterM_route. Qed.

Lemma filter_none {A : Type} (p : A -> bool) (l : list A) :
  existsb p l = false -> filter p l = [].
Proof.
  induction l as [| x l IH]; simpl; [reflexivity |].
  intros H. apply orb_false_iff in H as (-> & H). auto.
Qed.

Lemma leg_endpoint (leg : json) (k : string) :
  opt_field k match leg with JObj l => l | _ => [] end endpoint_shaped = true ->
  is_dict leg = true ->
  exists endpoint,
    py_get leg k (JObj []) = Ok endpoint /\
    py_get endpoint "value" (JStr "") = Ok (JStr (endpoint_code leg k)).
Proof.
  destruct leg as [| | | | | | l]; try discriminate. intros Hend _.
  unfold opt_field in Hend. unfold endpoint_code. cbn [py_get bind].
  destruct (assoc k l) as [endpoint |].
  - unfold endpoint_shaped, is_dict_with, opt_field in Hend.
    destruct endpoint as [| | | | | | e]; try discriminate.
    exists (JObj e). split; [reflexivity |]. cbn [py_get].
    destruct (assoc "value" e) as [v |]; [| reflexivity].
    destruct v; try discriminate. reflexivity.
  - exists (JObj []). split; reflexivity.
Qed.

Lemma passengers_total (passengers : list json) :
  forallb passenger_shaped passengers = true ->
  forall z,
    foldM (fun acc p =>
             number <- py_get p "number" (JInt 1) ;;
             n <- num_of number ;;
             py_add acc n)
          (PInt z) passengers = Ok (PInt (z + passenger_count passengers)).
Proof.
  induction passengers as [| p ps IH]; simpl; intros Hall z; [now rewrite Z.add_0_r |].
  apply andb_true_iff in Hall as (Hp & Hps).
  unfold passenger_shaped, is_dict_with, opt_field in Hp.
  destruct p as [| | | | | | fields]; try discriminate. cbn [py_get bind].
  destruct (assoc "number" fields) as [v |].
  - destruct v; try discriminate. cbn [num_of py_add bind].
    rewrite IH by exact Hps. now rewrite Z.add_assoc.
  - cbn [num_of py_add bind]. rewrite IH by exact Hps. now rewrite Z.add_assoc.
Qed.

(** What the handler does with a request of the schema: the first leg gives
    the route, the second the return date, and the offers are built unless the
    table has no flight for the route. *)
Lemma search_flights_body_shaped (g : rng) (data : json) :
  request_shaped data = true ->
    hashable (request_cabin data) = true /\
    search_flights_body g data
    = let outbound_flights :=
        filter (fun f => String.eqb (mf_origin f) (upper (request_origin data)) &&
                         String.eqb (mf_destination f) (upper (request_destination data)))
               MOCK_FLIGHTS in
      let return_flights :=
        if truthy (request_return_date data) then
          filter (fun f => String.eqb (mf_origin f) (upper (request_destination data)) &&
                           String.eqb (mf_destination f) (upper (request_origin data)))
                 MOCK_FLIGHTS
        else [] in
      match outbound_flights with
      | [] => Ok (Response 200 empty_result)
      | _ => build_response g outbound_flights return_flights
                            (request_departure_date data)
                            (request_return_date data) (request_cabin data)
                            (PInt (request_passenger_count data))
      end.
Proof.
  intros Hshape.
  unfold request_shaped, is_dict_with in Hshape.
  destruct data as [| | | | | | d]; try discriminate.
  unfold request_origin, request_destination, request_departure_date,
    request_return_date, request_legs,
    request_cabin, request_passenger_count, search_flights_body.
  cbn [py_get bind] in *.
  destruct (assoc "CatalogProductOfferingsQueryRequest" d) as [q |]; [| discriminate].
  destruct q as [| | | | | | q]; try discriminate. cbn [py_get bind] in *.
  destruct (assoc "CatalogProductOfferingsRequest" q) as [c |]; [| discriminate].
  destruct c as [| | | | | | c]; try discriminate. cbn [py_get bind] in *.
  unfold catalog_request_shaped in Hshape.
  apply andb_true_iff in Hshape as (Hshape & Hcabin).
  apply andb_true_iff in Hshape as (Hlegs & Hpassengers).
  destruct (assoc "SearchCriteriaFlight" c) as [legs |]; [| discriminate].
  destruct legs as [| | | | | legs |]; try discriminate.
  destruct legs as [| leg legs]; [discriminate |].
  apply andb_true_iff in Hlegs as (Hleg & Hrest).
  cbn [truthy negb py_index nth_error bind py_len].
  (* the cabin *)
  assert (Hcab : exists cabin_class,
             (if truthy match assoc "Cabin" c with Some v => v | None => JArr [] end
              then py_index match assoc "Cabin" c with Some v => v | None => JArr [] end 0
              else Ok (JStr "Economy")) = Ok cabin_class /\ hashable cabin_class = true).
  { unfold opt_field in Hcabin.
    destruct (assoc "Cabin" c) as [v |]; [| simpl; eauto].
    unfold is_list_of in Hcabin. destruct v; try discriminate.
    destruct l as [| x l]; [simpl; eauto |].
    simpl in Hcabin. apply andb_true_iff in Hcabin as (Hx & _). simpl. eauto. }
  destruct Hcab as (cabin_class & Hcab & Hhash). rewrite Hcab.
  (* the first leg *)
  assert (Hdict : is_dict leg = true).
  { unfold leg_shaped, is_dict_with in Hleg. destruct leg; try discriminate. reflexivity. }
  assert (Hends : opt_field "From" match leg with JObj l => l | _ => [] end
                            endpoint_shaped = true /\
                  opt_field "To" match leg with JObj l => l | _ => [] end
                            endpoint_shaped = true).
  { unfold leg_shaped, is_dict_with in Hleg. destruct leg; try discriminate.
    now apply andb_true_iff in Hleg. }
  destruct Hends as (Hfrom & Hto).
  destruct (leg_endpoint leg "From" Hfrom Hdict) as (from_obj & -> & Horigin).
  cbn [bind]. rewrite Horigin. cbn [bind].
  destruct (leg_endpoint leg "To" Hto Hdict) as (to_obj & -> & Hdest).
  cbn [bind]. rewrite Hdest. cbn [bind].
  assert (Hdate : py_get leg "departureDate" (JStr "")
                  = Ok match py_get leg "departureDate" (JStr "") with
                       | Ok d => d
                       | Raise _ => JStr ""
                       end).
  { destruct leg; try discriminate. reflexivity. }
  rewrite Hdate at 1. cbn [bind].
  (* the return date *)
  set (return_date := match legs with
                      | leg2 :: _ => match py_get leg2 "departureDate" (JStr "") with
                                     | Ok d => d
                                     | Raise _ => JNull
                                     end
                      | [] => JNull
                      end).
  match goal with
  | |- _ /\ bind ?r _ = _ => assert (Hreturn : r = Ok return_date)
  end.
  { subst return_date. destruct legs as [| leg2 legs]; [reflexivity |].
    cbn [List.length Nat.ltb Nat.leb bind].
    simpl in Hrest. apply andb_true_iff in Hrest as (Hleg2 & _).
    unfold leg_shaped, is_dict_with in Hleg2. destruct leg2; try discriminate.
    reflexivity. }
  rewrite Hreturn. cbn [bind].
  (* the passengers *)
  assert (Hpax : exists passengers,
             match assoc "PassengerCriteria" c with Some v => v | None => JArr [] end
             = JArr passengers /\ forallb passenger_shaped passengers = true).
  { unfold opt_field in Hpassengers.
    destruct (assoc "PassengerCriteria" c) as [v |]; [| exists []; split; reflexivity].
    unfold is_list_of in Hpassengers. destruct v; try discriminate. eauto. }
  destruct Hpax as (passengers & -> & Hall). cbn [py_iter bind].
  rewrite (passengers_total passengers Hall 0). cbn [bind Z.add].
  split; [exact Hhash |].
  unfold get_mock_flights_for_route.
  rewrite flights_between_strings. cbn [bind].
  destruct (truthy return_date); [rewrite flights_between_strings |]; reflexivity.
Qed.

(** C9: a request of the schema whose first leg names a pair of airports the
    static table has no flight for is answered with status 200 and the
    document whose offerings list is empty, whatever the generator does. *)
Theorem unknown_route_gives_empty_result (g : rng) (data : json) :
  request_shaped data = true ->
  route_in_table (request_origin data) (request_destination data) = false ->
  search_flights g data = Response 200 empty_result /\
  response_offerings (search_flights g data) = [].
Proof.
  intros Hshape Hroute.
  destruct (search_flights_body_shaped g data Hshape) as (_ & Hbody).
  unfold route_in_table in Hroute.
  rewrite (filter_none _ _ Hroute) in Hbody. cbn zeta iota in Hbody.
  unfold search_flights. rewrite Hbody. split; reflexivity.
Qed.

Lemma randint_bounds (a b : Z) (g : rng) :
  a <= b -> a <= fst (randint a b g) <= b.
Proof.
  intros Hab. unfold randint, draw. cbn [fst].
  pose proof (Z.mod_pos_bound (Z.of_N (g 0%nat)) (b - a + 1)). lia.
Qed.

(** One turn of the loop adds one offering, priced by the formula with the
    base price of the cabin class and a jitter drawn from the generator. *)
Lemma make_offer_step (outbound_flights return_flights : list mock_flight)
  (departure_date return_date cabin_class : json) (total : Z) (n : float)
  (st : mock_state) (offer_idx : nat) :
  hashable cabin_class = true ->
  float_of_int total = Ok n ->
  exists st' offering g',
    make_offer outbound_flights return_flights departure_date return_date cabin_class
               (PInt total) st offer_idx = Ok st' /\
    offerings st' = offerings st ++ [offering] /\
    offering_price offering
    = JFloat (jitter_price (base_of cabin_class) n (truthy return_date)
                           (fst (uniform (-0.1) 0.1 g'))).
Proof.
  intros Hhash Hn. unfold make_offer, calculate_price, base_of.
  destruct (choice placeholder_flight outbound_flights (gen st)) as [selected_outbound g1].
  assert (Hbase : exists base, base_price_of cabin_class = Ok base).
  { unfold base_price_of. rewrite Hhash. eauto. }
  destruct Hbase as (base & Hbase). rewrite Hbase.
  cbn [to_float]. rewrite Hn. cbn [bind].
  destruct return_flights as [| r rs].
  - cbn [build_product_air].
    destruct (uniform (-0.1) 0.1 g1) as [u g3] eqn:Hu. cbn [bind].
    eexists _, _, g1. split; [reflexivity |]. split; [reflexivity |].
    rewrite Hu. reflexivity.
  - destruct (choice placeholder_flight (r :: rs) g1) as [selected_return g2].
    cbn [build_product_air].
    destruct (uniform (-0.1) 0.1 g2) as [u g3] eqn:Hu. cbn [bind].
    eexists _, _, g2. split; [reflexivity |]. split; [reflexivity |].
    rewrite Hu. reflexivity.
Qed.

Lemma make_offers_loop (outbound_flights return_flights : list mock_flight)
  (departure_date return_date cabin_class : json) (total : Z) (n : float)
  (P : json -> Prop) (indices : list nat) :
  hashable cabin_class = true ->
  float_of_int total = Ok n ->
  (forall offering g',
     offering_price offering
     = JFloat (jitter_price (base_of cabin_class) n (truthy return_date)
                            (fst (uniform (-0.1) 0.1 g'))) -> P offering) ->
  forall st,
    Forall P (offerings st) ->
    exists st',
      foldM (make_offer outbound_flights return_flights departure_date return_date
                        cabin_class (PInt total)) st indices = Ok st' /\
      Forall P (offerings st') /\
      List.length (offerings st') = (List.length (offerings st) + List.length indices)%nat.
Proof.
  intros Hhash Hn HP.
  induction indices as [| i indices IH]; intros st Hst; cbn [foldM].
  - exists st. repeat split; auto.
  - destruct (make_offer_step outbound_flights return_flights departure_date return_date
                              cabin_class total n st i Hhash Hn)
      as (st1 & offering & g' & -> & Hoff & Hprice).
    cbn [bind].
    destruct (IH st1) as (st' & Hfold & Hall & Hlen).
    { rewrite Hoff. apply Forall_app. split; [exact Hst |].
      constructor; [eapply HP; eauto | constructor]. }
    exists st'. split; [exact Hfold |]. split; [exact Hall |].
    rewrite Hlen, Hoff, length_app. simpl. lia.
Qed.

(** For a request of the schema whose route is in the table, the mock answers
    with three to five offerings, each priced by the formula: the base price of
    the cabin class as the request spells it, times the passengers, times 1.8
    when the second leg has a date, times one plus a draw of
    [uniform(-0.1, 0.1)], rounded to two decimals. *)
Lemma mock_offers_count_and_price (g : rng) (data : json) (n : float) :
  request_shaped data = true ->
  route_in_table (request_origin data) (request_destination data) = true ->
  float_of_int (request_passenger_count data) = Ok n ->
  (3 <= List.length (response_offerings (search_flights g data)) <= 5)%nat /\
  Forall (fun offering =>
            exists g',
              offering_price offering
              = JFloat (jitter_price (base_of (request_cabin data)) n
                                     (truthy (request_return_date data))
                                     (fst (uniform (-0.1) 0.1 g'))))
         (response_offerings (search_flights g data)).
Proof.
  intros Hshape Hroute Hn.
  destruct (search_flights_body_shaped g data Hshape) as (Hhash & Hbody).
  unfold search_flights. rewrite Hbody. clear Hbody. cbn zeta.
  unfold route_in_table in Hroute.
  destruct (filter _ MOCK_FLIGHTS) as [| f fs] eqn:Hout.
  { exfalso. apply existsb_exists in Hroute as (f & Hin & Hf).
    assert (Hin' : In f []) by (rewrite <- Hout; apply filter_In; auto).
    exact Hin'. }
  unfold build_response.
  pose proof (randint_bounds 3 5 g ltac:(lia)) as Hrange.
  destruct (randint 3 5 g) as [num_offers g0]. cbn [fst] in Hrange.
  match goal with
  | |- context [foldM ?step ?s ?l] =>
      destruct (make_offers_loop (f :: fs)
                  (if truthy (request_return_date data)
                   then filter (fun f => String.eqb (mf_origin f)
                                                    (upper (request_destination data)) &&
                                         String.eqb (mf_destination f)
                                                    (upper (request_origin data)))
                               MOCK_FLIGHTS
                   else [])
                  (request_departure_date data) (request_return_date data)
                  (request_cabin data) (request_passenger_count data) n
                  (fun offering =>
                     exists g',
                       offering_price offering
                       = JFloat (jitter_price (base_of (request_cabin data)) n
                                              (truthy (request_return_date data))
                                              (fst (uniform (-0.1) 0.1 g'))))
                  l Hhash Hn) with (st := s) as (st' & Hfold & Hall & Hlen)
  end.
  - intros offering g' H. eauto.
  - constructor.
  - rewrite Hfold. cbn [bind]. cbn [offerings List.length] in Hlen.
    rewrite length_seq in Hlen.
    assert (Hne : offerings st' <> []).
    { intros Hnil. rewrite Hnil in Hlen. simpl in Hlen. lia. }
    unfold response_offerings, catalog_offering_list_of.
    cbn [py_get assoc String.eqb Ascii.eqb Bool.eqb bind truthy negb].
    destruct (offerings st') as [| o os] eqn:Hoffs; [contradiction |].
    cbn [negb]. split; [cbn [List.length] in *; lia | exact Hall].
Qed.

Lemma foldM_ext {A S : Type} (f f' : S -> A -> result S) (l : list A) :
  (forall s x, f s x = f' s x) -> forall s, foldM f s l = foldM f' s l.
Proof.
  intros Hext. induction l as [| x xs IH]; intros s; cbn [foldM]; [reflexivity |].
  rewrite Hext. destruct (f' s x); cbn [bind]; auto.
Qed.

(** The cabin class counts through its base price only. *)
Lemma make_offer_cabin (outbound_flights return_flights : list mock_flight)
  (departure_date return_date c1 c2 : json) (total : pynum) (st : mock_state) (i : nat) :
  base_price_of c1 = base_price_of c2 ->
  make_offer outbound_flights return_flights departure_date return_date c1 total st i
  = make_offer outbound_flights return_flights departure_date return_date c2 total st i.
Proof.
  intros Hbase. unfold make_offer, calculate_price. rewrite Hbase. reflexivity.
Qed.

Lemma build_response_cabin (g : rng) (outbound_flights return_flights : list mock_flight)
  (departure_date return_date c1 c2 : json) (total : pynum) :
  base_price_of c1 = base_price_of c2 ->
  build_response g outbound_flights return_flights departure_date return_date c1 total
  = build_response g outbound_flights return_flights departure_date return_date c2 total.
Proof.
  intros Hbase. unfold build_response.
  destruct (randint 3 5 g) as [num_offers g0].
  rewrite (foldM_ext _ (make_offer outbound_flights return_flights departure_date
                                   return_date c2 total)); [reflexivity |].
  intros s x. now apply make_offer_cabin.
Qed.

(** C4, at the request the wizard sends for a Premium Economy search from LHR
    to JFK, one way, one adult: the request spells the cabin class
    "PremiumEconomy", a key the price table does not have, so the mock falls
    back to the Economy base price of 450 where the table gives 850 for
    "Premium Economy".  Whatever the generator does, the answer has three to
    five offerings, each priced by the formula with base 450, and is the
    answer to the same search in Economy; on the tape whose jitter is zero
    every offering costs 450.0. *)
Theorem premium_economy_priced_as_economy :
  cabin_filter premium_wizard = [("Cabin", JArr [JStr "PremiumEconomy"])] /\
  request_cabin (payload_of premium_wizard) = JStr "PremiumEconomy" /\
  base_of (JStr "PremiumEconomy") = 450%float /\
  base_of (JStr "Premium Economy") = 850%float /\
  (forall g,
     (3 <= List.length (response_offerings
                          (search_flights g (payload_of premium_wizard))) <= 5)%nat /\
     Forall (fun offering =>
               exists g',
                 offering_price offering
                 = JFloat (jitter_price 450 1 false (fst (uniform (-0.1) 0.1 g'))))
            (response_offerings (search_flights g (payload_of premium_wizard)))) /\
  (forall g,
     search_flights g (payload_of premium_wizard)
     = search_flights g (payload_of one_way_wizard)) /\
  map offering_price
      (response_offerings (search_flights steady_tape (payload_of premium_wizard)))
  = [JFloat 450; JFloat 450; JFloat 450; JFloat 450].
Proof.
  split; [reflexivity |]. split; [reflexivity |].
  split; [reflexivity |]. split; [reflexivity |].
  split; [| split].
  - intros g.
    apply (mock_offers_count_and_price g (payload_of premium_wizard) 1%float);
      reflexivity.
  - intros g. unfold search_flights.
    destruct (search_flights_body_shaped g (payload_of premium_wizard) eq_refl)
      as (_ & ->).
    destruct (search_flights_body_shaped g (payload_of one_way_wizard) eq_refl)
      as (_ & ->).
    change (request_origin (payload_of premium_wizard)) with "LHR".
    change (request_destination (payload_of premium_wizard)) with "JFK".
    change (request_origin (payload_of one_way_wizard)) with "LHR".
    change (request_destination (payload_of one_way_wizard)) with "JFK".
    change (request_departure_date (payload_of premium_wizard)) with (JStr "2025-03-01").
    change (request_departure_date (payload_of one_way_wizard)) with (JStr "2025-03-01").
    change (request_return_date (payload_of premium_wizard)) with JNull.
    change (request_return_date (payload_of one_way_wizard)) with JNull.
    change (request_passenger_count (payload_of premium_wizard)) with 1.
    change (request_passenger_count (payload_of one_way_wizard)) with 1.
    change (request_cabin (payload_of premium_wizard)) with (JStr "PremiumEconomy").
    change (request_cabin (payload_of one_way_wizard)) with (JStr "Economy").
    cbn zeta.
    rewrite (build_response_cabin g _ _ _ _ (JStr "PremiumEconomy") (JStr "Economy"));
      reflexivity.
  - vm_compute. reflexivity.
Qed.
(** ** The request the builder makes *)

Lemma passenger_criteria_form (w : wizard) (criteria : list json) (log : list string) :
  _prepare_passenger_criteria w = Ok (criteria, log) ->
  criteria
  = (if 0 <? passenger_adult_count w then [adult_entry (passenger_adult_count w)] else [])
    ++ map child_entry
           (if 0 <? passenger_child_count w
            then match passenger_child_ages w with
                 | Some s => parsed_ages (child_age_tokens s)
                 | None => []
                 end
            else []).
Proof.
  unfold _prepare_passenger_criteria.
  destruct (0 <? passenger_child_count w).
  - destruct (passenger_child_ages w) as [s |]; [| discriminate].
    rewrite child_loop_spec. intros [= <- _]. reflexivity.
  - intros [= <- _]. now rewrite app_nil_r.
Qed.

Lemma passenger_count_app (l l' : list json) :
  passenger_count (l ++ l') = passenger_count l + passenger_count l'.
Proof.
  unfold passenger_count. induction l as [| p l IH]; simpl; [reflexivity |].
  rewrite IH. destruct (py_get p "number" (JInt 1)) as [[| | n | | | |] |]; lia.
Qed.

Lemma passenger_count_children (ages : list Z) :
  passenger_count (map child_entry ages) = Z.of_nat (List.length ages).
Proof.
  induction ages as [| a ages IH]; [reflexivity |].
  change (passenger_count (map child_entry (a :: ages)))
    with (1 + passenger_count (map child_entry ages)).
  rewrite IH. cbn [List.length]. lia.
Qed.

Lemma passengers_shaped_children (ages : list Z) :
  forallb passenger_shaped (map child_entry ages) = true.
Proof. induction ages as [| a ages IH]; [reflexivity | exact IH]. Qed.

(** The builder never fails on validated criteria. *)
Lemma prepare_api_payload_validated (w : wizard) :
  validated w -> exists payload log, _prepare_api_payload w = Ok (payload, log).
Proof.
  intros (Hages & _ & _ & Hdep).
  unfold _prepare_api_payload, _prepare_passenger_criteria,
    _prepare_search_criteria_flight.
  unfold _check_child_ages in Hages.
  destruct (departure_date w) as [d |]; [| congruence].
  destruct (0 <? passenger_child_count w).
  - destruct (passenger_child_ages w) as [s |]; [| discriminate].
    destruct (child_loop _ _ _) as [criteria log]. cbn [bind].
    destruct (is_round_trip w), (return_date w); cbn [bind]; eauto.
  - cbn [bind]. destruct (is_round_trip w), (return_date w); cbn [bind]; eauto.
Qed.

Lemma cabin_filter_case (w : wizard) (A : Type) (k : json -> A) (default : A) :
  match assoc "Cabin" (cabin_filter w) with
  | Some v => k v
  | None => default
  end
  = match cabin_class w with
    | Some c =>
        if nonempty c && negb (String.eqb c "Economy")
        then k (JArr [JStr match str_assoc c cabin_map with
                           | Some code => code
                           | None => c
                           end])
        else default
    | None => default
    end.
Proof.
  unfold cabin_filter.
  destruct (cabin_class w) as [c |]; [| reflexivity].
  destruct (nonempty c && negb (String.eqb c "Economy")); reflexivity.
Qed.

(** What a returned payload is made of. *)
Lemma prepare_api_payload_parts (w : wizard) (payload : json) (log : list string) :
  _prepare_api_payload w = Ok (payload, log) ->
  exists d passengers rest,
    departure_date w = Some d /\
    _prepare_passenger_criteria w = Ok (passengers, log) /\
    forallb passenger_shaped passengers = true /\
    forallb leg_shaped rest = true /\
    match rest with
    | leg :: _ => match py_get leg "departureDate" (JStr "") with
                  | Ok v => v
                  | Raise _ => JNull
                  end
    | [] => JNull
    end
    = match is_round_trip w, return_date w with
      | true, Some r => JStr (strftime_ymd r)
      | _, _ => JNull
      end /\
    payload
    = JObj
        [("CatalogProductOfferingsQueryRequest",
          JObj [("CustomResponseModifiersAir",
                 JObj [("SearchRepresentation", JStr "Journey");
                       ("includeCo2EmissionsDataInd", JBool true);
                       ("includeFlightAmenitiesInd", JBool true)]);
                ("CatalogProductOfferingsRequest",
                 JObj ([("offersPerPage", JInt 50);
                        ("sortBy", JStr "Price-LowToHigh");
                        ("contentSourceList", JArr [JStr "GDS"; JStr "NDC"]);
                        ("PassengerCriteria", JArr passengers);
                        ("SearchCriteriaFlight", JArr (outbound_leg d w :: rest))]
                       ++ cabin_filter w))])].
Proof.
  unfold _prepare_api_payload. intros H.
  apply bind_ok in H as ([passengers log'] & Hpax & H).
  apply bind_ok in H as (legs & Hlegs & H).
  injection H as <- <-.
  pose proof (passenger_criteria_form _ _ _ Hpax) as Hform.
  unfold _prepare_search_criteria_flight in Hlegs.
  destruct (departure_date w) as [d |]; [| discriminate].
  exists d, passengers.
  assert (Hshaped : forallb passenger_shaped passengers = true).
  { rewrite Hform, forallb_app, passengers_shaped_children.
    destruct (0 <? passenger_adult_count w); reflexivity. }
  destruct (is_round_trip w), (return_date w) as [r |]; injection Hlegs as <-.
  1: exists [return_leg r w].
  2-4: exists [].
  all: split; [reflexivity |]; split; [exact Hpax |]; split; [exact Hshaped |];
    split; [reflexivity |]; split; reflexivity.
Qed.

(** The route of a returned payload, as the mock reads it. *)
Lemma payload_route (w : wizard) (payload : json) (log : list string) :
  _prepare_api_payload w = Ok (payload, log) ->
  request_shaped payload = true /\
  request_origin payload = upper (origin w) /\
  request_destination payload = upper (destination w).
Proof.
  intros H.
  destruct (prepare_api_payload_parts w payload log H)
    as (d & passengers & rest & _ & _ & Hshaped & Hrest & _ & ->).
  split; [| split; reflexivity].
  unfold request_shaped, is_dict_with, catalog_request_shaped, opt_field.
  cbn [assoc String.eqb Ascii.eqb Bool.eqb andb app].
  cbn [is_list_of]. rewrite Hrest, Hshaped.
  change (leg_shaped (outbound_leg d w)) with true. cbn [andb].
  rewrite (cabin_filter_case w bool (is_list_of hashable) true).
  destruct (cabin_class w) as [c |]; [| reflexivity].
  destruct (nonempty c && negb (String.eqb c "Economy")); reflexivity.
Qed.

(** Whatever the builder returns has the shape the mock reads: the route in
    upper case, the dates as text, one passenger per adult counted and per age
    read, and the cabin code, "Economy" standing for an omitted filter. *)
Lemma prepare_api_payload_shaped (w : wizard) (payload : json) (log : list string) :
  _prepare_api_payload w = Ok (payload, log) ->
  request_shaped payload = true /\
  request_origin payload = upper (origin w) /\
  request_destination payload = upper (destination w) /\
  request_departure_date payload
  = match departure_date w with Some d => JStr (strftime_ymd d) | None => JStr "" end /\
  request_return_date payload
  = match is_round_trip w, return_date w with
    | true, Some r => JStr (strftime_ymd r)
    | _, _ => JNull
    end /\
  request_passenger_count payload
  = (if 0 <? passenger_adult_count w then passenger_adult_count w else 0)
    + (if 0 <? passenger_child_count w
       then match passenger_child_ages w with
            | Some s => Z.of_nat (List.length (parsed_ages (child_age_tokens s)))
            | None => 0
            end
       else 0) /\
  request_cabin payload
  = JStr match cabin_class w with
         | Some c =>
             if nonempty c && negb (String.eqb c "Economy")
             then match str_assoc c cabin_map with Some code => code | None => c end
             else "Economy"
         | None => "Economy"
         end.
Proof.
  intros H.
  destruct (payload_route w payload log H) as (Hshape & Horigin & Hdestination).
  destruct (prepare_api_payload_parts w payload log H)
    as (d & passengers & rest & Hd & Hpax & _ & _ & Hreturn & ->).
  pose proof (passenger_criteria_form _ _ _ Hpax) as Hform.
  rewrite Hd.
  split; [exact Hshape |]. split; [exact Horigin |]. split; [exact Hdestination |].
  split; [reflexivity |].
  split; [| split].
  - unfold request_return_date, request_legs.
    cbn [py_get bind assoc String.eqb Ascii.eqb Bool.eqb app]. exact Hreturn.
  - unfold request_passenger_count.
    cbn [py_get bind assoc String.eqb Ascii.eqb Bool.eqb app].
    rewrite Hform, passenger_count_app, passenger_count_children.
    f_equal.
    + destruct (0 <? passenger_adult_count w); [| reflexivity].
      unfold passenger_count. simpl. lia.
    + destruct (0 <? passenger_child_count w); [| reflexivity].
      destruct (passenger_child_ages w); reflexivity.
  - unfold request_cabin.
    cbn [py_get bind assoc String.eqb Ascii.eqb Bool.eqb app].
    rewrite (cabin_filter_case w json (fun v => v) (JArr [])).
    destruct (cabin_class w) as [c |]; [| reflexivity].
    destruct (nonempty c && negb (String.eqb c "Economy")); reflexivity.
Qed.
(** ** Children: what validation counts and what the builder makes *)

Lemma parsed_rejected_length (tokens : list string) :
  (List.length (parsed_ages tokens) + List.length (rejected_ages tokens))%nat
  = List.length tokens.
Proof.
  unfold parsed_ages, rejected_ages.
  induction tokens as [| t tokens IH]; [reflexivity |].
  cbn [flat_map]. rewrite !length_app.
  destruct (py_int t); cbn [List.length]; lia.
Qed.

(** Validation counts the ages between the commas, the builder keeps the ones
    that are integers: for validated criteria with children, the child entries
    and the warnings together are as many as the children.  Without children
    the age string is not looked at: the constraint holds and no child entry
    is made. *)
Lemma child_entries_and_warnings (w : wizard) :
  (validated w -> 0 < passenger_child_count w ->
   exists criteria log,
     _prepare_passenger_criteria w = Ok (criteria, log) /\
     Z.of_nat (List.length (filter is_child_entry criteria)) + Z.of_nat (List.length log)
     = passenger_child_count w) /\
  (passenger_child_count w <= 0 ->
   _check_child_ages w = Ok tt /\
   exists criteria,
     _prepare_passenger_criteria w = Ok (criteria, []) /\
     filter is_child_entry criteria = []).
Proof.
  split.
  - intros (Hages & _) Hpos.
    unfold _check_child_ages in Hages.
    pose proof (proj2 (Z.ltb_lt _ _) Hpos) as Hlt. rewrite Hlt in Hages.
    destruct (passenger_child_ages w) as [s |] eqn:Hs; [| discriminate].
    destruct (nonempty s); [| discriminate]. cbn [negb] in Hages.
    destruct (Z.of_nat (List.length (child_age_tokens s)) =? passenger_child_count w)
      eqn:Hcount; [| discriminate].
    apply Z.eqb_eq in Hcount.
    destruct (prepare_passenger_criteria_children w s Hpos Hs) as (criteria & Hprep & Hchildren).
    eexists _, _. split; [exact Hprep |].
    rewrite Hchildren, !length_map, <- Hcount.
    rewrite <- (parsed_rejected_length (child_age_tokens s)). lia.
  - intros Hnone.
    assert (Hlt : (0 <? passenger_child_count w) = false) by (apply Z.ltb_ge; lia).
    unfold _check_child_ages, _prepare_passenger_criteria. rewrite Hlt.
    split; [reflexivity |]. eexists. split; [reflexivity |].
    destruct (0 <? passenger_adult_count w); reflexivity.
Qed.
(** ** The offers a search leaves in the wizard *)

(** What a successful call did: the offerings were a non-empty list and the
    offers are the loop body applied to the first fifty, in order. *)
Lemma process_flight_results_records (w w' : wizard) (response_data : json) :
  _process_flight_results w response_data = Ok w' ->
  exists offerings flight_map product_map,
    catalog_offering_list_of response_data = Ok (JArr offerings) /\
    offerings <> [] /\
    w' = with_flight_offers w (flight_offers w') /\
    mapM (fun '(idx, offering) => offer_values w flight_map product_map idx offering)
         (enumerate (firstn 50 offerings))
    = Ok (flight_offers w').
Proof.
  unfold _process_flight_results. intros H.
  apply bind_ok in H as (col & Hcol & H).
  pose proof (catalog_offering_list_truthy _ _ Hcol) as Htruthy.
  apply bind_ok in H as (response & _ & H).
  apply bind_ok in H as (reference_list & _ & H).
  apply bind_ok in H as ([flight_map product_map] & _ & H).
  apply bind_ok in H as (offerings & Hslice & H).
  apply bind_ok in H as (records & Hrecords & H).
  injection H as <-. cbn [flight_offers with_flight_offers].
  destruct col as [| b | z | f | s | l | kvs]; try discriminate Hslice.
  - (* a string: its first character has no [get] *)
    destruct s as [| c s]; [discriminate |].
    assert (Hoff : offerings = map JStr (firstn 50 (chars (String c s))))
      by (unfold py_slice in Hslice; congruence).
    subst offerings. discriminate Hrecords.
  - assert (Hoff : offerings = firstn 50 l)
      by (unfold py_slice in Hslice; congruence).
    subst offerings. exists l, flight_map, product_map.
    split; [exact Hcol |]. split; [| split; [reflexivity | exact Hrecords]].
    intros ->. discriminate Htruthy.
Qed.

Lemma mapM_enumerate_selected (w : wizard) (fm pm : pydict) (l : list json) :
  forall k records,
    mapM (fun '(idx, offering) => offer_values w fm pm idx offering)
         (combine (seq k (List.length l)) l) = Ok records ->
    map selected records = map (fun i => (i =? 0)%nat) (seq k (List.length l)) /\
    Forall (fun o => wizard_id o = wiz_id w) records.
Proof.
  induction l as [| x l IH]; intros k records H.
  - injection H as <-. split; [reflexivity | constructor].
  - cbn [List.length seq combine mapM] in H.
    apply bind_ok in H as (record & Hrecord & H).
    apply bind_ok in H as (rest & Hrest & H). injection H as <-.
    destruct (IH _ _ Hrest) as (Hsel & Hid).
    pose proof (offer_values_source _ _ _ _ _ _ Hrecord) as (_ & _ & Hfirst).
    cbn [List.length seq map]. rewrite Hsel, Hfirst. split; [reflexivity |].
    constructor; [| exact Hid].
    unfold offer_values in Hrecord. repeat ok_step. reflexivity.
Qed.

Lemma seq_never_zero (k n : nat) :
  Forall (fun b => b = false) (map (fun i => (i =? 0)%nat) (seq (S k) n)).
Proof.
  revert k. induction n as [| n IH]; intros k; cbn [seq map]; constructor; auto.
Qed.

(** After a successful search the wizard keeps its criteria and holds the new
    offers only, whatever offers it held before; there is at least one offer,
    the first one is selected and no other, and every offer points back to the
    wizard. *)
Lemma process_flight_results_leaves (w w' : wizard) (response_data : json) :
  _process_flight_results w response_data = Ok w' ->
  w' = with_flight_offers w (flight_offers w') /\
  (forall previous,
     _process_flight_results (with_flight_offers w previous) response_data = Ok w') /\
  has_results w' = true /\
  (exists first rest,
     flight_offers w' = first :: rest /\
     selected first = true /\
     Forall (fun o => selected o = false) rest) /\
  Forall (fun o => wizard_id o = wiz_id w) (flight_offers w').
Proof.
  intros H.
  destruct (process_flight_results_records _ _ _ H)
    as (offerings & fm & pm & _ & Hne & Hw' & Hrecords).
  split; [exact Hw' |]. split; [intros previous; exact H |].
  destruct (mapM_enumerate_selected w fm pm (firstn 50 offerings) 0 _ Hrecords)
    as (Hsel & Hid).
  destruct offerings as [| o offerings]; [contradiction |].
  change (firstn 50 (o :: offerings)) with (o :: firstn 49 offerings) in Hsel.
  generalize dependent (firstn 49 offerings). intros tail Hsel.
  cbn [List.length seq map] in Hsel.
  destruct (flight_offers w') as [| first rest] eqn:Hoffers; [discriminate |].
  cbn [map] in Hsel. injection Hsel as Hfirst Hrest.
  split; [unfold has_results; now rewrite Hoffers |]. split; [| exact Hid].
  exists first, rest. split; [reflexivity |]. split; [exact Hfirst |].
  pose proof (seq_never_zero 0 (List.length tail)) as Hzero.
  rewrite <- Hrest in Hzero. apply Forall_map in Hzero. exact Hzero.
Qed.
(** ** The description of an offer *)

Lemma offer_values_parts (w : wizard) (fm pm : pydict) (idx : nat)
  (offering : json) (record : flight_offer) :
  offer_values w fm pm idx offering = Ok record ->
  exists total_price price_text lines,
    py_get offering "TotalPrice" (JObj []) = Ok total_price /\
    py_get total_price "value" (JFloat 0) = Ok (price record) /\
    py_get total_price "code" (JStr "USD") = Ok (currency record) /\
    format_2f (price record) = Ok price_text /\
    flight_details record
    = join newline
           (("Flight Offer: " +++ py_str (offer_id record)) ::
            lines ++
            ["Price: " +++ py_str (currency record) +++ " " +++ price_text]).
Proof.
  unfold offer_values. intros H.
  apply bind_ok in H as (offering_id & _ & H).
  apply bind_ok in H as (total_price & Htotal & H).
  apply bind_ok in H as (price_value & Hvalue & H).
  apply bind_ok in H as (price_currency & Hcode & H).
  apply bind_ok in H as (product_options & _ & H).
  apply bind_ok in H as (product_refs & _ & H).
  apply bind_ok in H as (details & _ & H).
  apply bind_ok in H as (price_text & Hfmt & H).
  injection H as <-. cbn [price currency offer_id flight_details].
  exists total_price, price_text,
    (match details with [] => route_lines w | _ => details end).
  repeat (split; [assumption |]). reflexivity.
Qed.

(** Every offer the loop body makes takes its price and its currency from
    [TotalPrice], with 0.0 and 'USD' for what is missing there, and its
    description is the header line with the id, then at least one line, then
    the price line with two decimals. *)
Lemma offer_values_description (w : wizard) (fm pm : pydict) (idx : nat)
  (offering : json) (record : flight_offer) :
  offer_values w fm pm idx offering = Ok record ->
  exists total_price price_text middle,
    py_get offering "TotalPrice" (JObj []) = Ok total_price /\
    py_get total_price "value" (JFloat 0) = Ok (price record) /\
    py_get total_price "code" (JStr "USD") = Ok (currency record) /\
    format_2f (price record) = Ok price_text /\
    middle <> [] /\
    flight_details record
    = join newline
           (["Flight Offer: " +++ py_str (offer_id record)] ++ middle ++
            ["Price: " +++ py_str (currency record) +++ " " +++ price_text]).
Proof.
  unfold offer_values. intros H.
  apply bind_ok in H as (offering_id & Hid & H).
  apply bind_ok in H as (total_price & Htotal & H).
  apply bind_ok in H as (price_value & Hvalue & H).
  apply bind_ok in H as (price_currency & Hcode & H).
  apply bind_ok in H as (product_options & _ & H).
  apply bind_ok in H as (product_refs & _ & H).
  apply bind_ok in H as (details & _ & H).
  apply bind_ok in H as (price_text & Hfmt & H).
  injection H as <-. cbn [price currency offer_id flight_details].
  exists total_price, price_text,
    (match details with [] => route_lines w | _ => details end).
  repeat (split; [assumption || reflexivity |]).
  split.
  - destruct details; [| discriminate].
    unfold route_lines. discriminate.
  - reflexivity.
Qed.

(** An offering without [TotalPrice] is priced 0.0 in USD. *)
Lemma missing_total_price_defaults (w : wizard) (fm pm : pydict) (idx : nat)
  (fields : list (string * json)) (record : flight_offer) :
  assoc "TotalPrice" fields = None ->
  offer_values w fm pm idx (JObj fields) = Ok record ->
  price record = JFloat 0 /\
  currency record = JStr "USD" /\
  exists lines,
    flight_details record = join newline (lines ++ ["Price: USD 0.00"]).
Proof.
  intros Hmissing H.
  destruct (offer_values_parts _ _ _ _ _ _ H)
    as (total_price & price_text & middle & Htotal & Hvalue & Hcode & Hfmt & Hdesc).
  cbn [py_get] in Htotal. rewrite Hmissing in Htotal. injection Htotal as <-.
  cbn [py_get assoc] in Hvalue, Hcode.
  injection Hvalue as Hvalue. injection Hcode as Hcode.
  rewrite <- Hvalue in Hfmt. rewrite <- Hvalue, <- Hcode.
  split; [reflexivity |]. split; [reflexivity |].
  exists (("Flight Offer: " +++ py_str (offer_id record)) :: middle).
  rewrite Hdesc, <- Hcode. cbn [py_str].
  assert (Htext : price_text = "0.00") by (vm_compute in Hfmt; congruence).
  rewrite Htext. reflexivity.
Qed.

(** ** Direct flight references *)

(** When none of the first five references names a product, every reference
    is read as a flight id, those beyond the fifth too. *)
Lemma direct_references_all_read (fm pm : pydict) (refs : list json) :
  maps_shaped fm pm ->
  forallb hashable refs = true ->
  (forall r, In r (firstn 5 refs) -> dict_lookup pm r = None) ->
  resolve_flight_details fm pm refs
  = Ok (flat_map flight_texts (flat_map (flight_at fm) refs)).
Proof.
  intros Hmaps Hrefs Hnone.
  unfold resolve_flight_details.
  rewrite product_flight_details_shaped by assumption.
  assert (Hempty : flat_map (fun r => flat_map (segment_flights fm) (product_segments pm r))
                            (firstn 5 refs) = []).
  { induction (firstn 5 refs) as [| r rs IH]; [reflexivity |].
    cbn [flat_map]. unfold product_segments at 1.
    rewrite (Hnone r (or_introl eq_refl)). cbn [flat_map app].
    apply IH. intros r' Hr'. apply Hnone. now right. }
  rewrite Hempty. cbn [flat_map bind].
  apply direct_flight_details_shaped; [apply Hmaps | exact Hrefs].
Qed.
(** ** Looking a record up by its id *)

Lemma py_eq_str (k : json) (s : string) : py_eq k (JStr s) = str_eq k s.
Proof. destruct k; reflexivity. Qed.

Lemma str_eq_true (k : json) (s : string) : str_eq k s = true -> k = JStr s.
Proof.
  destruct k; try discriminate. cbn [str_eq]. intros H.
  apply String.eqb_eq in H. now subst.
Qed.

Lemma py_eq_str_left (k : json) (s : string) : py_eq (JStr s) k = str_eq k s.
Proof. destruct k; try reflexivity. cbn [py_eq str_eq]. apply String.eqb_sym. Qed.

Lemma dict_store_lookup_str (d : pydict) (k v : json) (s : string) :
  dict_lookup (dict_store d k v) (JStr s)
  = if str_eq k s then Some v else dict_lookup d (JStr s).
Proof.
  induction d as [| [k' v'] d IH]; cbn [dict_store dict_lookup].
  - now rewrite py_eq_str.
  - destruct (py_eq k' k) eqn:Hk; cbn [dict_lookup]; rewrite !py_eq_str.
    + destruct (str_eq k' s) eqn:Hk's.
      * apply str_eq_true in Hk's. subst k'.
        rewrite py_eq_str_left in Hk. now rewrite Hk.
      * destruct (str_eq k s) eqn:Hks; [| reflexivity].
        apply str_eq_true in Hks. subst k.
        rewrite py_eq_str in Hk. congruence.
    + rewrite IH. destruct (str_eq k' s) eqn:Hk's; [| reflexivity].
      destruct (str_eq k s) eqn:Hks; [| reflexivity].
      apply str_eq_true in Hk's, Hks. subst.
      cbn [py_eq] in Hk. now rewrite String.eqb_refl in Hk.
Qed.

Lemma find_app {A : Type} (p : A -> bool) (l l' : list A) :
  find p (l ++ l') = match find p l with Some x => Some x | None => find p l' end.
Proof.
  induction l as [| x l IH]; [reflexivity |].
  cbn [app find]. destruct (p x); [reflexivity | exact IH].
Qed.

Lemma index_loop_lookup (s : string) (records : list json) :
  s <> "" ->
  forall m0 m,
    foldM (fun m record =>
             rid <- py_get record "id" JNull ;;
             if truthy rid then dict_set m rid record else Ok m)
          m0 records = Ok m ->
    dict_lookup m (JStr s)
    = match last_with_id s records with
      | Some r => Some r
      | None => dict_lookup m0 (JStr s)
      end.
Proof.
  intros Hs. unfold last_with_id.
  induction records as [| r records IH]; intros m0 m H.
  - injection H as <-. reflexivity.
  - cbn [foldM] in H. apply bind_ok in H as (m1 & Hstep & H).
    rewrite (IH _ _ H). cbn [rev]. rewrite find_app.
    destruct (find (has_id s) (rev records)); [reflexivity |].
    cbn [find]. unfold has_id, record_id.
    apply bind_ok in Hstep as (rid & Hrid & Hstep). rewrite Hrid.
    destruct (truthy rid) eqn:Htruthy.
    + unfold dict_set in Hstep. destruct (hashable rid); [| discriminate].
      injection Hstep as <-. rewrite dict_store_lookup_str.
      destruct (str_eq rid s); reflexivity.
    + injection Hstep as <-.
      destruct (str_eq rid s) eqn:Hrs; [| reflexivity].
      destruct rid; try discriminate. apply String.eqb_eq in Hrs. subst s0.
      destruct s; [contradiction | discriminate].
Qed.

Lemma index_by_id_lookup (s : string) (records : json) (m0 m : pydict) :
  s <> "" ->
  index_by_id m0 records = Ok m ->
  dict_lookup m (JStr s)
  = match last_with_id s match py_iter records with Ok l => l | Raise _ => [] end with
    | Some r => Some r
    | None => dict_lookup m0 (JStr s)
    end.
Proof.
  intros Hs H. unfold index_by_id in H.
  apply bind_ok in H as (items & -> & H).
  now apply index_loop_lookup.
Qed.

Lemma last_with_id_app (s : string) (l l' : list json) :
  last_with_id s (l ++ l')
  = match last_with_id s l' with Some r => Some r | None => last_with_id s l end.
Proof. unfold last_with_id. now rewrite rev_app_distr, find_app. Qed.

Lemma add_reference_lookup (s : string) (item : json) (fm0 pm0 fm1 pm1 : pydict) :
  s <> "" ->
  add_reference (fm0, pm0) item = Ok (fm1, pm1) ->
  dict_lookup fm1 (JStr s)
  = match last_with_id s (listed_records "ReferenceListFlight" "Flight" [item]) with
    | Some r => Some r
    | None => dict_lookup fm0 (JStr s)
    end /\
  dict_lookup pm1 (JStr s)
  = match last_with_id s (listed_records "ReferenceListProduct" "Product" [item]) with
    | Some r => Some r
    | None => dict_lookup pm0 (JStr s)
    end.
Proof.
  intros Hs Hadd. unfold listed_records. cbn [flat_map]. rewrite !app_nil_r.
  unfold add_reference in Hadd.
  apply bind_ok in Hadd as (ref_type & Htype & Hadd). rewrite Htype.
  destruct (str_eq ref_type "ReferenceListFlight") eqn:Hflight.
  - assert (Hproduct : str_eq ref_type "ReferenceListProduct" = false).
    { apply str_eq_true in Hflight. subst. reflexivity. }
    rewrite Hproduct.
    apply bind_ok in Hadd as (flights & Hflights & Hadd). rewrite Hflights.
    apply bind_ok in Hadd as (fm' & Hindex & Hadd).
    injection Hadd as <- <-.
    rewrite (index_by_id_lookup s _ _ _ Hs Hindex). split; reflexivity.
  - destruct (str_eq ref_type "ReferenceListProduct") eqn:Hproduct.
    + apply bind_ok in Hadd as (products & Hproducts & Hadd). rewrite Hproducts.
      apply bind_ok in Hadd as (pm' & Hindex & Hadd).
      injection Hadd as <- <-.
      rewrite (index_by_id_lookup s _ _ _ Hs Hindex). split; reflexivity.
    + injection Hadd as <- <-. split; reflexivity.
Qed.

Lemma listed_records_cons (ref_type key : string) (item : json) (items : list json) :
  listed_records ref_type key (item :: items)
  = listed_records ref_type key [item] ++ listed_records ref_type key items.
Proof. unfold listed_records. cbn [flat_map]. now rewrite app_nil_r. Qed.

Lemma reference_loop_lookup (s : string) (items : list json) :
  s <> "" ->
  forall fm0 pm0 fm pm,
    foldM add_reference (fm0, pm0) items = Ok (fm, pm) ->
    dict_lookup fm (JStr s)
    = match last_with_id s (listed_records "ReferenceListFlight" "Flight" items) with
      | Some r => Some r
      | None => dict_lookup fm0 (JStr s)
      end /\
    dict_lookup pm (JStr s)
    = match last_with_id s (listed_records "ReferenceListProduct" "Product" items) with
      | Some r => Some r
      | None => dict_lookup pm0 (JStr s)
      end.
Proof.
  intros Hs. induction items as [| item items IH]; intros fm0 pm0 fm pm H.
  - injection H as <- <-. split; reflexivity.
  - cbn [foldM] in H. apply bind_ok in H as ([fm1 pm1] & Hadd & H).
    destruct (IH _ _ _ _ H) as (Hfm & Hpm).
    destruct (add_reference_lookup s item _ _ _ _ Hs Hadd) as (Hfm1 & Hpm1).
    rewrite Hfm, Hpm, Hfm1, Hpm1, !(listed_records_cons _ _ item items),
      !last_with_id_app.
    split.
    + destruct (last_with_id s (listed_records "ReferenceListFlight" "Flight" items));
        reflexivity.
    + destruct (last_with_id s (listed_records "ReferenceListProduct" "Product" items));
        reflexivity.
Qed.

(** A flight or a product is found under its id, a non-empty string, exactly
    when an entry of the right type lists a record with that id, and then the
    last such record in the order of the response is the one found. *)
Lemma build_reference_maps_lookup (reference_list : json) (fm pm : pydict) (s : string) :
  s <> "" ->
  build_reference_maps reference_list = Ok (fm, pm) ->
  exists items,
    py_iter reference_list = Ok items /\
    dict_lookup fm (JStr s)
    = last_with_id s (listed_records "ReferenceListFlight" "Flight" items) /\
    dict_lookup pm (JStr s)
    = last_with_id s (listed_records "ReferenceListProduct" "Product" items).
Proof.
  intros Hs H. unfold build_reference_maps in H.
  apply bind_ok in H as (items & Hitems & H).
  exists items. split; [exact Hitems |].
  destruct (reference_loop_lookup s items Hs _ _ _ _ H) as (Hfm & Hpm).
  rewrite Hfm, Hpm.
  split; match goal with |- match ?x with _ => _ end = _ => destruct x end; reflexivity.
Qed.
(** ** The mock on requests it cannot search *)

(** A request without legs is answered with status 400 and the error "No
    search criteria provided"; a body that is not a JSON object ends in the
    handler of the [except] clause, status 500 for an [AttributeError]; in
    neither case is the generator used. *)
Lemma search_flights_rejects (g : rng) (data : json) :
  (lacks_search_criteria data = true ->
   search_flights g data
   = Response 400 (JObj [("error", JStr "No search criteria provided")])) /\
  (is_dict data = false -> search_flights g data = ServerError AttributeError).
Proof.
  split.
  - unfold lacks_search_criteria, search_flights, search_flights_body.
    destruct data as [| | | | | | d]; try discriminate. cbn [py_get bind].
    destruct (assoc "CatalogProductOfferingsQueryRequest" d) as [q |].
    + destruct q as [| | | | | | q]; try discriminate. cbn [py_get bind].
      destruct (assoc "CatalogProductOfferingsRequest" q) as [c |].
      * destruct c as [| | | | | | c]; try discriminate. cbn [py_get bind].
        destruct (assoc "SearchCriteriaFlight" c) as [legs |].
        -- intros ->. reflexivity.
        -- reflexivity.
      * reflexivity.
    + reflexivity.
  - unfold search_flights, search_flights_body.
    destruct data; try discriminate; reflexivity.
Qed.
(** ** The answers of the mock *)

Lemma choice_in {A : Type} (default : A) (l : list A) (g : rng) :
  l <> [] -> In (fst (choice default l g)) l.
Proof.
  intros Hl. unfold choice, draw. cbn [fst]. apply nth_In.
  assert (Hlen : N.of_nat (List.length l) <> 0%N).
  { destruct l; [contradiction | simpl; lia]. }
  pose proof (N.mod_upper_bound (g 0%nat) (N.of_nat (List.length l)) Hlen). lia.
Qed.

Lemma dict_store_entries (P : json * json -> Prop) (d : pydict) (s : string) (v : json) :
  Forall P d -> P (JStr s, v) -> Forall P (dict_store d (JStr s) v).
Proof.
  intros Hd Hv. induction Hd as [| [k' v'] d' Hkv Hd' IH]; cbn [dict_store].
  - constructor; [exact Hv | constructor].
  - destruct (py_eq k' (JStr s)) eqn:Hk.
    + rewrite py_eq_str in Hk. apply str_eq_true in Hk. subst k'.
      constructor; assumption.
    + constructor; assumption.
Qed.

Lemma dict_lookup_entry (d : pydict) (s : string) (v : json) :
  dict_lookup d (JStr s) = Some v -> In (JStr s, v) d.
Proof.
  induction d as [| [k' v'] d IH]; cbn [dict_lookup]; [discriminate |].
  destruct (py_eq k' (JStr s)) eqn:Hk.
  - rewrite py_eq_str in Hk. apply str_eq_true in Hk. subst k'.
    intros [= ->]. now left.
  - intros H. right. auto.
Qed.

(** The assignments [flight_map[flight_id] = flight_ref] of one turn. *)
Lemma store_all_entries (P : json * json -> Prop) (entries : list (string * json)) :
  Forall (fun e => P (JStr (fst e), snd e)) entries ->
  forall fm, Forall P fm ->
  Forall P (fold_left (fun m '(flight_id, flight_ref) =>
                         dict_store m (JStr flight_id) flight_ref) entries fm).
Proof.
  induction 1 as [| [fid v] entries He _ IH]; intros fm Hfm; cbn [fold_left].
  - exact Hfm.
  - apply IH. now apply dict_store_entries.
Qed.

Lemma store_all_keeps (entries : list (string * json)) (s : string) :
  forall fm f,
    dict_lookup fm (JStr s) = Some f ->
    exists f',
      dict_lookup (fold_left (fun m '(flight_id, flight_ref) =>
                                dict_store m (JStr flight_id) flight_ref) entries fm)
                  (JStr s) = Some f'.
Proof.
  induction entries as [| [fid v] entries IH]; intros fm f Hf; cbn [fold_left].
  - eauto.
  - destruct (str_eq (JStr fid) s) eqn:Hs.
    + apply (IH _ v). rewrite dict_store_lookup_str, Hs. reflexivity.
    + apply (IH _ f). rewrite dict_store_lookup_str, Hs. exact Hf.
Qed.

Lemma store_all_finds (entries : list (string * json)) (s : string) (v : json) :
  In (s, v) entries ->
  forall fm,
    exists f',
      dict_lookup (fold_left (fun m '(flight_id, flight_ref) =>
                                dict_store m (JStr flight_id) flight_ref) entries fm)
                  (JStr s) = Some f'.
Proof.
  induction entries as [| [fid v'] entries IH]; intros Hin fm; [contradiction |].
  cbn [fold_left]. destruct Hin as [[= -> ->] | Hin].
  - apply (store_all_keeps entries s _ v).
    rewrite dict_store_lookup_str. cbn [str_eq]. now rewrite String.eqb_refl.
  - now apply IH.
Qed.

(** The record the mock makes of a flight of its table. *)
Lemma flight_reference_entry (flight : mock_flight) (fid : string) (date : json)
  (a b : string) (k : nat) :
  In flight MOCK_FLIGHTS ->
  fid <> "" ->
  (mf_origin flight = a /\ mf_destination flight = b) \/
  (k = 2%nat /\ mf_origin flight = b /\ mf_destination flight = a) ->
  entry_ok a b k (JStr fid, build_flight_reference flight fid date).
Proof.
  intros Hin Hfid Hroute. exists fid. cbn [fst snd].
  split; [reflexivity |]. split; [exact Hfid |]. split; [reflexivity |].
  split; [| split; [reflexivity |]].
  - unfold good_flight, has_carrier_and_number, build_flight_reference.
    cbn [is_dict truthy py_get assoc String.eqb Ascii.eqb Bool.eqb andb].
    simpl in Hin.
    repeat (destruct Hin as [<- | Hin]; [reflexivity |]). contradiction.
  - unfold on_route, flight_route, endpoint_code, build_flight_reference.
    cbn [py_get assoc String.eqb Ascii.eqb Bool.eqb bind].
    destruct Hroute as [(-> & ->) | (-> & -> & ->)]; [left | right; split]; reflexivity.
Qed.

Lemma flight_id_nonempty (index : string) : generate_flight_id index <> "".
Proof. unfold generate_flight_id. cbn [String.append]. discriminate. Qed.

Lemma product_id_nonempty (index : nat) : generate_product_id index <> "".
Proof. unfold generate_product_id. cbn [String.append]. discriminate. Qed.

(** A segment the mock writes, once its flight is in the flight map. *)
Lemma flight_segment_ok (fm : pydict) (pid : string) (count idx : nat) (f : json) :
  dict_lookup fm (JStr (generate_flight_id (pid +++ "_" +++ string_of_nat idx))) = Some f ->
  segment_ok fm (flight_segment pid count idx).
Proof.
  intros Hf. split; [reflexivity |].
  exists (generate_flight_id (pid +++ "_" +++ string_of_nat idx)), f.
  split; [apply flight_id_nonempty |]. split; [reflexivity | exact Hf].
Qed.

Lemma segment_ok_keeps (fm fm' : pydict) (segment : json) :
  (forall s f, dict_lookup fm (JStr s) = Some f ->
               exists f', dict_lookup fm' (JStr s) = Some f') ->
  segment_ok fm segment -> segment_ok fm' segment.
Proof.
  intros Hkeep (Hshape & fid & f & Hfid & Hid & Hf).
  destruct (Hkeep _ _ Hf) as (f' & Hf').
  split; [exact Hshape |]. exists fid, f'. auto.
Qed.

Lemma product_ok_keeps (k : nat) (fm fm' : pydict) (p : json) :
  (forall s f, dict_lookup fm (JStr s) = Some f ->
               exists f', dict_lookup fm' (JStr s) = Some f') ->
  product_ok k fm p -> product_ok k fm' p.
Proof.
  intros Hkeep (Hshape & Htruthy & Hid & Htype & segments & Hsegs & Hlen & Hall).
  split; [exact Hshape |]. split; [exact Htruthy |]. split; [exact Hid |].
  split; [exact Htype |]. exists segments. split; [exact Hsegs |]. split; [exact Hlen |].
  eapply Forall_impl; [| exact Hall]. intros seg. now apply segment_ok_keeps.
Qed.

Lemma enumerate_length {A : Type} (l : list A) :
  List.length (enumerate l) = List.length l.
Proof. unfold enumerate. rewrite length_combine, length_seq. lia. Qed.

(** The state one turn of the loop leaves. *)
Lemma offer_state_ok (a b : string) (st : mock_state) (i : nat)
  (flight_list : list mock_flight) (departure_date return_date : json)
  (price : float) (g : rng) (refs : list json) :
  Forall (fun f => In f MOCK_FLIGHTS /\
                   ((mf_origin f = a /\ mf_destination f = b) \/
                    (List.length flight_list = 2%nat /\
                     mf_origin f = b /\ mf_destination f = a))) flight_list ->
  mock_state_ok a b (List.length flight_list) st ->
  mock_state_ok a b (List.length flight_list)
    {| gen := g;
       offerings :=
         offerings st ++
         [JObj [("@type", JStr "CatalogProductOffering");
                ("id", JStr (generate_offering_id i));
                ("TotalPrice", JObj [("code", JStr "USD"); ("value", JFloat price)]);
                ("ProductOptions",
                 JArr [JObj [("@type", JStr "ProductOption");
                             ("ProductRef", JStr (generate_product_id i))]])]];
       product_references :=
         product_references st ++
         [fst (build_product_air flight_list (generate_product_id i) departure_date)];
       flight_references := refs;
       flight_map :=
         fold_left (fun m '(flight_id, flight_ref) =>
                      dict_store m (JStr flight_id) flight_ref)
                   (map (fun '(idx, flight) =>
                           let flight_id :=
                             generate_flight_id
                               (generate_product_id i +++ "_" +++ string_of_nat idx) in
                           let flight_date :=
                             if (idx =? 0)%nat then departure_date else return_date in
                           (flight_id, build_flight_reference flight flight_id flight_date))
                        (enumerate flight_list))
                   (flight_map st) |}.
Proof.
  intros Hflights (Hoffs & Hprods & Hentries).
  unfold mock_state_ok. cbn [offerings product_references flight_map].
  set (pid := generate_product_id i).
  set (entries := map _ (enumerate flight_list)).
  split; [| split].
  - (* the offerings *)
    apply Forall_app. split.
    + eapply Forall_impl; [| exact Hoffs].
      intros o (Hshape & pid' & Hpid' & Hrefs & p & Hp & Hhas).
      split; [exact Hshape |]. exists pid'. split; [exact Hpid' |].
      split; [exact Hrefs |]. exists p. split; [apply in_or_app; now left | exact Hhas].
    + constructor; [| constructor]. split; [reflexivity |].
      exists pid. split; [apply product_id_nonempty |]. split; [reflexivity |].
      eexists. split; [apply in_or_app; right; left; reflexivity |].
      unfold has_id, record_id, build_product_air.
      cbn [fst py_get assoc String.eqb Ascii.eqb Bool.eqb str_eq].
      apply String.eqb_refl.
  - (* the products *)
    apply Forall_app. split.
    + eapply Forall_impl; [| exact Hprods].
      intros p. apply product_ok_keeps. intros s f. apply store_all_keeps.
    + constructor; [| constructor].
      unfold build_product_air. cbn [fst].
      split.
      { unfold product_shaped, is_dict_with, with_id, opt_field.
        cbn [assoc String.eqb Ascii.eqb Bool.eqb hashable andb is_list_of].
        apply forallb_forall. intros seg Hseg.
        apply in_map_iff in Hseg as ([idx fl] & <- & _). reflexivity. }
      split; [reflexivity |].
      split; [exists pid; split; [apply product_id_nonempty | reflexivity] |].
      split; [reflexivity |].
      eexists. split; [reflexivity |].
      split; [now rewrite length_map, enumerate_length |].
      apply Forall_forall. intros seg Hseg.
      apply in_map_iff in Hseg as ([idx fl] & <- & Hin).
      destruct (store_all_finds entries
                  (generate_flight_id (pid +++ "_" +++ string_of_nat idx))
                  (build_flight_reference fl
                     (generate_flight_id (pid +++ "_" +++ string_of_nat idx))
                     (if (idx =? 0)%nat then departure_date else return_date)))
        with (fm := flight_map st) as (f' & Hf').
      { unfold entries. apply in_map_iff. exists (idx, fl). split; [reflexivity | exact Hin]. }
      eapply flight_segment_ok. exact Hf'.
  - (* the flight map *)
    apply store_all_entries; [| exact Hentries].
    apply Forall_forall. intros [fid v] He. cbn [fst snd].
    unfold entries in He. apply in_map_iff in He as ([idx fl] & [= <- <-] & Hin).
    rewrite Forall_forall in Hflights.
    assert (Hfl : In fl flight_list).
    { unfold enumerate in Hin. eapply in_combine_r; eauto. }
    destruct (Hflights _ Hfl) as (Htable & Hroute).
    apply flight_reference_entry; [exact Htable | apply flight_id_nonempty | exact Hroute].
Qed.

(** One turn of the loop keeps the invariant and adds one offering. *)
Lemma make_offer_ok (outbound_flights return_flights : list mock_flight)
  (departure_date return_date cabin_class : json) (total : Z) (n : float)
  (a b : string) (st : mock_state) (offer_idx : nat) :
  hashable cabin_class = true ->
  float_of_int total = Ok n ->
  outbound_flights <> [] ->
  Forall (fun f => In f MOCK_FLIGHTS /\ mf_origin f = a /\ mf_destination f = b)
         outbound_flights ->
  Forall (fun f => In f MOCK_FLIGHTS /\ mf_origin f = b /\ mf_destination f = a)
         return_flights ->
  mock_state_ok a b (match return_flights with [] => 1 | _ => 2 end) st ->
  exists st',
    make_offer outbound_flights return_flights departure_date return_date cabin_class
               (PInt total) st offer_idx = Ok st' /\
    mock_state_ok a b (match return_flights with [] => 1 | _ => 2 end) st' /\
    List.length (offerings st') = S (List.length (offerings st)).
Proof.
  intros Hhash Hn Hne Hout Hret Hst. unfold make_offer, calculate_price.
  pose proof (choice_in placeholder_flight outbound_flights (gen st) Hne) as Hsel.
  destruct (choice placeholder_flight outbound_flights (gen st)) as [selected_outbound g1].
  cbn [fst] in Hsel.
  rewrite Forall_forall in Hout. destruct (Hout _ Hsel) as (Htable & Ha & Hb).
  assert (Hbase : exists base, base_price_of cabin_class = Ok base).
  { unfold base_price_of. rewrite Hhash. eauto. }
  destruct Hbase as (base & Hbase). rewrite Hbase.
  cbn [to_float]. rewrite Hn. cbn [bind].
  destruct return_flights as [| r rs].
  - cbn [build_product_air].
    destruct (uniform (-0.1) 0.1 g1) as [u g3]. cbn [bind].
    eexists. split; [reflexivity |]. split.
    + apply (offer_state_ok a b st offer_idx [selected_outbound]); [| exact Hst].
      constructor; [| constructor]. auto.
    + cbn [offerings]. rewrite length_app. simpl. lia.
  - pose proof (choice_in placeholder_flight (r :: rs) g1 ltac:(discriminate)) as Hsel'.
    destruct (choice placeholder_flight (r :: rs) g1) as [selected_return g2].
    cbn [fst] in Hsel'.
    rewrite Forall_forall in Hret. destruct (Hret _ Hsel') as (Htable' & Ha' & Hb').
    cbn [build_product_air].
    destruct (uniform (-0.1) 0.1 g2) as [u g3]. cbn [bind].
    eexists. split; [reflexivity |]. split.
    + apply (offer_state_ok a b st offer_idx [selected_outbound; selected_return]);
        [| exact Hst].
      constructor; [| constructor; [| constructor]]; auto.
    + cbn [offerings]. rewrite length_app. simpl. lia.
Qed.

Lemma make_offers_ok (outbound_flights return_flights : list mock_flight)
  (departure_date return_date cabin_class : json) (total : Z) (n : float)
  (a b : string) (indices : list nat) :
  hashable cabin_class = true ->
  float_of_int total = Ok n ->
  outbound_flights <> [] ->
  Forall (fun f => In f MOCK_FLIGHTS /\ mf_origin f = a /\ mf_destination f = b)
         outbound_flights ->
  Forall (fun f => In f MOCK_FLIGHTS /\ mf_origin f = b /\ mf_destination f = a)
         return_flights ->
  forall st,
    mock_state_ok a b (match return_flights with [] => 1 | _ => 2 end) st ->
    exists st',
      foldM (make_offer outbound_flights return_flights departure_date return_date
                        cabin_class (PInt total)) st indices = Ok st' /\
      mock_state_ok a b (match return_flights with [] => 1 | _ => 2 end) st' /\
      List.length (offerings st') = (List.length (offerings st) + List.length indices)%nat.
Proof.
  intros Hhash Hn Hne Hout Hret.
  induction indices as [| i indices IH]; intros st Hst; cbn [foldM].
  - exists st. split; [reflexivity |]. split; [exact Hst | simpl; lia].
  - destruct (make_offer_ok outbound_flights return_flights departure_date return_date
                            cabin_class total n a b st i Hhash Hn Hne Hout Hret Hst)
      as (st1 & -> & Hst1 & Hlen1).
    cbn [bind]. destruct (IH st1 Hst1) as (st' & Hfold & Hst' & Hlen).
    exists st'. split; [exact Hfold |]. split; [exact Hst' |].
    rewrite Hlen, Hlen1. simpl. lia.
Qed.

Lemma filter_table (p : mock_flight -> bool) (a b : string) :
  (forall f, p f = true -> mf_origin f = a /\ mf_destination f = b) ->
  Forall (fun f => In f MOCK_FLIGHTS /\ mf_origin f = a /\ mf_destination f = b)
         (filter p MOCK_FLIGHTS).
Proof.
  intros Hp. apply Forall_forall. intros f Hf. apply filter_In in Hf as (Hin & Hpf).
  split; [exact Hin | auto].
Qed.

Lemma filter_some {A : Type} (p : A -> bool) (l : list A) :
  existsb p l = true -> filter p l <> [].
Proof.
  intros H Hnil. apply existsb_exists in H as (x & Hin & Hx).
  assert (Hin' : In x (filter p l)) by (apply filter_In; auto).
  rewrite Hnil in Hin'. exact Hin'.
Qed.

Lemma filter_case {A X : Type} (p : A -> bool) (l : list A) (x y : X) :
  match filter p l with [] => x | _ :: _ => y end = if existsb p l then y else x.
Proof.
  destruct (existsb p l) eqn:Hex.
  - pose proof (filter_some _ _ Hex) as Hne.
    destruct (filter p l); [contradiction | reflexivity].
  - now rewrite (filter_none _ _ Hex).
Qed.

(** The document the mock assembles for a route of its table: the variables of
    the loop when it ends, with three to five offerings. *)
Lemma search_flights_state (g : rng) (data : json) (n : float) :
  request_shaped data = true ->
  route_in_table (request_origin data) (request_destination data) = true ->
  float_of_int (request_passenger_count data) = Ok n ->
  exists st,
    mock_state_ok (upper (request_origin data)) (upper (request_destination data))
                  (mock_segments data) st /\
    (3 <= List.length (offerings st) <= 5)%nat /\
    search_flights g data = Response 200 (mock_document st).
Proof.
  intros Hshape Hroute Hn.
  destruct (search_flights_body_shaped g data Hshape) as (Hhash & Hbody).
  unfold search_flights. rewrite Hbody. clear Hbody. cbn zeta.
  unfold route_in_table in Hroute.
  pose proof (filter_some _ _ Hroute) as Hne.
  rewrite filter_case, Hroute.
  set (a := upper (request_origin data)) in *.
  set (b := upper (request_destination data)) in *.
  set (outbound_flights := filter _ MOCK_FLIGHTS) in *.
  assert (Hout : Forall (fun f => In f MOCK_FLIGHTS /\ mf_origin f = a /\ mf_destination f = b)
                        outbound_flights).
  { apply filter_table. intros f Hf. apply andb_true_iff in Hf as (Ho & Hd).
    apply String.eqb_eq in Ho, Hd. auto. }
  set (return_flights :=
         if truthy (request_return_date data)
         then filter (fun f => String.eqb (mf_origin f) b && String.eqb (mf_destination f) a)
                     MOCK_FLIGHTS
         else []).
  assert (Hret : Forall (fun f => In f MOCK_FLIGHTS /\ mf_origin f = b /\ mf_destination f = a)
                        return_flights).
  { unfold return_flights. destruct (truthy (request_return_date data)); [| constructor].
    apply filter_table. intros f Hf. apply andb_true_iff in Hf as (Ho & Hd).
    apply String.eqb_eq in Ho, Hd. auto. }
  assert (Hk : mock_segments data = match return_flights with [] => 1 | _ => 2 end%nat).
  { unfold mock_segments, return_flights, route_in_table.
    destruct (truthy (request_return_date data)); [| reflexivity]. cbn [andb].
    now rewrite filter_case. }
  rewrite Hk.
  unfold build_response.
  pose proof (randint_bounds 3 5 g ltac:(lia)) as Hrange.
  destruct (randint 3 5 g) as [num_offers g0]. cbn [fst] in Hrange.
  destruct (make_offers_ok outbound_flights return_flights
              (request_departure_date data) (request_return_date data)
              (request_cabin data) (request_passenger_count data) n a b
              (seq 0 (Z.to_nat num_offers)) Hhash Hn Hne Hout Hret
              {| gen := g0; offerings := []; product_references := [];
                 flight_references := []; flight_map := [] |})
    as (st' & Hfold & Hst' & Hlen).
  { split; [constructor |]. split; constructor. }
  fold return_flights. rewrite Hfold. cbn [bind].
  exists st'. split; [exact Hst' |]. split; [| reflexivity].
  cbn [offerings List.length] in Hlen. rewrite length_seq in Hlen. lia.
Qed.

Lemma Forall_forallb {A : Type} (p : A -> bool) (P : A -> Prop) (l : list A) :
  (forall x, P x -> p x = true) -> Forall P l -> forallb p l = true.
Proof.
  intros Hp Hl. apply forallb_forall. rewrite Forall_forall in Hl. auto.
Qed.

Lemma entry_ok_flight_shaped (a b : string) (k : nat) (fm : pydict) :
  Forall (entry_ok a b k) fm -> forallb flight_shaped (dict_values fm) = true.
Proof.
  intros H. apply forallb_forall. intros f Hf. unfold dict_values in Hf.
  apply in_map_iff in Hf as (e & <- & He).
  rewrite Forall_forall in H. destruct (H _ He) as (fid & _ & _ & _ & _ & Hshape & _).
  exact Hshape.
Qed.

Lemma mock_document_shaped (a b : string) (k : nat) (st : mock_state) :
  mock_state_ok a b k st -> response_shaped (mock_document st) = true.
Proof.
  intros (Hoffs & Hprods & Hentries).
  unfold response_shaped, mock_document, is_dict_with, opt_field, reference_item_shaped.
  cbn [assoc String.eqb Ascii.eqb Bool.eqb is_list_of forallb is_dict_with opt_field].
  rewrite (entry_ok_flight_shaped _ _ _ _ Hentries).
  rewrite (Forall_forallb offering_shaped _ _ (fun o H => proj1 H) Hoffs).
  rewrite (Forall_forallb product_shaped _ _ (fun p H => proj1 H) Hprods).
  reflexivity.
Qed.

Lemma last_with_id_some (s : string) (records : list json) :
  (exists r, In r records /\ has_id s r = true) ->
  exists r', last_with_id s records = Some r' /\ In r' records /\ has_id s r' = true.
Proof.
  intros (r & Hin & Hhas). unfold last_with_id.
  destruct (find (has_id s) (rev records)) as [r' |] eqn:E.
  - apply find_some in E as (Hin' & Hhas'). apply in_rev in Hin'. eauto.
  - exfalso. apply in_rev in Hin. pose proof (find_none _ _ E _ Hin). congruence.
Qed.

(** The maps the interpreter builds from the reference list of the mock. *)
Lemma mock_document_maps (a b : string) (k : nat) (st : mock_state) :
  mock_state_ok a b k st ->
  exists fm pm,
    build_reference_maps
      (JArr [JObj [("@type", JStr "ReferenceListFlight");
                   ("Flight", JArr (dict_values (flight_map st)))];
             JObj [("@type", JStr "ReferenceListProduct");
                   ("Product", JArr (product_references st))]])
    = Ok (fm, pm) /\
    maps_shaped fm pm /\
    forall s, s <> "" ->
      dict_lookup fm (JStr s) = last_with_id s (dict_values (flight_map st)) /\
      dict_lookup pm (JStr s) = last_with_id s (product_references st).
Proof.
  intros Hst. pose proof Hst as (Hoffs & Hprods & Hentries).
  destruct (build_reference_maps_shaped
              (JArr [JObj [("@type", JStr "ReferenceListFlight");
                           ("Flight", JArr (dict_values (flight_map st)))];
                     JObj [("@type", JStr "ReferenceListProduct");
                           ("Product", JArr (product_references st))]]))
    as (fm & pm & Hbuild & Hmaps).
  { unfold is_list_of, reference_item_shaped, is_dict_with, opt_field.
    cbn [assoc String.eqb Ascii.eqb Bool.eqb is_list_of forallb].
    rewrite (entry_ok_flight_shaped _ _ _ _ Hentries).
    rewrite (Forall_forallb product_shaped _ _ (fun p H => proj1 H) Hprods).
    reflexivity. }
  exists fm, pm. split; [exact Hbuild |]. split; [exact Hmaps |].
  intros s Hs.
  unfold build_reference_maps in Hbuild. cbn [py_iter bind] in Hbuild.
  destruct (reference_loop_lookup s _ Hs _ _ _ _ Hbuild) as (Hfm & Hpm).
  rewrite Hfm, Hpm. cbn [dict_lookup].
  assert (Hsame : forall o : option json, match o with Some r => Some r | None => None end = o)
    by (intros [r |]; reflexivity).
  rewrite !Hsame. unfold listed_records.
  cbn [flat_map py_get assoc String.eqb Ascii.eqb Bool.eqb str_eq py_iter app].
  now rewrite !app_nil_r.
Qed.

Lemma flight_texts_good (f : json) :
  good_flight f = true -> exists line, flight_texts f = [line].
Proof.
  unfold good_flight. destruct f as [| | | | | | kvs]; try discriminate.
  cbn [is_dict andb]. intros H. apply andb_true_iff in H as (_ & H).
  unfold has_carrier_and_number in H. cbn [py_get] in H.
  unfold flight_texts, flight_line, code_of. cbn [py_get bind].
  repeat match goal with
         | |- context [if is_dict ?v then _ else _] =>
             destruct v; cbn [is_dict py_get bind]
         end;
    rewrite H; cbn [lines_of]; eauto.
Qed.

(** A segment of the mock leads the interpreter to one flight of the route. *)
Lemma mock_segment_resolved (a b : string) (k : nat) (fm0 fm : pydict) (segment : json) :
  Forall (entry_ok a b k) fm0 ->
  (forall s, s <> "" -> dict_lookup fm (JStr s) = last_with_id s (dict_values fm0)) ->
  segment_ok fm0 segment ->
  exists f,
    segment_flights fm segment = [f] /\
    on_route a b k f /\ good_flight f = true.
Proof.
  intros Hentries Hlookup (_ & fid & f0 & Hfid & Hid & Hf0).
  unfold segment_flights. rewrite Hid.
  assert (Htruthy : truthy (JStr fid) = true) by (destruct fid; [contradiction | reflexivity]).
  rewrite Htruthy. unfold flight_at. rewrite (Hlookup _ Hfid).
  rewrite Forall_forall in Hentries.
  apply dict_lookup_entry in Hf0.
  destruct (last_with_id_some fid (dict_values fm0)) as (f & -> & Hin & _).
  { exists f0. split.
    - unfold dict_values. apply in_map_iff. exists (JStr fid, f0). auto.
    - destruct (Hentries _ Hf0) as (fid' & Hkey & _ & Hrid & _).
      cbn [fst snd] in Hkey, Hrid. injection Hkey as <-.
      unfold has_id. rewrite Hrid. cbn [str_eq]. apply String.eqb_refl. }
  unfold dict_values in Hin. apply in_map_iff in Hin as (e & <- & He).
  destruct (Hentries _ He) as (fid' & _ & _ & _ & Hgood & _ & Hroute).
  exists (snd e).
  assert (Ht : truthy (snd e) = true).
  { unfold good_flight in Hgood. apply andb_true_iff in Hgood as (Hgood & _).
    now apply andb_true_iff in Hgood as (_ & Hgood). }
  rewrite Ht. auto.
Qed.

(** The product an offering of the mock names leads to its segments. *)
Lemma mock_product_resolved (k : nat) (fm0 pm : pydict) (products : list json)
  (pid : string) :
  Forall (product_ok k fm0) products ->
  dict_lookup pm (JStr pid) = last_with_id pid products ->
  (exists p, In p products /\ has_id pid p = true) ->
  exists segments,
    product_segments pm (JStr pid) = segments /\
    List.length segments = k /\
    Forall (segment_ok fm0) segments.
Proof.
  intros Hprods Hlookup Hex.
  destruct (last_with_id_some pid products Hex) as (p & Hlast & Hin & _).
  rewrite Forall_forall in Hprods.
  destruct (Hprods _ Hin) as (Hshape & _ & _ & Htype & segments & Hsegs & Hlen & Hall).
  exists segments. split; [| split; assumption].
  unfold product_segments. rewrite Hlookup, Hlast.
  destruct p as [| | | | | | kvs]; try discriminate.
  cbn [py_get] in Htype, Hsegs. injection Htype as Htype. injection Hsegs as Hsegs.
  rewrite Htype. cbn [str_eq String.eqb Ascii.eqb Bool.eqb].
  destruct (assoc "FlightSegment" kvs) as [v |].
  - now subst v.
  - now injection Hsegs as <-.
Qed.

Lemma flat_map_singletons {A B : Type} (f : A -> list B) (P : B -> Prop) (l : list A) :
  Forall (fun x => exists y, f x = [y] /\ P y) l ->
  exists ys, flat_map f l = ys /\ List.length ys = List.length l /\ Forall P ys.
Proof.
  induction 1 as [| x l (y & Hy & HP) _ (ys & Hys & Hlen & Hall)]; cbn [flat_map].
  - exists []. repeat split; constructor.
  - exists (y :: ys). rewrite Hy, Hys. cbn [app List.length].
    repeat split; [now rewrite Hlen | now constructor].
Qed.

(** What the interpreter makes of one offering of the mock. *)
Lemma mock_offering_resolved (w : wizard) (a b : string) (k idx : nat)
  (st : mock_state) (fm pm : pydict) (offering : json) :
  (1 <= k)%nat ->
  mock_state_ok a b k st ->
  maps_shaped fm pm ->
  (forall s, s <> "" ->
     dict_lookup fm (JStr s) = last_with_id s (dict_values (flight_map st)) /\
     dict_lookup pm (JStr s) = last_with_id s (product_references st)) ->
  In offering (offerings st) ->
  exists record flights price_text,
    offer_values w fm pm idx offering = Ok record /\
    List.length flights = k /\
    Forall (fun f => on_route a b k f /\ good_flight f = true) flights /\
    format_2f (price record) = Ok price_text /\
    flight_details record
    = join newline
           (["Flight Offer: " +++ py_str (offer_id record)] ++
            flat_map flight_texts flights ++
            ["Price: " +++ py_str (currency record) +++ " " +++ price_text]).
Proof.
  intros Hk (Hoffs & Hprods & Hentries) Hmaps Hlookup Hin.
  rewrite Forall_forall in Hoffs.
  destruct (Hoffs _ Hin) as (Hshape & pid & Hpid & Hrefs & Hex).
  destruct (offer_values_shaped w fm pm idx offering Hshape Hmaps)
    as (offering_id & price_value & price_currency & details & price_text &
        _ & Hdetails & Hfmt & Hvalues).
  destruct (mock_product_resolved k (flight_map st) pm (product_references st) pid
              Hprods (proj2 (Hlookup pid Hpid)) Hex)
    as (segments & Hsegs & Hlen & Hall).
  destruct (flat_map_singletons (segment_flights fm)
              (fun f => on_route a b k f /\ good_flight f = true) segments)
    as (flights & Hflights & Hlen' & Hgood).
  { eapply Forall_impl; [| exact Hall]. intros seg Hseg.
    apply (mock_segment_resolved a b k (flight_map st) fm seg Hentries); [| exact Hseg].
    intros s Hs. apply (Hlookup s Hs). }
  destruct (flat_map_singletons flight_texts (fun _ => True) flights)
    as (lines & Hlines & Hlen'' & _).
  { eapply Forall_impl; [| exact Hgood]. intros f (_ & Hf).
    destruct (flight_texts_good f Hf) as (line & Hline). eauto. }
  rewrite Hrefs in Hdetails. unfold resolve_flight_details in Hdetails.
  rewrite product_flight_details_shaped in Hdetails by (auto; reflexivity).
  cbn [firstn flat_map] in Hdetails. rewrite app_nil_r, Hsegs, Hflights, Hlines in Hdetails.
  cbn [bind] in Hdetails.
  destruct lines as [| line lines].
  { exfalso. cbn [List.length] in Hlen''. lia. }
  injection Hdetails as <-.
  eexists _, flights, price_text. split; [exact Hvalues |].
  cbn [price currency offer_id flight_details].
  split; [lia |]. split; [exact Hgood |]. split; [exact Hfmt |].
  now rewrite Hlines.
Qed.

Lemma mapM_Forall {A B : Type} (f : A -> result B) (P : B -> Prop) (l : list A) :
  (forall x, In x l -> exists y, f x = Ok y /\ P y) ->
  exists ys, mapM f l = Ok ys /\ Forall P ys /\ List.length ys = List.length l.
Proof.
  induction l as [| x xs IH]; cbn [mapM]; intros H.
  - exists []. repeat split; constructor.
  - destruct (H x (or_introl eq_refl)) as (y & -> & Hy).
    destruct IH as (ys & -> & Hall & Hlen); [intros; apply H; now right |].
    cbn [bind]. exists (y :: ys). repeat split; [now constructor | simpl; now rewrite Hlen].
Qed.

(** The interpreter on the document of the mock. *)
Lemma mock_document_processed (w : wizard) (a b : string) (k : nat) (st : mock_state) :
  (1 <= k)%nat ->
  mock_state_ok a b k st ->
  (1 <= List.length (offerings st) <= 50)%nat ->
  exists w',
    _process_flight_results w (mock_document st) = Ok w' /\
    List.length (flight_offers w') = List.length (offerings st) /\
    Forall (fun record =>
              exists flights price_text,
                List.length flights = k /\
                Forall (fun f => on_route a b k f /\ good_flight f = true) flights /\
                format_2f (price record) = Ok price_text /\
                flight_details record
                = join newline
                       (["Flight Offer: " +++ py_str (offer_id record)] ++
                        flat_map flight_texts flights ++
                        ["Price: " +++ py_str (currency record) +++ " " +++ price_text]))
           (flight_offers w').
Proof.
  intros Hk Hst Hlen.
  destruct (mock_document_maps a b k st Hst) as (fm & pm & Hbuild & Hmaps & Hlookup).
  unfold _process_flight_results, mock_document, catalog_offering_list_of.
  cbn [py_get py_getitem assoc String.eqb Ascii.eqb Bool.eqb bind truthy negb].
  destruct (offerings st) as [| o os] eqn:Hoffs; [simpl in Hlen; lia |].
  cbn [negb bind]. rewrite Hbuild. cbn [bind py_slice].
  rewrite firstn_all2 by lia.
  destruct (mapM_Forall
              (fun '(idx, offering) => offer_values w fm pm idx offering)
              (fun record =>
                 exists flights price_text,
                   List.length flights = k /\
                   Forall (fun f => on_route a b k f /\ good_flight f = true) flights /\
                   format_2f (price record) = Ok price_text /\
                   flight_details record
                   = join newline
                          (["Flight Offer: " +++ py_str (offer_id record)] ++
                           flat_map flight_texts flights ++
                           ["Price: " +++ py_str (currency record) +++ " " +++ price_text]))
              (enumerate (o :: os)))
    as (records & Hrecords & Hall & Hcount).
  { intros [idx offering] Hin.
    assert (Hin' : In offering (offerings st)).
    { rewrite Hoffs. unfold enumerate in Hin. eapply in_combine_r; eauto. }
    destruct (mock_offering_resolved w a b k idx st fm pm offering Hk Hst Hmaps Hlookup Hin')
      as (record & flights & price_text & Hvalues & H).
    exists record. split; [exact Hvalues |]. exists flights, price_text. exact H. }
  rewrite Hrecords. cbn [bind]. eexists. split; [reflexivity |].
  cbn [flight_offers with_flight_offers].
  split; [now rewrite Hcount, enumerate_length | exact Hall].
Qed.

(** For a request of the schema whose route is in the table, the answer of the
    mock is a document of the response schema with three to five offerings;
    every offering has one product reference; every listed product has one
    segment, or two when the request has a return date and the table a flight
    back; every listed flight has a carrier and a number and flies the
    requested route, or the way back when the offers have two flights. *)
Lemma mock_answer_integrity (g : rng) (data : json) (n : float) :
  request_shaped data = true ->
  route_in_table (request_origin data) (request_destination data) = true ->
  float_of_int (request_passenger_count data) = Ok n ->
  exists body,
    search_flights g data = Response 200 body /\
    response_shaped body = true /\
    (3 <= List.length (document_offerings body) <= 5)%nat /\
    Forall (fun offering => exists pid, offering_refs offering = [JStr pid])
           (document_offerings body) /\
    Forall (fun p =>
              exists segments,
                py_get p "FlightSegment" (JArr []) = Ok (JArr segments) /\
                List.length segments = mock_segments data)
           (listed_records "ReferenceListProduct" "Product"
                           (response_reference_items body)) /\
    Forall (fun f =>
              good_flight f = true /\
              on_route (upper (request_origin data)) (upper (request_destination data))
                       (mock_segments data) f)
           (listed_records "ReferenceListFlight" "Flight"
                           (response_reference_items body)).
Proof.
  intros Hshape Hroute Hn.
  destruct (search_flights_state g data n Hshape Hroute Hn) as (st & Hst & Hlen & Hanswer).
  exists (mock_document st). split; [exact Hanswer |].
  split; [exact (mock_document_shaped _ _ _ _ Hst) |].
  destruct Hst as (Hoffs & Hprods & Hentries).
  assert (Hdoc : document_offerings (mock_document st) = offerings st).
  { unfold document_offerings, mock_document, catalog_offering_list_of.
    cbn [py_get assoc String.eqb Ascii.eqb Bool.eqb bind truthy negb].
    destruct (offerings st); [simpl in Hlen; lia | reflexivity]. }
  rewrite Hdoc. split; [exact Hlen |].
  unfold response_reference_items, mock_document, listed_records.
  cbn [py_getitem py_get assoc String.eqb Ascii.eqb Bool.eqb bind py_iter flat_map
       str_eq app].
  rewrite !app_nil_r.
  split; [| split].
  - eapply Forall_impl; [| exact Hoffs].
    intros o (_ & pid & _ & Hrefs & _). eauto.
  - eapply Forall_impl; [| exact Hprods].
    intros p (_ & _ & _ & _ & segments & Hsegs & Hcount & _). eauto.
  - unfold dict_values. apply Forall_forall. intros f Hf.
    apply in_map_iff in Hf as (e & <- & He).
    rewrite Forall_forall in Hentries.
    destruct (Hentries _ He) as (fid & _ & _ & _ & Hgood & _ & Hon). auto.
Qed.

(** The interpreter on the answer of the mock: for a request of the schema
    whose route is in the table, every offering becomes a record whose
    description is the header, one line per flight of the offer, each of a
    flight of the requested route, and the price line; the route lines of the
    fall-back are not used. *)
Lemma mock_answer_resolved (w : wizard) (g : rng) (data : json) (n : float) :
  request_shaped data = true ->
  route_in_table (request_origin data) (request_destination data) = true ->
  float_of_int (request_passenger_count data) = Ok n ->
  exists body w',
    search_flights g data = Response 200 body /\
    _process_flight_results w body = Ok w' /\
    (3 <= List.length (flight_offers w') <= 5)%nat /\
    Forall (fun record =>
              exists flights price_text,
                List.length flights = mock_segments data /\
                Forall (fun f =>
                          on_route (upper (request_origin data))
                                   (upper (request_destination data))
                                   (mock_segments data) f /\
                          good_flight f = true) flights /\
                format_2f (price record) = Ok price_text /\
                flight_details record
                = join newline
                       (["Flight Offer: " +++ py_str (offer_id record)] ++
                        flat_map flight_texts flights ++
                        ["Price: " +++ py_str (currency record) +++ " " +++ price_text]))
           (flight_offers w').
Proof.
  intros Hshape Hroute Hn.
  destruct (search_flights_state g data n Hshape Hroute Hn) as (st & Hst & Hlen & Hanswer).
  destruct (mock_document_processed w (upper (request_origin data))
              (upper (request_destination data)) (mock_segments data) st)
    as (w' & Hw' & Hcount & Hall); [| exact Hst | lia |].
  { unfold mock_segments. destruct (_ && _); lia. }
  exists (mock_document st), w'. split; [exact Hanswer |]. split; [exact Hw' |].
  split; [lia | exact Hall].
Qed.

Lemma upper_ascii_idempotent (c : ascii) : upper_ascii (upper_ascii c) = upper_ascii c.
Proof. destruct c as [[] [] [] [] [] [] [] []]; reflexivity. Qed.

Lemma upper_idempotent (s : string) : upper (upper s) = upper s.
Proof.
  induction s as [| c s IH]; cbn [upper]; [reflexivity |].
  now rewrite upper_ascii_idempotent, IH.
Qed.

Lemma route_in_table_upper (a b : string) :
  route_in_table (upper a) (upper b) = route_in_table a b.
Proof. unfold route_in_table. now rewrite !upper_idempotent. Qed.

(** ** The search action *)

(** A search against the mock, from the wizard to the records: when the
    airport codes pass the checks, the request builds and the route is in the
    table of the mock, the action returns; the wizard has three to five
    offers, each described by its header, a line per flight of the route and
    the price line, and the warnings are those of the builder. *)
Lemma search_against_mock (cfg : api_config) (g : rng) (w : wizard)
  (payload : json) (log : list string) (n : float) :
  check_airport_codes w = Ok tt ->
  _prepare_api_payload w = Ok (payload, log) ->
  route_in_table (origin w) (destination w) = true ->
  float_of_int (request_passenger_count payload) = Ok n ->
  exists w',
    action_search_flights cfg (mock_transport g) w = Ok (w', log) /\
    (3 <= List.length (flight_offers w') <= 5)%nat /\
    Forall (fun record =>
              exists flights price_text,
                List.length flights = mock_segments payload /\
                Forall (fun f =>
                          on_route (upper (origin w)) (upper (destination w))
                                   (mock_segments payload) f /\
                          good_flight f = true) flights /\
                format_2f (price record) = Ok price_text /\
                flight_details record
                = join newline
                       (["Flight Offer: " +++ py_str (offer_id record)] ++
                        flat_map flight_texts flights ++
                        ["Price: " +++ py_str (currency record) +++ " " +++ price_text]))
           (flight_offers w').
Proof.
  intros Hcheck Hpayload Hroute Hn.
  destruct (payload_route w payload log Hpayload) as (Hshape & Horigin & Hdest).
  destruct (search_flights_state g payload n Hshape) as (st & Hst & Hcount & Hanswer);
    [now rewrite Horigin, Hdest, route_in_table_upper | exact Hn |].
  destruct (mock_document_processed w (upper (request_origin payload))
              (upper (request_destination payload)) (mock_segments payload) st)
    as (w' & Hw' & Hlen & Hall); [| exact Hst | lia |].
  { unfold mock_segments. destruct (_ && _); lia. }
  rewrite Horigin, Hdest, !upper_idempotent in Hall.
  exists w'. split; [| split; [lia | exact Hall]].
  unfold action_search_flights. rewrite Hcheck, Hpayload. cbn [bind].
  unfold search_try_block, mock_transport. rewrite Hanswer.
  destruct (char_truthy (travelport_api_url cfg)); cbn [response_ok Z.leb Z.ltb Z.compare
    Pos.compare Pos.compare_cont andb negb]; now rewrite Hw'.
Qed.

(** A search against the mock for a route its table does not have: the mock
    answers with status 200 and no offering, the interpreter raises on the
    empty list inside the [try] block, and the last [except] clause reports
    it as an unexpected error. *)
Lemma search_against_mock_unknown_route (cfg : api_config) (g : rng) (w : wizard)
  (payload : json) (log : list string) :
  check_airport_codes w = Ok tt ->
  _prepare_api_payload w = Ok (payload, log) ->
  route_in_table (origin w) (destination w) = false ->
  action_search_flights cfg (mock_transport g) w
  = Raise (UserError ("Unexpected error: " +++ no_offers_found)).
Proof.
  intros Hcheck Hpayload Hroute.
  destruct (payload_route w payload log Hpayload) as (Hshape & Horigin & Hdest).
  destruct (search_flights_body_shaped g payload Hshape) as (_ & Hbody).
  rewrite Horigin, Hdest, !upper_idempotent in Hbody.
  unfold route_in_table in Hroute.
  rewrite (filter_none _ _ Hroute) in Hbody. cbn zeta iota in Hbody.
  unfold action_search_flights. rewrite Hcheck, Hpayload. cbn [bind].
  unfold search_try_block, mock_transport, search_flights. rewrite Hbody.
  destruct (char_truthy (travelport_api_url cfg)); reflexivity.
Qed.

(** Whatever the remote end does, a search whose airport codes pass the
    checks and whose request builds ends in nothing but a [UserError], and its
    message starts in one of three ways. *)
Lemma action_search_flights_errors (cfg : api_config) (post : transport) (w : wizard)
  (payload : json) (log : list string) (e : exn) :
  check_airport_codes w = Ok tt ->
  _prepare_api_payload w = Ok (payload, log) ->
  action_search_flights cfg post w = Raise e ->
  exists detail,
    e = UserError ("Error connecting to Travelport API: " +++ detail) \/
    e = UserError ("Invalid JSON response from Travelport API: " +++ detail) \/
    e = UserError ("Unexpected error: " +++ detail).
Proof.
  intros Hcheck Hpayload H.
  unfold action_search_flights in H. rewrite Hcheck, Hpayload in H. cbn [bind] in H.
  destruct (search_try_block cfg post w payload (_get_api_headers cfg)) as [[t | t | e'] | w'];
    [| | | discriminate]; injection H as <-.
  - exists t. now left.
  - exists t. right. now left.
  - exists (exn_str e'). right. now right.
Qed.

(** An answer with a status from 400 to 599 is turned into a [UserError]
    inside the [try] block, which the last [except] clause catches: the user
    reads "Unexpected error: " before the message with the status, and the
    results are not processed. *)
Lemma http_error_reported_as_unexpected (cfg : api_config) (post : transport)
  (w : wizard) (payload : json) (log : list string)
  (status_code : Z) (text : string) (body : json_outcome) :
  check_airport_codes w = Ok tt ->
  _prepare_api_payload w = Ok (payload, log) ->
  400 <= status_code < 600 ->
  (forall url payload headers, post url payload headers = Reply status_code text body) ->
  action_search_flights cfg post w
  = Raise (UserError ("Unexpected error: Travelport API Error (HTTP "
                      +++ string_of_Z status_code +++ "): "
                      +++ match body with
                          | Parsed error_data => json_dumps error_data
                          | DecodeFailed _ _ => text
                          end)).
Proof.
  intros Hcheck Hpayload Hstatus Hpost.
  unfold action_search_flights. rewrite Hcheck, Hpayload. cbn [bind].
  unfold search_try_block. rewrite Hpost.
  assert (Hok : response_ok status_code = false).
  { unfold response_ok. apply negb_false_iff. apply andb_true_iff. split; lia. }
  rewrite Hok. cbn [negb exn_str]. reflexivity.
Qed.

(** ** The summary of an offer *)

Lemma split_line (h : string) :
  is_substring newline h = false ->
  split (ascii_of_nat 10) h = [h] /\
  forall t, exists ts, split (ascii_of_nat 10) (h +++ newline +++ t) = h :: ts.
Proof.
  induction h as [| c h IH]; intros Hh.
  - split; [reflexivity |]. intros t. unfold newline. cbn [String.append split].
    rewrite Ascii.eqb_refl. eauto.
  - cbn [is_substring] in Hh. apply orb_false_iff in Hh as (Hc & Hh).
    unfold newline in Hc. cbn [is_prefix] in Hc. rewrite andb_true_r in Hc.
    rewrite Ascii.eqb_sym in Hc.
    destruct (IH Hh) as (Hone & Hmore). split.
    + cbn [split]. rewrite Hc, Hone. reflexivity.
    + intros t. destruct (Hmore t) as (ts & Hts).
      cbn [String.append split]. rewrite Hc. cbn [String.append] in Hts.
      rewrite Hts. eauto.
Qed.

Lemma header_one_line (s : string) :
  is_substring newline s = false -> is_substring newline ("Flight Offer: " +++ s) = false.
Proof.
  intros Hs. unfold newline in *. cbn [String.append is_substring is_prefix].
  rewrite Hs. reflexivity.
Qed.

(** The summary of a record the interpreter made, when the id of the offering
    has no line break in it: the header of the description, the currency and
    the price with two decimals. *)
Lemma summary_of_processed_offer (w : wizard) (fm pm : pydict) (idx : nat)
  (offering : json) (record : flight_offer) :
  offer_values w fm pm idx offering = Ok record ->
  is_substring newline (py_str (offer_id record)) = false ->
  exists price_text,
    format_2f (price record) = Ok price_text /\
    flight_summary record
    = Ok ("Flight Offer: " +++ py_str (offer_id record) +++ " - "
          +++ py_str (currency record) +++ " " +++ price_text).
Proof.
  intros Hvalues Hid.
  destruct (offer_values_parts w fm pm idx offering record Hvalues)
    as (total_price & price_text & middle & _ & _ & _ & Hfmt & Hdetails).
  exists price_text. split; [exact Hfmt |].
  unfold flight_summary. rewrite Hfmt, Hdetails. cbn [bind].
  destruct (split_line _ (header_one_line _ Hid)) as (_ & Hmore).
  destruct middle as [| line middle]; cbn [app join].
  all: match goal with
       | |- context [split _ (_ +++ newline +++ ?t)] => destruct (Hmore t) as (ts & ->)
       end; reflexivity.
Qed.

(** ** From the search to the order line *)

(** After a successful search the offer can always be added, and the line
    added is made from the first offering of the response: it is booked on the
    order of the wizard, once, without a product, at the total price of that
    offering, 0.0 when the offering has none. *)
Lemma add_after_search (w w' : wizard) (response_data : json)
  (lines : list sale_order_line) :
  _process_flight_results w response_data = Ok w' ->
  exists first_offering rest total_price line log,
    document_offerings response_data = first_offering :: rest /\
    action_add_selected_offers w' lines = Ok (lines ++ [line], log) /\
    order_id line = so_id (sale_order_id w) /\
    product_uom_qty line = 1 /\
    product_id line = None /\
    py_get first_offering "TotalPrice" (JObj []) = Ok total_price /\
    py_get total_price "value" (JFloat 0) = Ok (price_unit line).
Proof.
  intros H.
  destruct (process_flight_results_records _ _ _ H)
    as (offerings & fm & pm & Hcol & Hne & Hw' & Hrecords).
  destruct offerings as [| o os]; [contradiction |].
  change (firstn 50 (o :: os)) with (o :: firstn 49 os) in Hrecords.
  unfold enumerate in Hrecords. cbn [List.length seq combine mapM] in Hrecords.
  apply bind_ok in Hrecords as (first & Hfirst & Hrecords).
  apply bind_ok in Hrecords as (others & _ & Hrecords).
  injection Hrecords as Hoffers.
  destruct (offer_values_parts w fm pm 0 o first Hfirst)
    as (total_price & price_text & middle & Htotal & Hvalue & _).
  exists o, os, total_price. unfold action_add_selected_offers.
  rewrite <- Hoffers. eexists _, _.
  split; [unfold document_offerings; now rewrite Hcol |].
  split; [reflexivity |]. cbn [order_id product_uom_qty product_id price_unit].
  split; [rewrite Hw'; reflexivity |].
  split; [reflexivity |]. split; [reflexivity |]. split; assumption.
Qed.

End Travelport.

(* ===================================================================== *)
(** * 7. The statements at closed inputs *)
(* ===================================================================== *)

(** The sample response, with its two offerings, is turned into two offers. *)
Lemma process_flight_results_cap_and_order_witness :
  exists w',
    _process_flight_results plain_repr plain_dumps one_way_wizard sample_response = Ok w' /\
    exists offerings,
      catalog_offering_list_of sample_response = Ok (JArr offerings) /\
      (List.length (flight_offers w') <= 50)%nat /\
      (List.length (flight_offers w') <= List.length offerings)%nat /\
      List.length (flight_offers w') = Nat.min 50 (List.length offerings) /\
      Forall2 (fun record offering =>
                 raw_data record = plain_dumps offering /\
                 py_get offering "id" (JStr "") = Ok (offer_id record))
              (flight_offers w') (firstn 50 offerings).
Proof.
  eexists. split; [vm_compute; reflexivity |].
  apply (process_flight_results_cap_and_order plain_repr plain_dumps one_way_wizard _
                                              sample_response).
  vm_compute. reflexivity.
Defined.

(** The offerings container is present and empty, and a [UserError] is
    raised: raising a user-facing error is not equivalent to lacking the
    container. *)
Lemma empty_offerings_raise_user_error :
  ~ ((exists msg,
        _process_flight_results plain_repr plain_dumps one_way_wizard empty_response
        = Raise (UserError msg)) <->
     has_offerings_container empty_response = false).
Proof.
  intros [Hraise _].
  assert (Hlacks : has_offerings_container empty_response = false).
  { apply Hraise. exists no_offers_found. vm_compute. reflexivity. }
  vm_compute in Hlacks. discriminate Hlacks.
Qed.

(** The sample response has the shape of the schema. *)
Lemma process_flight_results_failures_witness :
  response_shaped sample_response = true /\
  ((exists w',
      _process_flight_results plain_repr plain_dumps one_way_wizard sample_response = Ok w') \/
   _process_flight_results plain_repr plain_dumps one_way_wizard sample_response
   = Raise (UserError no_valid_response) \/
   _process_flight_results plain_repr plain_dumps one_way_wizard sample_response
   = Raise (UserError no_offers_found)).
Proof.
  split; [reflexivity |].
  apply (proj2 (proj2 (proj2 (process_flight_results_failures
                                plain_repr plain_dumps one_way_wizard sample_response)))).
  reflexivity.
Defined.

(** The round trip of the samples is validated and has its two legs. *)
Lemma search_criteria_flight_legs_witness :
  validated round_trip_wizard /\
  exists d legs,
    departure_date round_trip_wizard = Some d /\
    _prepare_search_criteria_flight round_trip_wizard = Ok legs /\
    List.length legs = 2%nat /\
    (is_round_trip round_trip_wizard = false -> legs = [outbound_leg d round_trip_wizard]) /\
    (is_round_trip round_trip_wizard = true ->
     exists r leg1 leg2,
       return_date round_trip_wizard = Some r /\
       legs = [leg1; leg2] /\
       py_getitem leg1 "departureDate" = Ok (JStr (strftime_ymd d)) /\
       py_getitem leg2 "departureDate" = Ok (JStr (strftime_ymd r)) /\
       leg_value leg1 "From" = Ok (JStr (upper (origin round_trip_wizard))) /\
       leg_value leg1 "To" = Ok (JStr (upper (destination round_trip_wizard))) /\
       leg_value leg2 "From" = leg_value leg1 "To" /\
       leg_value leg2 "To" = leg_value leg1 "From").
Proof.
  assert (V : validated round_trip_wizard).
  { unfold validated. repeat split; try reflexivity. discriminate. }
  split; [exact V |].
  exact (search_criteria_flight_legs round_trip_wizard V).
Defined.

(** With the second offer selected, the line is still made from the first. *)
Lemma add_selected_offers_takes_first_witness :
  (exists first second,
     flight_offers second_selected_wizard = [first; second] /\
     selected first = false /\ selected second = true) /\
  exists log,
    action_add_selected_offers plain_repr second_selected_wizard []
    = Ok ([{| order_id := 7;
              name := "first";
              product_uom_qty := 1;
              price_unit := JFloat 472.5;
              product_id := None |}], log).
Proof.
  split; [do 2 eexists; repeat split; reflexivity |].
  exact (proj1 (proj2 (proj2 (add_selected_offers_takes_first
                                plain_repr second_selected_wizard [])))
               _ _ eq_refl).
Defined.

(** Two children of ages "5,9". *)
Lemma child_ages_validation_and_entries_witness :
  passenger_child_count round_trip_wizard = 2 /\
  passenger_child_ages round_trip_wizard = Some "5,9" /\
  _check_child_ages round_trip_wizard = Ok tt /\
  exists criteria,
    _prepare_passenger_criteria round_trip_wizard = Ok (criteria, []) /\
    filter is_child_entry criteria = [child_entry 5; child_entry 9].
Proof.
  split; [reflexivity |]. split; [reflexivity |].
  exact (proj1 (proj2 child_ages_validation_and_entries) round_trip_wizard
               eq_refl eq_refl).
Defined.

(** A return on the day of the departure is rejected. *)
Lemma check_return_date_rejects_witness :
  is_round_trip same_day_wizard = true /\
  return_date same_day_wizard = departure_date same_day_wizard /\
  _check_return_date same_day_wizard
  = Raise (ValidationError "Return date must be after departure date.").
Proof.
  split; [reflexivity |]. split; [reflexivity |].
  exact (proj1 (proj2 (check_return_date_rejects same_day_wizard eq_refl))
               (mkdate 2025 3 1) eq_refl eq_refl).
Defined.

(** The offering whose product reference names nothing, in a round trip. *)
Lemma unresolved_offering_falls_back_witness :
  offering_shaped dangling_offering = true /\
  maps_shaped sample_flight_map sample_product_map /\
  resolved_flights sample_flight_map sample_product_map (offering_refs dangling_offering) = [] /\
  exists offering_id price_value price_currency price_text,
    py_get dangling_offering "id" (JStr "") = Ok offering_id /\
    format_2f price_value = Ok price_text /\
    route_lines round_trip_wizard
    = ["Route: " +++ origin round_trip_wizard +++ arrow +++ destination round_trip_wizard] ++
      (if is_round_trip round_trip_wizard
       then ["Return: " +++ destination round_trip_wizard +++ arrow
             +++ origin round_trip_wizard]
       else []) /\
    offer_values plain_repr plain_dumps round_trip_wizard
                 sample_flight_map sample_product_map 1 dangling_offering
    = Ok {| wizard_id := wiz_id round_trip_wizard;
            offer_id := offering_id;
            selected := false;
            price := price_value;
            currency := price_currency;
            flight_details :=
              join newline
                   (["Flight Offer: " +++ py_str plain_repr offering_id] ++
                    route_lines round_trip_wizard ++
                    ["Price: " +++ py_str plain_repr price_currency +++ " " +++ price_text]);
            raw_data := plain_dumps dangling_offering |}.
Proof.
  assert (M : maps_shaped sample_flight_map sample_product_map).
  { split; repeat constructor. }
  split; [reflexivity |]. split; [exact M |]. split; [reflexivity |].
  exact (unresolved_offering_falls_back plain_repr plain_dumps round_trip_wizard
           sample_flight_map sample_product_map 1 dangling_offering eq_refl M eq_refl).
Defined.

(** CDG to NRT is not in the table. *)
Lemma unknown_route_gives_empty_result_witness :
  request_shaped (payload_of paris_wizard) = true /\
  route_in_table (request_origin (payload_of paris_wizard))
                 (request_destination (payload_of paris_wizard)) = false /\
  search_flights plain_repr steady_tape (payload_of paris_wizard)
  = Response 200 empty_result /\
  response_offerings (search_flights plain_repr steady_tape (payload_of paris_wizard)) = [].
Proof.
  split; [reflexivity |]. split; [reflexivity |].
  exact (unknown_route_gives_empty_result plain_repr steady_tape (payload_of paris_wizard)
                                          eq_refl eq_refl).
Defined.

(** A sixth reference that names a flight adds nothing to the line of the
    first product. *)
Lemma product_refs_beyond_fifth_ignored_witness :
  exists line,
    product_flight_details plain_repr sample_flight_map sample_product_map five_refs
    = Ok [line] /\
    firstn 5 (five_refs ++ [JStr "F1"]) = firstn 5 five_refs /\
    resolve_flight_details plain_repr sample_flight_map sample_product_map five_refs
    = Ok [line] /\
    resolve_flight_details plain_repr sample_flight_map sample_product_map
                           (five_refs ++ [JStr "F1"])
    = Ok [line].
Proof.
  eexists. split; [vm_compute; reflexivity |]. split; [reflexivity |].
  apply (proj1 (proj2 (product_refs_beyond_fifth_ignored
                         plain_repr sample_flight_map sample_product_map))
               five_refs (five_refs ++ [JStr "F1"])).
  - vm_compute. reflexivity.
  - reflexivity.
Defined.

(** The round trip of the samples builds its request. *)
Lemma prepare_api_payload_validated_witness :
  validated round_trip_wizard /\
  exists payload log, _prepare_api_payload round_trip_wizard = Ok (payload, log).
Proof.
  assert (V : validated round_trip_wizard).
  { unfold validated. repeat split; try reflexivity. discriminate. }
  split; [exact V |].
  exact (prepare_api_payload_validated round_trip_wizard V).
Defined.

(** The request of the round trip: lower-case codes are sent in upper case,
    four passengers, Business. *)
Lemma prepare_api_payload_shaped_witness :
  _prepare_api_payload round_trip_wizard = Ok (payload_of round_trip_wizard, []) /\
  request_shaped (payload_of round_trip_wizard) = true /\
  request_origin (payload_of round_trip_wizard) = upper (origin round_trip_wizard).
Proof.
  split; [reflexivity |].
  destruct (prepare_api_payload_shaped round_trip_wizard (payload_of round_trip_wizard) []
                                       eq_refl) as (Hshape & Horigin & _).
  split; [exact Hshape | exact Horigin].
Defined.

(** Ages "5,x" for two children: one entry and one warning. *)
Lemma child_entries_and_warnings_witness :
  validated mixed_ages_wizard /\
  0 < passenger_child_count mixed_ages_wizard /\
  exists criteria log,
    _prepare_passenger_criteria mixed_ages_wizard = Ok (criteria, log) /\
    Z.of_nat (List.length (filter is_child_entry criteria)) + Z.of_nat (List.length log)
    = passenger_child_count mixed_ages_wizard.
Proof.
  assert (V : validated mixed_ages_wizard).
  { unfold validated. repeat split; try reflexivity. discriminate. }
  split; [exact V |]. split; [reflexivity |].
  exact (proj1 (child_entries_and_warnings mixed_ages_wizard) V eq_refl).
Defined.

(** The sample response leaves two offers, the first one selected. *)
Lemma process_flight_results_leaves_witness :
  exists w',
    _process_flight_results plain_repr plain_dumps one_way_wizard sample_response = Ok w' /\
    has_results w' = true /\
    forall previous,
      _process_flight_results plain_repr plain_dumps
                              (with_flight_offers one_way_wizard previous) sample_response
      = Ok w'.
Proof.
  eexists. split; [vm_compute; reflexivity |].
  match goal with
  | |- has_results ?w' = true /\ _ =>
      destruct (process_flight_results_leaves plain_repr plain_dumps one_way_wizard
                  w' sample_response) as (_ & Hprevious & Hresults & _)
  end.
  - vm_compute. reflexivity.
  - split; [exact Hresults | exact Hprevious].
Defined.

(** The record of the first sample offering. *)
Lemma offer_values_description_witness :
  exists record,
    offer_values plain_repr plain_dumps one_way_wizard sample_flight_map sample_product_map
                 0 resolved_offering
    = Ok record /\
    exists total_price price_text middle,
      py_get resolved_offering "TotalPrice" (JObj []) = Ok total_price /\
      py_get total_price "value" (JFloat 0) = Ok (price record) /\
      py_get total_price "code" (JStr "USD") = Ok (currency record) /\
      format_2f (price record) = Ok price_text /\
      middle <> [] /\
      flight_details record
      = join newline
             (["Flight Offer: " +++ py_str plain_repr (offer_id record)]
              ++ middle ++
              ["Price: " +++ py_str plain_repr (currency record) +++ " " +++ price_text]).
Proof.
  eexists. split; [vm_compute; reflexivity |].
  apply (offer_values_description plain_repr plain_dumps one_way_wizard
           sample_flight_map sample_product_map 0 resolved_offering).
  vm_compute. reflexivity.
Defined.

(** An offering with an id only. *)
Lemma missing_total_price_defaults_witness :
  assoc "TotalPrice" priceless_fields = None /\
  exists record,
    offer_values plain_repr plain_dumps one_way_wizard sample_flight_map sample_product_map
                 0 (JObj priceless_fields)
    = Ok record /\
    price record = JFloat 0 /\
    currency record = JStr "USD" /\
    exists lines, flight_details record = join newline (lines ++ ["Price: USD 0.00"]).
Proof.
  split; [reflexivity |]. eexists. split; [vm_compute; reflexivity |].
  apply (missing_total_price_defaults plain_repr plain_dumps one_way_wizard
           sample_flight_map sample_product_map 0 priceless_fields).
  - reflexivity.
  - vm_compute. reflexivity.
Defined.

(** A reference that names a flight and no product. *)
Lemma direct_references_all_read_witness :
  maps_shaped sample_flight_map sample_product_map /\
  resolve_flight_details plain_repr sample_flight_map sample_product_map [JStr "F1"]
  = Ok (flat_map (flight_texts plain_repr)
                 (flat_map (flight_at sample_flight_map) [JStr "F1"])).
Proof.
  assert (M : maps_shaped sample_flight_map sample_product_map).
  { split; repeat constructor. }
  split; [exact M |].
  apply (direct_references_all_read plain_repr sample_flight_map sample_product_map
                                    [JStr "F1"] M eq_refl).
  intros r [<- | []]. reflexivity.
Defined.

(** The maps of the sample reference list, at the flight id "F1". *)
Lemma build_reference_maps_lookup_witness :
  build_reference_maps sample_reference_list = Ok (sample_flight_map, sample_product_map) /\
  exists items,
    py_iter sample_reference_list = Ok items /\
    dict_lookup sample_flight_map (JStr "F1")
    = last_with_id "F1" (listed_records "ReferenceListFlight" "Flight" items) /\
    dict_lookup sample_product_map (JStr "F1")
    = last_with_id "F1" (listed_records "ReferenceListProduct" "Product" items).
Proof.
  split; [reflexivity |].
  apply (build_reference_maps_lookup sample_reference_list sample_flight_map
                                     sample_product_map "F1").
  - discriminate.
  - reflexivity.
Defined.

(** An empty object, and a body that is no object. *)
Lemma search_flights_rejects_witness :
  lacks_search_criteria (JObj []) = true /\
  search_flights plain_repr steady_tape (JObj [])
  = Response 400 (JObj [("error", JStr "No search criteria provided")]) /\
  is_dict JNull = false /\
  search_flights plain_repr steady_tape JNull = ServerError AttributeError.
Proof.
  split; [reflexivity |].
  split; [exact (proj1 (search_flights_rejects plain_repr steady_tape (JObj [])) eq_refl) |].
  split; [reflexivity |].
  exact (proj2 (search_flights_rejects plain_repr steady_tape JNull) eq_refl).
Defined.

(** The answer to the round trip of the samples has the shape of the schema. *)
Lemma mock_answer_integrity_witness :
  request_shaped (payload_of round_trip_wizard) = true /\
  route_in_table (request_origin (payload_of round_trip_wizard))
                 (request_destination (payload_of round_trip_wizard)) = true /\
  float_of_int (request_passenger_count (payload_of round_trip_wizard)) = Ok 4%float /\
  mock_segments (payload_of round_trip_wizard) = 2%nat /\
  exists body,
    search_flights plain_repr steady_tape (payload_of round_trip_wizard) = Response 200 body /\
    response_shaped body = true /\
    (3 <= List.length (document_offerings body) <= 5)%nat.
Proof.
  split; [reflexivity |]. split; [reflexivity |]. split; [reflexivity |].
  split; [reflexivity |].
  destruct (mock_answer_integrity plain_repr steady_tape (payload_of round_trip_wizard)
                                  4%float eq_refl eq_refl eq_refl)
    as (body & Hanswer & Hshape & Hcount & _).
  exists body. split; [exact Hanswer |]. split; [exact Hshape | exact Hcount].
Defined.

(** The answer to the round trip of the samples, read by the interpreter. *)
Lemma mock_answer_resolved_witness :
  request_shaped (payload_of round_trip_wizard) = true /\
  route_in_table (request_origin (payload_of round_trip_wizard))
                 (request_destination (payload_of round_trip_wizard)) = true /\
  float_of_int (request_passenger_count (payload_of round_trip_wizard)) = Ok 4%float /\
  exists body w',
    search_flights plain_repr steady_tape (payload_of round_trip_wizard) = Response 200 body /\
    _process_flight_results plain_repr plain_dumps round_trip_wizard body = Ok w' /\
    (3 <= List.length (flight_offers w') <= 5)%nat.
Proof.
  split; [reflexivity |]. split; [reflexivity |]. split; [reflexivity |].
  destruct (mock_answer_resolved plain_repr plain_dumps round_trip_wizard steady_tape
                                 (payload_of round_trip_wizard) 4%float
                                 eq_refl eq_refl eq_refl)
    as (body & w' & Hanswer & Hw' & Hcount & _).
  exists body, w'. split; [exact Hanswer |]. split; [exact Hw' | exact Hcount].
Defined.

(** The one-way search of the samples against the mock. *)
Lemma search_against_mock_witness :
  check_airport_codes one_way_wizard = Ok tt /\
  _prepare_api_payload one_way_wizard = Ok (payload_of one_way_wizard, []) /\
  route_in_table (origin one_way_wizard) (destination one_way_wizard) = true /\
  float_of_int (request_passenger_count (payload_of one_way_wizard)) = Ok 1%float /\
  exists w',
    action_search_flights plain_repr plain_dumps plain_text plain_config
                          (mock_transport plain_repr plain_dumps plain_text steady_tape)
                          one_way_wizard
    = Ok (w', []) /\
    (3 <= List.length (flight_offers w') <= 5)%nat.
Proof.
  split; [reflexivity |]. split; [reflexivity |]. split; [reflexivity |].
  split; [reflexivity |].
  destruct (search_against_mock plain_repr plain_dumps plain_text plain_config steady_tape
                                one_way_wizard (payload_of one_way_wizard) [] 1%float
                                eq_refl eq_refl eq_refl eq_refl)
    as (w' & Haction & Hcount & _).
  exists w'. split; [exact Haction | exact Hcount].
Defined.

(** The search from CDG to NRT against the mock. *)
Lemma search_against_mock_unknown_route_witness :
  check_airport_codes paris_wizard = Ok tt /\
  _prepare_api_payload paris_wizard = Ok (payload_of paris_wizard, []) /\
  route_in_table (origin paris_wizard) (destination paris_wizard) = false /\
  action_search_flights plain_repr plain_dumps plain_text plain_config
                        (mock_transport plain_repr plain_dumps plain_text steady_tape)
                        paris_wizard
  = Raise (UserError ("Unexpected error: " +++ no_offers_found)).
Proof.
  split; [reflexivity |]. split; [reflexivity |]. split; [reflexivity |].
  exact (search_against_mock_unknown_route plain_repr plain_dumps plain_text plain_config
           steady_tape paris_wizard (payload_of paris_wizard) [] eq_refl eq_refl eq_refl).
Defined.

(** A remote end that cannot be reached. *)
Lemma action_search_flights_errors_witness :
  check_airport_codes one_way_wizard = Ok tt /\
  _prepare_api_payload one_way_wizard = Ok (payload_of one_way_wizard, []) /\
  action_search_flights plain_repr plain_dumps plain_text plain_config
                        unreachable_transport one_way_wizard
  = Raise (UserError "Error connecting to Travelport API: Connection refused") /\
  exists detail,
    UserError "Error connecting to Travelport API: Connection refused"
    = UserError ("Error connecting to Travelport API: " +++ detail) \/
    UserError "Error connecting to Travelport API: Connection refused"
    = UserError ("Invalid JSON response from Travelport API: " +++ detail) \/
    UserError "Error connecting to Travelport API: Connection refused"
    = UserError ("Unexpected error: " +++ detail).
Proof.
  split; [reflexivity |]. split; [reflexivity |]. split; [reflexivity |].
  exact (action_search_flights_errors plain_repr plain_dumps plain_text plain_config
           unreachable_transport one_way_wizard (payload_of one_way_wizard) [] _
           eq_refl eq_refl eq_refl).
Defined.

(** A remote end that answers 503 with a text that is no JSON. *)
Lemma http_error_reported_as_unexpected_witness :
  check_airport_codes one_way_wizard = Ok tt /\
  _prepare_api_payload one_way_wizard = Ok (payload_of one_way_wizard, []) /\
  400 <= 503 < 600 /\
  action_search_flights plain_repr plain_dumps plain_text plain_config
                        unavailable_transport one_way_wizard
  = Raise (UserError "Unexpected error: Travelport API Error (HTTP 503): Service Unavailable").
Proof.
  assert (R : 400 <= 503 < 600) by (split; [discriminate | reflexivity]).
  split; [reflexivity |]. split; [reflexivity |]. split; [exact R |].
  exact (http_error_reported_as_unexpected plain_repr plain_dumps plain_text plain_config
           unavailable_transport one_way_wizard (payload_of one_way_wizard) []
           503 "Service Unavailable" (DecodeFailed "Expecting value" true)
           eq_refl eq_refl R (fun _ _ _ => eq_refl)).
Defined.

(** The summary of the record of the first sample offering. *)
Lemma summary_of_processed_offer_witness :
  exists record,
    offer_values plain_repr plain_dumps one_way_wizard sample_flight_map sample_product_map
                 0 resolved_offering
    = Ok record /\
    is_substring newline (py_str plain_repr (offer_id record)) = false /\
    exists price_text,
      format_2f (price record) = Ok price_text /\
      flight_summary plain_repr record
      = Ok ("Flight Offer: " +++ py_str plain_repr (offer_id record)
            +++ " - " +++ py_str plain_repr (currency record)
            +++ " " +++ price_text).
Proof.
  eexists. split; [vm_compute; reflexivity |]. split; [vm_compute; reflexivity |].
  apply (summary_of_processed_offer plain_repr plain_dumps one_way_wizard
           sample_flight_map sample_product_map 0 resolved_offering).
  - vm_compute. reflexivity.
  - vm_compute. reflexivity.
Defined.

(** The line added after the sample response was processed. *)
Lemma add_after_search_witness :
  exists w',
    _process_flight_results plain_repr plain_dumps one_way_wizard sample_response = Ok w' /\
    exists first_offering rest total_price line log,
      document_offerings sample_response = first_offering :: rest /\
      action_add_selected_offers plain_repr w' [] = Ok ([] ++ [line], log) /\
      order_id line = so_id (sale_order_id one_way_wizard) /\
      product_uom_qty line = 1 /\
      product_id line = None /\
      py_get first_offering "TotalPrice" (JObj []) = Ok total_price /\
      py_get total_price "value" (JFloat 0) = Ok (price_unit line).
Proof.
  eexists. split; [vm_compute; reflexivity |].
  apply (add_after_search plain_repr plain_dumps one_way_wizard _ sample_response []).
  vm_compute. reflexivity.
Defined.
